(** * Serial JSON monitor: the reader loop and the deviation heat map

    A shallow embedding of [main.py] (reader loop, table classifier,
    display formatting, heat-map colouring, rule resolution, render skip)
    and the properties the specification states about them.  The reader
    loop and the classifier of [main_key.py] are the same code.

    Python floats are IEEE 754 binary64 numbers; they are modelled by the
    standard library's [spec_float] at precision 53 and maximal exponent
    1024, whose operations round to nearest, ties to even, as CPython's do. *)

From Stdlib Require Import ZArith List String Ascii Bool Lia.
From Stdlib Require Import SpecFloat DecimalString.
From stdpp Require Import base option gmap strings.

Import ListNotations.
Open Scope string_scope.
Open Scope Z_scope.

(** ** Python floats *)

Module Float.

Definition prec : Z := 53.
Definition emax : Z := 1024.

Definition float : Type := spec_float.

Definition add : float -> float -> float := SFadd prec emax.
Definition sub : float -> float -> float := SFsub prec emax.
Definition mul : float -> float -> float := SFmul prec emax.
Definition abs : float -> float := SFabs.
Definition eqb : float -> float -> bool := SFeqb.
Definition ltb : float -> float -> bool := SFltb.
Definition leb : float -> float -> bool := SFleb.

Definition zero : float := S754_zero false.

(** The float nearest to an integer (ties to even); an infinity when the
    integer is beyond the range. *)
Definition of_Z (z : Z) : float := binary_normalize prec emax z 0 false.

(** The float nearest to the fraction [n / d]: the value of a decimal
    literal such as [0.1] = 1 / 10. *)
Definition of_ratio (n : Z) (d : positive) : float :=
  match n with
  | Z0 => S754_zero false
  | Zpos m =>
      let '(q, e, l) := SFdiv_core_binary prec emax (Zpos m) 0 (Zpos d) 0 in
      binary_round_aux prec emax false q e l
  | Zneg m =>
      let '(q, e, l) := SFdiv_core_binary prec emax (Zpos m) 0 (Zpos d) 0 in
      binary_round_aux prec emax true q e l
  end.

Definition is_zero (x : float) : bool :=
  match x with S754_zero _ => true | _ => false end.

Definition is_nan (x : float) : bool :=
  match x with S754_nan => true | _ => false end.

(** The sign bit; a NaN has none. *)
Definition signbit (x : float) : bool :=
  match x with
  | S754_zero s | S754_infinity s | S754_finite s _ _ => s
  | S754_nan => false
  end.

End Float.

Abbreviation float := Float.float.

Local Open Scope list_scope.

(** ** Exceptions

    A computation returns a value or raises; [try ... except Exception]
    catches every constructor below. *)

Inductive exn : Type :=
| TypeError | ValueError | OverflowError | ZeroDivisionError | IndexError
| JSONDecodeError | RecursionError.

Inductive result (A : Type) : Type :=
| Ok (a : A)
| Raise (e : exn).
Arguments Ok {A} a.
Arguments Raise {A} e.

#[global] Instance result_ret : MRet result := fun A a => Ok a.

#[global] Instance result_bind : MBind result := fun A B k m =>
  match m with
  | Ok a => k a
  | Raise e => Raise e
  end.

(** [try: m except Exception: h] *)
Definition try_except {A : Type} (m : result A) (h : A) : A :=
  match m with
  | Ok a => a
  | Raise _ => h
  end.

(** ** Decoded JSON values

    What [json.loads] returns: [None], [bool], [int] (unbounded), [float],
    [str], [list] and [dict].  A dict keeps its keys in insertion order. *)

#[local] Unset Elimination Schemes.
Inductive pyval : Type :=
| PNone
| PBool (b : bool)
| PInt (z : Z)
| PFloat (f : float)
| PStr (s : string)
| PList (items : list pyval)
| PDict (items : list (string * pyval)).
#[local] Set Elimination Schemes.

Section pyval_induction.
Variable P : pyval -> Prop.
Hypothesis HNone : P PNone.
Hypothesis HBool : forall b, P (PBool b).
Hypothesis HInt : forall z, P (PInt z).
Hypothesis HFloat : forall f, P (PFloat f).
Hypothesis HStr : forall s, P (PStr s).
Hypothesis HList : forall items, Forall P items -> P (PList items).
Hypothesis HDict :
  forall items, Forall (fun kv => P (snd kv)) items -> P (PDict items).

Fixpoint pyval_nested_ind (v : pyval) : P v :=
  match v with
  | PNone => HNone
  | PBool b => HBool b
  | PInt z => HInt z
  | PFloat f => HFloat f
  | PStr s => HStr s
  | PList items =>
      HList items
        ((fix go (l : list pyval) : Forall P l :=
            match l with
            | [] => @List.Forall_nil _ P
            | x :: l' => @List.Forall_cons _ P x l' (pyval_nested_ind x) (go l')
            end) items)
  | PDict items =>
      HDict items
        ((fix go (l : list (string * pyval)) : Forall (fun kv => P (snd kv)) l :=
            match l with
            | [] => @List.Forall_nil _ _
            | kv :: l' =>
                @List.Forall_cons _ (fun kv => P (snd kv)) kv l'
                  (pyval_nested_ind (snd kv)) (go l')
            end) items)
  end.
End pyval_induction.

Definition is_list (v : pyval) : bool :=
  match v with PList _ => true | _ => false end.

Definition is_dict (v : pyval) : bool :=
  match v with PDict _ => true | _ => false end.

(** ** Arithmetic as Python performs it *)

Module Py.
Import Float.

(** [x / y] on floats raises on a zero divisor and follows IEEE 754
    otherwise. *)
Definition div (x y : float) : result float :=
  if is_zero y then Raise ZeroDivisionError else Ok (SFdiv prec emax x y).

(** [max(a, b)] returns [a] unless [b > a]; [min(a, b)] returns [a] unless
    [b < a].  With a NaN the first argument is returned. *)
Definition max (a b : float) : float := if ltb a b then b else a.
Definition min (a b : float) : float := if ltb b a then b else a.

(** [int(x)]: truncation towards zero; raises on NaN and infinities. *)
Definition int (x : float) : result Z :=
  match x with
  | S754_zero _ => Ok 0
  | S754_nan => Raise ValueError
  | S754_infinity _ => Raise OverflowError
  | S754_finite s m e =>
      let n := match e with
               | Zneg k => Z.shiftr (Zpos m) (Zpos k)
               | _ => Z.shiftl (Zpos m) e
               end in
      Ok (if s then - n else n)
  end.

(** [sum(xs)] over floats, started from the integer 0: the additions are
    made from left to right.  (Recent versions of CPython carry a
    compensation term along; the two agree wherever the sum is exact, and
    nothing below depends on the order of the additions.) *)
Definition sum (xs : list float) : float := fold_left add xs zero.

End Py.

(** ** Strings *)

Module Str.

Definition eqb_ascii (a b : ascii) : bool := Ascii.eqb a b.

(** [s.rstrip(c)] for a one-character set [c]. *)
Fixpoint rstrip (c : ascii) (s : string) : string :=
  match s with
  | EmptyString => EmptyString
  | String a s' =>
      match rstrip c s' with
      | EmptyString => if eqb_ascii a c then EmptyString else String a EmptyString
      | r => String a r
      end
  end.

(** [s.split(c)[0]]: the text before the first [c]. *)
Fixpoint before (c : ascii) (s : string) : string :=
  match s with
  | EmptyString => EmptyString
  | String a s' => if eqb_ascii a c then EmptyString else String a (before c s')
  end.

(** The text after the first [c], when there is one. *)
Fixpoint after (c : ascii) (s : string) : option string :=
  match s with
  | EmptyString => None
  | String a s' => if eqb_ascii a c then Some s' else after c s'
  end.

Fixpoint contains (c : ascii) (s : string) : bool :=
  match s with
  | EmptyString => false
  | String a s' => eqb_ascii a c || contains c s'
  end.

Fixpoint repeat (c : ascii) (n : nat) : string :=
  match n with
  | O => EmptyString
  | S n' => String c (repeat c n')
  end.


End Str.

(** ** Fixed-point formatting: [f"{x:.{p}f}"]

    The exact value [m * 2^e * 10^p] is rounded to the nearest integer, ties
    to even, and printed with the decimal point [p] digits from the right. *)

Module Fmt.

Definition digit (d : Z) : ascii := ascii_of_nat (48 + Z.to_nat d).

(** Decimal digits of a natural number, most significant first. *)
Definition decimal (n : Z) : string :=
  NilZero.string_of_uint (N.to_uint (Z.to_N n)).

(** The [p] low decimal digits of [n], zero padded. *)
Fixpoint low_digits (p : nat) (n : Z) : string :=
  match p with
  | O => EmptyString
  | S p' => low_digits p' (n / 10) +:+ String (digit (n mod 10)) EmptyString
  end.

Definition round_half_even (num den : Z) : Z :=
  let q := num / den in
  let r := num mod den in
  match 2 * r ?= den with
  | Lt => q
  | Gt => q + 1
  | Eq => if Z.even q then q else q + 1
  end.

(** [|x| * 10^p] rounded to an integer, for a finite [x = m * 2^e]. *)
Definition scaled (p : nat) (m : positive) (e : Z) : Z :=
  match e with
  | Zneg k => round_half_even (Zpos m * 10 ^ Z.of_nat p) (2 ^ Zpos k)
  | _ => Zpos m * 2 ^ e * 10 ^ Z.of_nat p
  end.

Definition unsigned_fixed (p : nat) (n : Z) : string :=
  let scale := 10 ^ Z.of_nat p in
  decimal (n / scale) +:+
  match p with
  | O => EmptyString
  | S _ => String "." (low_digits p (n mod scale))
  end.

Definition sign (s : bool) : string := if s then "-" else EmptyString.

Definition fixed (p : nat) (x : float) : string :=
  match x with
  | S754_nan => "nan"
  | S754_infinity s => sign s +:+ "inf"
  | S754_zero s => sign s +:+ unsigned_fixed p 0
  | S754_finite s m e => sign s +:+ unsigned_fixed p (scaled p m e)
  end.

End Fmt.

(** ** Widgets

    The text of a label or table cell is a string the code builds, or
    Python's [str(v)] of a decoded value, which is kept symbolic. *)

Inductive text : Type :=
| Lit (s : string)
| StrOf (v : pyval).

Record QColor : Type := mkQColor { red : Z; green : Z; blue : Z }.

Record QTableWidgetItem : Type :=
  mkItem { item_text : text; item_background : option QColor }.

Record QTableWidget : Type :=
  mkTable { rowCount : nat; columnCount : nat;
            table_items : list (list QTableWidgetItem) }.

Inductive widget : Type :=
| QLabel (label_text : text) (bold : bool) (indent : Z)
| QTable (t : QTableWidget).

(** The two hues of the heat map. *)
Inductive band : Type := InBand | OutOfBand.

Definition getitem {A : Type} (l : list A) (i : nat) : result A :=
  match l !! i with
  | Some x => Ok x
  | None => Raise IndexError
  end.

(** [for x in xs: ...] collecting one result per iteration. *)
Fixpoint for_each {A B : Type} (f : A -> result B) (xs : list A)
  : result (list B) :=
  match xs with
  | [] => Ok []
  | x :: xs' => y ← f x; ys ← for_each f xs'; Ok (y :: ys)
  end.

(** ** The interpreter

    Two conversions of the Python runtime are taken as an interface:
    [float(s)] on a string, [None] standing for [ValueError], and
    [json.loads], which raises [JSONDecodeError] on text that is not JSON.
    The development holds for every implementation of it. *)

Class Interpreter : Type :=
  { float_of_str : string -> option float;
    json_loads : string -> result pyval }.

Section Viewer.

Context `{Interpreter}.

(** [float(v)] *)
Definition py_float (v : pyval) : result float :=
  match v with
  | PNone => Raise TypeError
  | PBool b => Ok (Float.of_Z (if b then 1 else 0))
  | PInt z =>
      match Float.of_Z z with
      | S754_infinity _ => Raise OverflowError
      | f => Ok f
      end
  | PFloat f => Ok f
  | PStr s =>
      match float_of_str s with
      | Some f => Ok f
      | None => Raise ValueError
      end
  | PList _ | PDict _ => Raise TypeError
  end.

(** *** [TableViewer.is_2d_array] *)
Definition is_2d_array (arr : pyval) : bool :=
  match arr with
  | PList rows =>
      match rows with
      | [] => false
      | first :: _ =>
          forallb is_list rows &&
          forallb (fun r =>
                     match r, first with
                     | PList cells, PList cells0 =>
                         Nat.eqb (length cells) (length cells0)
                     | _, _ => false
                     end) rows
      end
  | _ => false
  end.

(** The rows of a list of lists. *)
Fixpoint as_rows (arr : list pyval) : result (list (list pyval)) :=
  match arr with
  | [] => Ok []
  | PList cells :: arr' => rows ← as_rows arr'; Ok (cells :: rows)
  | _ :: _ => Raise TypeError
  end.

(** *** [TableViewer._format_for_display]

    [f"{num:.{p}f}"]: the format takes a precision up to [INT_MAX], which
    is 2^31 - 1, and raises [ValueError] above it, whatever the number. *)
Definition format_fixed (precision : nat) (num : float) : result string :=
  if Z.of_nat precision <? 2 ^ 31 then Ok (Fmt.fixed precision num)
  else Raise ValueError.

Definition _format_for_display (precision : nat) (val : pyval) : text :=
  try_except
    (num ← py_float val;
     s ← format_fixed precision num;
     let s := if Nat.ltb 0 precision
              then Str.rstrip "." (Str.rstrip "0" s)
              else Str.before "." s in
     Ok (Lit s))
    (StrOf val).

(** *** Colour helpers *)
Definition _lerp (a b : Z) (t : float) : result Z :=
  Py.int (Float.add (Float.of_Z a)
            (Float.mul (Float.of_Z (b - a))
               (Py.max Float.zero (Py.min (Float.of_Z 1) t)))).

Definition _qcolor_from_rgb (r g b : Z) : QColor := mkQColor r g b.

Definition _green_color (t : float) : result QColor :=
  r ← _lerp 234 184 t;
  g ← _lerp 251 240 t;
  b ← _lerp 234 184 t;
  Ok (_qcolor_from_rgb r g b).

Definition _red_color (t : float) : result QColor :=
  r ← _lerp 255 255 t;
  g ← _lerp 234 140 t;
  b ← _lerp 234 140 t;
  Ok (_qcolor_from_rgb r g b).

(** *** [load_config]

    The threshold stored for one entry of [heatmaps]:
    [max(0.0, md)]. *)
Definition heatmap_threshold (md : float) : float := Py.max Float.zero md.

(** *** [TableViewer.add_table] *)

Definition red_cap_factor : float := Float.of_Z 5.
Definition min_denom : float := Float.of_ratio 1 (10 ^ 12).

(** [nums]: the two loops that collect [float(v)] of every cell for which
    the conversion does not raise. *)
Definition collect_nums (table_data : list (list pyval)) : list float :=
  fold_left
    (fun nums r =>
       fold_left
         (fun nums v =>
            match py_float v with
            | Ok x => nums ++ [x]
            | Raise _ => nums
            end) r nums)
    table_data [].

(** [avg = sum(nums) / len(nums) if nums else 0.0] *)
Definition average (nums : list float) : result float :=
  match nums with
  | [] => Ok Float.zero
  | _ :: _ => Py.div (Py.sum nums) (Float.of_Z (Z.of_nat (length nums)))
  end.

(** [diff = abs(num - avg) / abs(avg)] *)
Definition relative_deviation (num avg : float) : result float :=
  Py.div (Float.abs (Float.sub num avg)) (Float.abs avg).

(** The body of the [try] in the cell loop, up to the choice of the hue
    and of the interpolation parameter [t]. *)
Definition heat_param (max_dev avg : float) (raw_val : pyval)
  : result (band * float) :=
  num ← py_float raw_val;
  diff ← relative_deviation num avg;
  if Float.leb diff max_dev then
    t ← Py.div diff max_dev;
    Ok (InBand, t)
  else
    let over := Float.sub diff max_dev in
    let denom := Py.max (Float.mul max_dev red_cap_factor) min_denom in
    q ← Py.div over denom;
    Ok (OutOfBand, Py.max Float.zero (Py.min (Float.of_Z 1) q)).

Definition band_color (bt : band * float) : result QColor :=
  match bt with
  | (InBand, t) => _green_color t
  | (OutOfBand, t) => _red_color t
  end.

(** The background a cell is given, if any. *)
Definition cell_background (max_dev : option float) (avg : float)
    (raw_val : pyval) : option QColor :=
  match max_dev with
  | Some md =>
      if negb (Float.eqb avg Float.zero) then
        try_except
          (bt ← heat_param md avg raw_val;
           color ← band_color bt;
           Ok (Some color))
          None
      else None
  | None => None
  end.

Definition make_item (precision : nat) (max_dev : option float)
    (avg : float) (raw_val : pyval) : QTableWidgetItem :=
  mkItem (_format_for_display precision raw_val)
         (cell_background max_dev avg raw_val).

Definition add_table (precision : nat) (table_data : list (list pyval))
    (max_dev : option float) : result QTableWidget :=
  let rows := length table_data in
  first ← getitem table_data 0;
  let cols := length first in
  avg ← average (collect_nums table_data);
  items ←
    for_each
      (fun i =>
         for_each
           (fun j =>
              row ← getitem table_data i;
              raw_val ← getitem row j;
              Ok (make_item precision max_dev avg raw_val))
           (seq 0 cols))
      (seq 0 rows);
  Ok (mkTable rows cols items).

(** *** Python's [==] on decoded values

    Numbers compare by value across [bool], [int] and [float], and a NaN
    equals nothing by value; a dict compares by keys, whatever their order.
    The items of two lists, and the values of two dicts, are compared by
    [x is y or x == y].  The two records compared here come from two calls
    of [json.loads]: they share no list and no dict, and every NaN in them
    is the one float object the [json] module keeps for the literal [NaN].
    So a NaN inside a list or a dict equals the NaN at the same place of
    the other record, by identity, while two NaN compared on their own are
    different. *)

Definition int_of_bool (b : bool) : Z := if b then 1 else 0.

Definition int_eq_float (z : Z) (f : float) : bool :=
  match f with
  | S754_zero _ => z =? 0
  | S754_finite s m e =>
      let n := if s then Zneg m else Zpos m in
      match e with
      | Zneg k => z * 2 ^ Zpos k =? n
      | _ => z =? n * 2 ^ e
      end
  | _ => false
  end.

Fixpoint assoc {A : Type} (k : string) (items : list (string * A))
  : option A :=
  match items with
  | [] => None
  | (k', v) :: rest => if String.eqb k k' then Some v else assoc k rest
  end.

(** [a is b or a == b], for two items, or two values under a key. *)
Fixpoint same_or_eq (a b : pyval) {struct a} : bool :=
  match a with
  | PNone => match b with PNone => true | _ => false end
  | PBool x =>
      match b with
      | PBool y => Bool.eqb x y
      | PInt z => int_of_bool x =? z
      | PFloat f => int_eq_float (int_of_bool x) f
      | _ => false
      end
  | PInt x =>
      match b with
      | PBool y => x =? int_of_bool y
      | PInt z => x =? z
      | PFloat f => int_eq_float x f
      | _ => false
      end
  | PFloat x =>
      match b with
      | PBool y => int_eq_float (int_of_bool y) x
      | PInt z => int_eq_float z x
      | PFloat f => (Float.is_nan x && Float.is_nan f) || Float.eqb x f
      | _ => false
      end
  | PStr s => match b with PStr t => String.eqb s t | _ => false end
  | PList xs =>
      match b with
      | PList ys =>
          (fix each (xs ys : list pyval) : bool :=
             match xs, ys with
             | [], [] => true
             | x :: xs', y :: ys' => same_or_eq x y && each xs' ys'
             | _, _ => false
             end) xs ys
      | _ => false
      end
  | PDict xs =>
      match b with
      | PDict ys =>
          Nat.eqb (length xs) (length ys) &&
          (fix each (xs : list (string * pyval)) : bool :=
             match xs with
             | [] => true
             | (k, v) :: xs' =>
                 match assoc k ys with
                 | Some v' => same_or_eq v v'
                 | None => false
                 end && each xs'
             end) xs
      | _ => false
      end
  end.

(** [a == b] *)
Definition py_eq (a b : pyval) : bool :=
  match a, b with
  | PFloat x, PFloat f => Float.eqb x f
  | _, _ => same_or_eq a b
  end.

(** *** [TableViewer] *)

Record TableViewer : Type :=
  mkTableViewer {
    precision : nat;
    heatmap_rules : option (gmap string float);
    default_max_dev : float;
    content_layout : list widget;
    last_rendered : pyval }.

(** [TableViewer.__init__]: an empty rule dict counts as no rules. *)
Definition TableViewer_init (precision : option nat)
    (heatmap_rules : option (gmap string float))
    (default_max_dev : option float) : TableViewer :=
  mkTableViewer
    (default 3%nat precision)
    (match heatmap_rules with
     | Some rules => if decide (rules = ∅) then None else Some rules
     | None => None
     end)
    (default (Float.of_ratio 5 100) default_max_dev)
    [] PNone.

(** The threshold [render_data] hands to [add_table] for the matrix
    under [key]. *)
Definition max_dev_for (tv : TableViewer) (key : string) : option float :=
  match heatmap_rules tv with
  | None => Some (default_max_dev tv)
  | Some rules => rules !! key
  end.

Definition add_label (s : text) (bold : bool) : widget := QLabel s bold 0.

(** [TableViewer.render_data]: the widgets added to the layout, in
    order. *)
Fixpoint render_data (tv : TableViewer) (data : pyval) {struct data}
  : result (list widget) :=
  match data with
  | PDict items =>
      (fix each (items : list (string * pyval)) : result (list widget) :=
         match items with
         | [] => Ok []
         | (key, value) :: rest =>
             ws ← match value with
                  | PList arr =>
                      if is_2d_array value then
                        rows ← as_rows arr;
                        t ← add_table (precision tv) rows (max_dev_for tv key);
                        Ok [add_label (Lit (key +:+ ":")) true; QTable t]
                      else render_data tv value
                  | PDict _ => render_data tv value
                  | _ => Ok []
                  end;
             ws' ← each rest;
             Ok (ws ++ ws')
         end) items
  | PList items =>
      (fix each (items : list pyval) : result (list widget) :=
         match items with
         | [] => Ok []
         | item :: rest =>
             ws ← render_data tv item;
             ws' ← each rest;
             Ok (ws ++ ws')
         end) items
  | _ => Ok []
  end.

(** The step of the dict loop of [render_data] for one key. *)
Definition render_entry (tv : TableViewer) (key : string) (value : pyval)
  : result (list widget) :=
  match value with
  | PList arr =>
      if is_2d_array value then
        rows ← as_rows arr;
        t ← add_table (precision tv) rows (max_dev_for tv key);
        Ok [add_label (Lit (key +:+ ":")) true; QTable t]
      else render_data tv value
  | PDict _ => render_data tv value
  | _ => Ok []
  end.

(** The work done on a layout. *)
Inductive gui_event : Type :=
| Removed (w : widget)
| Added (w : widget).

(** [clear_layout]: every widget is taken out, first to last. *)
Definition clear_layout (layout : list widget) : list gui_event :=
  map Removed layout.

(** [TableViewer.display_tables]: the viewer afterwards and the work
    done. *)
Definition display_tables (tv : TableViewer) (data : pyval)
  : result (TableViewer * list gui_event) :=
  if py_eq data (last_rendered tv) then Ok (tv, [])
  else
    let cleared := clear_layout (content_layout tv) in
    added ← render_data tv data;
    Ok (mkTableViewer (precision tv) (heatmap_rules tv) (default_max_dev tv)
          added data,
        cleared ++ map Added added).

(** *** [App] *)

Record App : Type :=
  mkApp { table_viewer : TableViewer; non_table_layout : list widget }.

Definition add_wrapping_label (s : text) (bold : bool) (indent : Z)
  : widget := QLabel s bold indent.

(** [recurse] of [App.render_non_table]. *)
Fixpoint recurse (d : pyval) : list widget :=
  match d with
  | PDict items =>
      flat_map
        (fun kv : string * pyval =>
           let (k, v) := kv in
           if is_list v && is_2d_array v then []
           else [add_wrapping_label (Lit (k +:+ ":")) true 0;
                 add_wrapping_label (StrOf v) false 10])
        items
  | PList items =>
      (fix each (items : list pyval) : list widget :=
         match items with
         | [] => []
         | item :: rest => recurse item ++ each rest
         end) items
  | _ => [add_wrapping_label (StrOf d) false 0]
  end.

Definition render_non_table (layout : list widget) (data : pyval)
  : list widget * list gui_event :=
  let added := recurse data in
  (added, clear_layout layout ++ map Added added).

(** [App.update_view] *)
Definition update_view (app : App) (data : pyval)
  : result (App * list gui_event) :=
  '(tv, work1) ← display_tables (table_viewer app) data;
  let '(layout, work2) := render_non_table (non_table_layout app) data in
  Ok (mkApp tv layout, work1 ++ work2).

End Viewer.

(** ** The reader loop: [SerialWorker.start] *)

Section Reader.

Context `{Interpreter}.

Record SerialWorker : Type :=
  mkWorker {
    buffer : string;
    emitted : list pyval;      (* payloads delivered by [data_received] *)
    printed : list exn }.      (* [ERROR] lines of the outer handler *)

(** [data_received = pyqtSignal(dict)]: the signal carries a dict; [emit]
    raises [TypeError] on any other payload. *)
Definition emit (payload : pyval) : result unit :=
  match payload with
  | PDict _ => Ok tt
  | _ => Raise TypeError
  end.

(** One pass through the body of the [while] loop, for the text
    [readline().decode(...)] returned. *)
Definition iteration (w : SerialWorker) (line : string) : SerialWorker :=
  match line with
  | EmptyString => w                                   (* [continue] *)
  | _ =>
      let w := mkWorker line (emitted w) (printed w) in   (* buffer = line *)
      match json_loads (buffer w) with
      | Ok json_data =>
          match emit json_data with
          | Ok _ =>
              mkWorker EmptyString (emitted w ++ [json_data]) (printed w)
          | Raise e => mkWorker (buffer w) (emitted w) (printed w ++ [e])
          end
      | Raise JSONDecodeError => w                     (* [continue] *)
      | Raise e => mkWorker (buffer w) (emitted w) (printed w ++ [e])
      end
  end.

Definition start (w : SerialWorker) (lines : list string) : SerialWorker :=
  fold_left iteration lines w.

(** What one line adds to the records delivered. *)
Definition delivered (line : string) : list pyval :=
  match line with
  | EmptyString => []
  | _ =>
      match json_loads line with
      | Ok (PDict d) => [PDict d]
      | _ => []
      end
  end.

End Reader.

(** ** A reference interpreter

    The two conversions of the interface, written out for ASCII text: the
    grammar of [float(s)] (blanks around, sign, [inf], [infinity], [nan],
    decimal digits with a point and an exponent, underscores between
    digits) and the grammar of [json.loads] (with the [NaN], [Infinity] and
    [-Infinity] literals it accepts).  Both round a decimal numeral to the
    nearest float.  An integer literal of more than 4300 digits makes
    [json.loads] raise [ValueError], as CPython does from 3.11 on.  The
    depth at which CPython gives up on nested brackets with
    [RecursionError] depends on the version and on the call stack; the
    decoder here has no such limit.  The closed examples below are
    evaluated with it. *)

Module Ref.

Definition is_digit (c : ascii) : bool :=
  let n := nat_of_ascii c in (48 <=? n)%nat && (n <=? 57)%nat.

Definition digit_value (c : ascii) : Z := Z.of_nat (nat_of_ascii c) - 48.

(** Leading decimal digits as a number, their count, and the rest. *)
Fixpoint digits (s : string) (acc : Z) (count : nat) : Z * nat * string :=
  match s with
  | String c rest =>
      if is_digit c then digits rest (acc * 10 + digit_value c) (S count)
      else (acc, count, s)
  | EmptyString => (acc, count, s)
  end.

(** An exponent [e], [E] with an optional sign and at least one digit;
    without the digits there is no exponent and nothing is consumed. *)
Definition exponent (s : string) : Z * string :=
  match s with
  | String c rest =>
      if Ascii.eqb c "e" || Ascii.eqb c "E" then
        let '(neg, rest') :=
          match rest with
          | String "-" r => (true, r)
          | String "+" r => (false, r)
          | _ => (false, rest)
          end in
        match digits rest' 0 O with
        | (_, O, _) => (0, s)
        | (x, _, rest'') => (if neg then - x else x, rest'')
        end
      else (0, s)
  | EmptyString => (0, s)
  end.

(** The float nearest to [(-1)^neg * mantissa * 10^exp10]. *)
Definition of_decimal (neg : bool) (mantissa exp10 : Z) : float :=
  match mantissa with
  | Z0 => S754_zero neg
  | _ =>
      let m := if neg then - mantissa else mantissa in
      match exp10 with
      | Zneg k => Float.of_ratio m (10 ^ k)%positive
      | _ => Float.of_ratio (m * 10 ^ exp10) 1
      end
  end.

(** *** [float(s)] *)

(** The blanks [float] and [int] strip from ASCII text. *)
Definition is_space (c : ascii) : bool :=
  let n := nat_of_ascii c in
  ((9 <=? n)%nat && (n <=? 13)%nat) || (n =? 32)%nat.

Fixpoint lstrip (s : string) : string :=
  match s with
  | String c rest => if is_space c then lstrip rest else s
  | EmptyString => s
  end.

Fixpoint rstrip (s : string) : string :=
  match s with
  | EmptyString => EmptyString
  | String c rest =>
      match rstrip rest with
      | EmptyString => if is_space c then EmptyString else String c EmptyString
      | r => String c r
      end
  end.

(** An underscore is dropped when it stands between two digits and is an
    error elsewhere. *)
Fixpoint drop_underscores (prev : ascii) (s : string) : option string :=
  match s with
  | EmptyString => if Ascii.eqb prev "_" then None else Some EmptyString
  | String c rest =>
      if Ascii.eqb c "_" then
        if is_digit prev then drop_underscores c rest else None
      else if Ascii.eqb prev "_" && negb (is_digit c) then None
      else option_map (String c) (drop_underscores c rest)
  end.

Definition lower (c : ascii) : ascii :=
  let n := nat_of_ascii c in
  if (65 <=? n)%nat && (n <=? 90)%nat then ascii_of_nat (n + 32) else c.

Fixpoint lowercase (s : string) : string :=
  match s with
  | EmptyString => EmptyString
  | String c rest => String (lower c) (lowercase rest)
  end.

Definition float_of_str (text : string) : option float :=
  match drop_underscores "000" text with
  | None => None
  | Some s =>
      let s := rstrip (lstrip s) in
      let '(neg, body) :=
        match s with
        | String "-" r => (true, r)
        | String "+" r => (false, r)
        | _ => (false, s)
        end in
      let word := lowercase body in
      if String.eqb word "inf" || String.eqb word "infinity" then
        Some (S754_infinity neg)
      else if String.eqb word "nan" then Some S754_nan
      else
        let '(int_part, int_count, after_int) := digits body 0 O in
        let '(mantissa, frac_count, after_frac) :=
          match after_int with
          | String "." r =>
              let '(m, n, r') := digits r int_part O in (m, n, r')
          | _ => (int_part, O, after_int)
          end in
        match (int_count + frac_count)%nat with
        | O => None
        | _ =>
            let '(x, rest) := exponent after_frac in
            match rest with
            | EmptyString =>
                Some (of_decimal neg mantissa (x - Z.of_nat frac_count))
            | _ => None
            end
        end
  end.

(** *** [json.loads] *)

Definition fail {A : Type} : result A := Raise JSONDecodeError.

Fixpoint skip_ws (s : string) : string :=
  match s with
  | String c rest =>
      if Ascii.eqb c " " || Ascii.eqb c "009" || Ascii.eqb c "010"
         || Ascii.eqb c "013"
      then skip_ws rest else s
  | EmptyString => s
  end.

Definition quote : ascii := "034".

Definition hex_value (c : ascii) : option Z :=
  let n := nat_of_ascii c in
  if (48 <=? n)%nat && (n <=? 57)%nat then Some (Z.of_nat n - 48)
  else if (65 <=? n)%nat && (n <=? 70)%nat then Some (Z.of_nat n - 55)
  else if (97 <=? n)%nat && (n <=? 102)%nat then Some (Z.of_nat n - 87)
  else None.

(** [XXXX] of a [\uXXXX] escape. *)
Definition hex4 (s : string) : option (Z * string) :=
  match s with
  | String a (String b (String c (String d rest))) =>
      match hex_value a, hex_value b, hex_value c, hex_value d with
      | Some x, Some y, Some z, Some w =>
          Some (((x * 16 + y) * 16 + z) * 16 + w, rest)
      | _, _, _, _ => None
      end
  | _ => None
  end.

Definition byte (n : Z) : ascii := ascii_of_nat (Z.to_nat n).

(** The UTF-8 bytes of a code point. *)
Definition utf8 (u : Z) : string :=
  if u <? 128 then String (byte u) EmptyString
  else if u <? 2048 then
    String (byte (192 + u / 64)) (String (byte (128 + u mod 64)) EmptyString)
  else if u <? 65536 then
    String (byte (224 + u / 4096))
      (String (byte (128 + (u / 64) mod 64))
         (String (byte (128 + u mod 64)) EmptyString))
  else
    String (byte (240 + u / 262144))
      (String (byte (128 + (u / 4096) mod 64))
         (String (byte (128 + (u / 64) mod 64))
            (String (byte (128 + u mod 64)) EmptyString))).

(** The text of a string literal after its opening quote, and the rest. *)
Fixpoint scanstring (s : string) : result (string * string) :=
  match s with
  | EmptyString => fail
  | String c rest =>
      if Ascii.eqb c quote then Ok (EmptyString, rest)
      else if (nat_of_ascii c <? 32)%nat then fail
      else if Ascii.eqb c "\" then
        match rest with
        | String e rest' =>
            let plain (ch : ascii) :=
              '(text, r) ← scanstring rest'; Ok (String ch text, r) in
            if Ascii.eqb e "u" then
              match rest' with
              | String a (String b (String c' (String d after))) =>
                  match hex4 rest' with
                  | None => fail
                  | Some (hi, _) =>
                      let single :=
                        '(text, r) ← scanstring after;
                        Ok (utf8 hi +:+ text, r) in
                      if (55296 <=? hi) && (hi <=? 56319) then
                        match after with
                        | String "\" (String "u"
                            (String a' (String b' (String c'' (String d' after'))))) =>
                            match hex4 (String a' (String b' (String c'' (String d' EmptyString)))) with
                            | None => fail
                            | Some (lo, _) =>
                                if (56320 <=? lo) && (lo <=? 57343) then
                                  '(text, r) ← scanstring after';
                                  Ok (utf8 (65536 + (hi - 55296) * 1024
                                            + (lo - 56320)) +:+ text, r)
                                else single
                            end
                        | _ => single
                        end
                      else single
                  end
              | _ => fail
              end
            else if Ascii.eqb e quote then plain quote
            else if Ascii.eqb e "\" then plain "\"%char
            else if Ascii.eqb e "/" then plain "/"%char
            else if Ascii.eqb e "b" then plain "008"%char
            else if Ascii.eqb e "f" then plain "012"%char
            else if Ascii.eqb e "n" then plain "010"%char
            else if Ascii.eqb e "r" then plain "013"%char
            else if Ascii.eqb e "t" then plain "009"%char
            else fail
        | EmptyString => fail
        end
      else '(text, r) ← scanstring rest; Ok (String c text, r)
  end.

(** A number: an optional minus, [0] or digits without a leading zero,
    then a point with digits and an exponent with digits, each optional. *)
Definition number (s : string) : option (pyval * string) :=
  let '(neg, body) :=
    match s with
    | String "-" r => (true, r)
    | _ => (false, s)
    end in
  let int_part :=
    match body with
    | String "0" r => Some (0, r)
    | String c _ => if is_digit c then
                      let '(n, _, r) := digits body 0 O in Some (n, r)
                    else None
    | EmptyString => None
    end in
  match int_part with
  | None => None
  | Some (n, after_int) =>
      let '(mantissa, frac_count, after_frac) :=
        match after_int with
        | String "." r =>
            match digits r n O with
            | (_, O, _) => (n, O, after_int)
            | (m, k, r') => (m, k, r')
            end
        | _ => (n, O, after_int)
        end in
      let '(x, rest) := exponent after_frac in
      if Nat.eqb frac_count 0 && Nat.eqb (String.length rest) (String.length after_frac)
      then Some (PInt (if neg then - n else n), rest)
      else Some (PFloat (of_decimal neg mantissa (x - Z.of_nat frac_count)), rest)
  end.

(** The number of digits of the integer literal at the head of [s], and
    the most that the conversion to [int] takes. *)
Fixpoint leading_digits (s : string) : nat :=
  match s with
  | String c rest => if is_digit c then S (leading_digits rest) else O
  | EmptyString => O
  end.

Definition int_digits (s : string) : nat :=
  match (match s with String "-" r => r | _ => s end) with
  | String "0" _ => 1
  | body => leading_digits body
  end.

Definition max_str_digits : Z := 4300.

(** A key set in a dict: a new key goes last, a known key keeps its
    place. *)
Fixpoint dict_set (k : string) (v : pyval) (items : list (string * pyval))
  : list (string * pyval) :=
  match items with
  | [] => [(k, v)]
  | (k', v') :: rest =>
      if String.eqb k k' then (k', v) :: rest
      else (k', v') :: dict_set k v rest
  end.

Definition keyword (word : string) (v : pyval) (s : string)
  : option (pyval * string) :=
  if String.prefix word s
  then Some (v, String.substring (String.length word)
                  (String.length s - String.length word) s)
  else None.

Section Containers.

(** The scanner for one value, at one nesting level less. *)
Variable scan_once : string -> result (pyval * string).

(** The elements after [[], up to the closing bracket. *)
Fixpoint array_items (n : nat) (s : string) (acc : list pyval)
  : result (pyval * string) :=
  match n with
  | O => Raise RecursionError
  | S n' =>
      '(v, rest) ← scan_once s;
      match skip_ws rest with
      | String "]" rest' => Ok (PList (acc ++ [v]), rest')
      | String "," rest' => array_items n' (skip_ws rest') (acc ++ [v])
      | _ => fail
      end
  end.

(** The pairs after [{], up to the closing brace. *)
Fixpoint object_items (n : nat) (s : string) (acc : list (string * pyval))
  : result (pyval * string) :=
  match n with
  | O => Raise RecursionError
  | S n' =>
      match s with
      | String c after_quote =>
          if Ascii.eqb c quote then
            '(key, rest) ← scanstring after_quote;
            match skip_ws rest with
            | String ":" rest' =>
                '(v, rest'') ← scan_once (skip_ws rest');
                match skip_ws rest'' with
                | String "}" r => Ok (PDict (dict_set key v acc), r)
                | String "," r =>
                    object_items n' (skip_ws r) (dict_set key v acc)
                | _ => fail
                end
            | _ => fail
            end
          else fail
      | EmptyString => fail
      end
  end.

End Containers.

Fixpoint scan (fuel : nat) (s : string) : result (pyval * string) :=
  match fuel with
  | O => Raise RecursionError
  | S fuel' =>
      match s with
      | String "034" rest =>
          '(text, r) ← scanstring rest; Ok (PStr text, r)
      | String "{" rest =>
          match skip_ws rest with
          | String "}" r => Ok (PDict [], r)
          | body => object_items (scan fuel') (String.length body) body []
          end
      | String "[" rest =>
          match skip_ws rest with
          | String "]" r => Ok (PList [], r)
          | body => array_items (scan fuel') (String.length body) body []
          end
      | _ =>
          match keyword "null" PNone s with
          | Some r => Ok r
          | None =>
          match keyword "true" (PBool true) s with
          | Some r => Ok r
          | None =>
          match keyword "false" (PBool false) s with
          | Some r => Ok r
          | None =>
          match number s with
          | Some (PInt n, r) =>
              if max_str_digits <? Z.of_nat (int_digits s)
              then Raise ValueError else Ok (PInt n, r)
          | Some r => Ok r
          | None =>
          match keyword "NaN" (PFloat S754_nan) s with
          | Some r => Ok r
          | None =>
          match keyword "Infinity" (PFloat (S754_infinity false)) s with
          | Some r => Ok r
          | None =>
          match keyword "-Infinity" (PFloat (S754_infinity true)) s with
          | Some r => Ok r
          | None => fail
          end end end end end end end
      end
  end.

Definition json_loads (text : string) : result pyval :=
  '(v, rest) ← scan (S (String.length text)) (skip_ws text);
  match skip_ws rest with
  | EmptyString => Ok v
  | _ => fail
  end.

End Ref.

Definition newline : string := String "010" EmptyString.

#[global] Instance reference_interpreter : Interpreter :=
  {| float_of_str := Ref.float_of_str; json_loads := Ref.json_loads |}.

(** ** The specification's wording

    Definitions that follow the text of the specification, to be compared
    with the code above. *)

Section Wording.

Context `{Interpreter}.

(** A rectangular grid: at least one row, every row as long as the first. *)
Definition rectangular (table_data : list (list pyval)) : Prop :=
  match table_data with
  | [] => False
  | first :: _ => Forall (fun r => length r = length first) table_data
  end.

(** "Every cell that parses as a number", in reading order. *)
Definition numeric_cells (table_data : list (list pyval)) : list float :=
  flat_map
    (fun v => match py_float v with Ok x => [x] | Raise _ => [] end)
    (concat table_data).

(** The arithmetic mean: the sum over the count. *)
Definition arithmetic_mean (xs : list float) : result float :=
  Py.div (Py.sum xs) (Float.of_Z (Z.of_nat (length xs))).

(** [clamp(x, lo, hi)] *)
Definition clamp (x lo hi : float) : float := Py.max lo (Py.min hi x).

(** "t = clamp((diff - max_deviation) / (max_deviation * capFactor), 0, 1)"
    with cap factor 5. *)
Definition out_of_band_t (max_dev diff : float) : result float :=
  q ← Py.div (Float.sub diff max_dev) (Float.mul max_dev (Float.of_Z 5));
  Ok (clamp q Float.zero (Float.of_Z 1)).


(** "A non-empty ordered sequence of ordered sequences of scalars, where
    every inner sequence has identical length". *)
Definition is_scalar (v : pyval) : bool :=
  match v with
  | PList _ | PDict _ => false
  | _ => true
  end.

Definition grid_shape (v : pyval) : Prop :=
  exists first rest,
    v = PList (PList first :: rest) /\
    Forall (fun r => exists cells,
                r = PList cells /\ length cells = length first)
           (PList first :: rest).

Definition matrix_of_scalars (v : pyval) : Prop :=
  grid_shape v /\
  forall rows, v = PList rows ->
    Forall (fun r => forall cells, r = PList cells ->
                     forallb is_scalar cells = true) rows.

(** A table widget holds a grid: at least one row, all rows of the width
    of the table. *)
Definition holds_grid (w : widget) : Prop :=
  match w with
  | QTable t =>
      (0 < rowCount t)%nat /\ length (table_items t) = rowCount t /\
      Forall (fun r => length r = columnCount t) (table_items t)
  | QLabel _ _ _ => True
  end.

(** A decoded record: no dict in it has a key twice. *)
Fixpoint decoded (v : pyval) : Prop :=
  match v with
  | PList items =>
      (fix all (items : list pyval) : Prop :=
         match items with
         | [] => True
         | x :: rest => decoded x /\ all rest
         end) items
  | PDict items =>
      NoDup (map fst items) /\
      (fix all (items : list (string * pyval)) : Prop :=
         match items with
         | [] => True
         | kv :: rest => decoded (snd kv) /\ all rest
         end) items
  | _ => True
  end.

(** "A matrix encountered under a dict key during rendering": the matrix
    [arr] is the value of [key] in the record itself, or in a value of the
    record that is a list or a dict and not itself a matrix, or in an item
    of a list. *)
Inductive encountered (key : string) (arr : list pyval) : pyval -> Prop :=
| under_key (before after : list (string * pyval)) :
    grid_shape (PList arr) ->
    encountered key arr (PDict (before ++ (key, PList arr) :: after))
| inside_value (k : string) (v : pyval)
    (before after : list (string * pyval)) :
    ~ grid_shape v ->
    encountered key arr v ->
    encountered key arr (PDict (before ++ (k, v) :: after))
| inside_item (item : pyval) (before after : list pyval) :
    encountered key arr item ->
    encountered key arr (PList (before ++ item :: after)).

End Wording.

(** ** More of the interpreter

    [str(v)], [s.strip()] and [int(s)] on a string ([None] standing for
    [ValueError]), for the code that inspects the text it builds.  A
    string is its own [str]. *)

Class Builtins : Type :=
  { py_str : pyval -> string;
    py_strip : string -> string;
    int_of_str : string -> option Z;
    py_str_of_str : forall s : string, py_str (PStr s) = s }.

(** The truth value of [v] in a condition. *)
Definition truthy (v : pyval) : bool :=
  match v with
  | PNone => false
  | PBool b => b
  | PInt z => negb (z =? 0)
  | PFloat f => negb (Float.is_zero f)
  | PStr s => match s with EmptyString => false | _ => true end
  | PList items => match items with [] => false | _ => true end
  | PDict items => match items with [] => false | _ => true end
  end.

Definition nonempty (s : string) : bool :=
  match s with EmptyString => false | _ => true end.

(** [d.get(key, dflt)] *)
Definition get_or (key : string) (dflt : pyval) (d : list (string * pyval))
  : pyval :=
  match assoc key d with
  | Some v => v
  | None => dflt
  end.

(** The dict literals [{"name": name, "value": value}] and
    [{"name": name, "max_deviation": md}]. *)
Definition button_entry (name value : string) : list (string * pyval) :=
  [("name", PStr name); ("value", PStr value)].

Definition heatmap_entry (name : string) (md : float)
  : list (string * pyval) :=
  [("name", PStr name); ("max_deviation", PFloat md)].

(** ** The configuration: [load_config] *)

Module Cfg.

(** The dict [cfg]; a button is the dict [{"name": .., "value": ..}], a
    heat-map rule the dict [{"name": .., "max_deviation": ..}]. *)
Record t : Type :=
  mk { COM : string;
       BAUD : Z;
       buttons : list (list (string * pyval));
       precision : Z;
       heatmaps : option (list (list (string * pyval)));
       heatmap_tables : option (list string);
       max_deviation : float }.

Definition default_max_deviation : float := Float.of_ratio 5 100.

Definition defaults : t :=
  mk "/dev/ttyUSB0" 500000 [] 3 None None default_max_deviation.

(** What became of reading the file. *)
Inductive source : Type :=
| NoPath                      (* [not path] *)
| NoYaml                      (* the yaml module is missing *)
| NotFound                    (* [open] raised [FileNotFoundError] *)
| Unreadable                  (* [open] or [safe_load] raised otherwise *)
| Document (data : pyval).    (* what [yaml.safe_load(f)] returned, for a
                                 document of the JSON kinds with string
                                 keys *)

(** The lines printed. *)
Inductive warning : Type :=
| WarnNoYaml
| WarnFailed
| WarnBaud
| WarnButton (item : pyval)
| WarnPrecision
| WarnMaxDeviation.

End Cfg.

Section Config.

Context `{Interpreter} `{Builtins}.

(** [int(v)] *)
Definition py_int (v : pyval) : result Z :=
  match v with
  | PNone => Raise TypeError
  | PBool b => Ok (if b then 1 else 0)
  | PInt z => Ok z
  | PFloat f => Py.int f
  | PStr s =>
      match int_of_str s with
      | Some z => Ok z
      | None => Raise ValueError
      end
  | PList _ | PDict _ => Raise TypeError
  end.

Definition load_COM (d : list (string * pyval)) : string :=
  match assoc "COM" d with
  | Some (PStr s) => if nonempty s then s else Cfg.COM Cfg.defaults
  | _ => Cfg.COM Cfg.defaults
  end.

Definition load_BAUD (d : list (string * pyval)) : Z * list Cfg.warning :=
  match assoc "BAUD" d with
  | Some v =>
      match py_int v with
      | Ok z => (z, [])
      | Raise _ => (Cfg.BAUD Cfg.defaults, [Cfg.WarnBaud])
      end
  | None => (Cfg.BAUD Cfg.defaults, [])
  end.

(** The loop that normalises the buttons. *)
Fixpoint normalize_buttons (items : list pyval)
  : list (list (string * pyval)) * list Cfg.warning :=
  match items with
  | [] => ([], [])
  | item :: rest =>
      let '(norm, warnings) := normalize_buttons rest in
      match item with
      | PDict d =>
          let name := py_strip (py_str (get_or "name" (PStr EmptyString) d)) in
          let value := py_strip (py_str (get_or "value" (PStr EmptyString) d)) in
          if nonempty name && nonempty value
          then (button_entry name value :: norm, warnings)
          else (norm, Cfg.WarnButton item :: warnings)
      | _ => (norm, warnings)
      end
  end.

Definition load_buttons (d : list (string * pyval))
  : list (list (string * pyval)) * list Cfg.warning :=
  match assoc "buttons" d with
  | Some (PList items) => normalize_buttons items
  | _ => (Cfg.buttons Cfg.defaults, [])
  end.

Definition load_precision (d : list (string * pyval))
  : Z * list Cfg.warning :=
  let prec_key :=
    match assoc "precision" d with
    | Some v => Some v
    | None => assoc "PRECISION" d
    end in
  match prec_key with
  | Some v =>
      match py_int v with
      | Ok p => if p <? 0 then (Cfg.precision Cfg.defaults, [Cfg.WarnPrecision])
                else (p, [])
      | Raise _ => (Cfg.precision Cfg.defaults, [Cfg.WarnPrecision])
      end
  | None => (Cfg.precision Cfg.defaults, [])
  end.

(** The loop over the entries of [heatmaps]. *)
Fixpoint normalize_heatmaps (entries : list pyval)
  : list (list (string * pyval)) :=
  match entries with
  | [] => []
  | entry :: rest =>
      match entry with
      | PDict d =>
          let name := py_strip (py_str (get_or "name" (PStr EmptyString) d)) in
          let md :=
            try_except
              (py_float (get_or "max_deviation"
                           (PFloat (Cfg.max_deviation Cfg.defaults)) d))
              (Cfg.max_deviation Cfg.defaults) in
          if nonempty name
          then heatmap_entry name (heatmap_threshold md)
               :: normalize_heatmaps rest
          else normalize_heatmaps rest
      | _ => normalize_heatmaps rest
      end
  end.

Definition load_heatmaps (d : list (string * pyval))
  : option (list (list (string * pyval))) :=
  match assoc "heatmaps" d with
  | Some (PList entries) =>
      match normalize_heatmaps entries with
      | [] => None
      | hm => Some hm
      end
  | _ => Cfg.heatmaps Cfg.defaults
  end.

Definition load_heatmap_tables (d : list (string * pyval))
  : option (list string) :=
  match assoc "heatmap_tables" d with
  | Some (PStr ht) => Some [ht]
  | Some (PList ht) => Some (map py_str (filter (fun x => truthy x = true) ht))
  | Some _ => None
  | None => Cfg.heatmap_tables Cfg.defaults
  end.

Definition load_max_deviation (d : list (string * pyval))
  : float * list Cfg.warning :=
  match assoc "max_deviation" d with
  | Some v =>
      match py_float v with
      | Ok md =>
          if Float.ltb md Float.zero
          then (Cfg.max_deviation Cfg.defaults, [Cfg.WarnMaxDeviation])
          else (md, [])
      | Raise _ => (Cfg.max_deviation Cfg.defaults, [Cfg.WarnMaxDeviation])
      end
  | None => (Cfg.max_deviation Cfg.defaults, [])
  end.

(** [load_config]: the configuration and the warnings printed, in order. *)
Definition load_config (src : Cfg.source) : Cfg.t * list Cfg.warning :=
  match src with
  | Cfg.NoPath => (Cfg.defaults, [])
  | Cfg.NoYaml => (Cfg.defaults, [Cfg.WarnNoYaml])
  | Cfg.NotFound => (Cfg.defaults, [])
  | Cfg.Unreadable => (Cfg.defaults, [Cfg.WarnFailed])
  | Cfg.Document loaded =>
      let data := if truthy loaded then loaded else PDict [] in
      match data with
      | PDict d =>
          let '(baud, w1) := load_BAUD d in
          let '(buttons, w2) := load_buttons d in
          let '(precision, w3) := load_precision d in
          let heatmaps := load_heatmaps d in
          match heatmaps with
          | None =>
              let '(max_deviation, w4) := load_max_deviation d in
              (Cfg.mk (load_COM d) baud buttons precision heatmaps
                 (load_heatmap_tables d) max_deviation,
               w1 ++ w2 ++ w3 ++ w4)
          | Some _ =>
              (Cfg.mk (load_COM d) baud buttons precision heatmaps
                 (Cfg.heatmap_tables Cfg.defaults)
                 (Cfg.max_deviation Cfg.defaults),
               w1 ++ w2 ++ w3)
          end
      | _ => (Cfg.defaults, [])
      end
  end.

(** *** [App.__init__]: the rules handed to the table viewer *)

(** [{str(h["name"]): float(h.get("max_deviation", legacy_max_dev))
      for h in heatmaps if "name" in h}] *)
Fixpoint rules_of_heatmaps (heatmaps : list (list (string * pyval)))
    (legacy_max_dev : float) (rules : gmap string float)
  : result (gmap string float) :=
  match heatmaps with
  | [] => Ok rules
  | h :: rest =>
      match assoc "name" h with
      | Some name =>
          md ← py_float (get_or "max_deviation" (PFloat legacy_max_dev) h);
          rules_of_heatmaps rest legacy_max_dev (<[py_str name := md]> rules)
      | None => rules_of_heatmaps rest legacy_max_dev rules
      end
  end.

(** [{str(name): float(legacy_max_dev) for name in legacy_tables}]; a name
    is a string, and its own [str]. *)
Definition rules_of_tables (legacy_tables : list string)
    (legacy_max_dev : float) : gmap string float :=
  fold_left (fun rules name => <[name := legacy_max_dev]> rules)
    legacy_tables ∅.

Definition App_rules (heatmaps : option (list (list (string * pyval))))
    (legacy_tables : option (list string)) (legacy_max_dev : float)
  : result (option (gmap string float)) :=
  match heatmaps with
  | Some (h :: hs) =>
      rules ← rules_of_heatmaps (h :: hs) legacy_max_dev ∅; Ok (Some rules)
  | _ =>
      match legacy_tables with
      | Some (name :: names) =>
          Ok (Some (rules_of_tables (name :: names) legacy_max_dev))
      | _ => Ok None
      end
  end.

(** The table viewer [App.__init__] builds from a configuration, as the
    main program calls it.  The precision of a configuration is an [int];
    [load_config] never returns a negative one, and none is modelled. *)
Definition App_table_viewer (cfg : Cfg.t) : result TableViewer :=
  rules ← App_rules (Cfg.heatmaps cfg) (Cfg.heatmap_tables cfg)
            (Cfg.max_deviation cfg);
  Ok (TableViewer_init (Some (Z.to_nat (Cfg.precision cfg))) rules
        (Some (Cfg.max_deviation cfg))).

(** *** [App.build_quick_buttons] *)

(** What sits in a cell of the grid of quick commands: the note, or a
    button with its label and the value its click sends. *)
Inductive quick_widget : Type :=
| NoteLabel
| QPushButton (label : string) (value : pyval).

Record grid_item : Type :=
  mkGridItem { grid_widget : quick_widget; grid_row : nat; grid_col : nat }.

(** The loop over the buttons, from the cell [(row, col)] on. *)
Fixpoint place_buttons (buttons : list (list (string * pyval)))
    (row col : nat) : result (list grid_item) :=
  match buttons with
  | [] => Ok []
  | b :: rest =>
      let name := get_or "name" (PStr EmptyString) b in
      let value := get_or "value" (PStr EmptyString) b in
      if negb (truthy name) || negb (truthy value) then
        place_buttons rest row col
      else
        match name with
        | PStr label =>
            let col' := S col in
            items ← (if (2 <=? col')%nat
                     then place_buttons rest (S row) 0
                     else place_buttons rest row col');
            Ok (mkGridItem (QPushButton label value) row col :: items)
        | _ => Raise TypeError      (* [QPushButton(name)] wants a string *)
        end
  end.

Definition build_quick_buttons (buttons : list (list (string * pyval)))
  : result (list grid_item) :=
  match buttons with
  | [] => Ok [mkGridItem NoteLabel 0 0]
  | _ => place_buttons buttons 0 0
  end.

(** ** Commands: [SerialWorker.stop], [SerialWorker.send_command] and the
    two senders of [App] *)

(** The serial handle: whether it is open and what was written to it. *)
Record Serial : Type :=
  mkSerial { is_open : bool; written : list string }.

(** The fields of the worker that the commands use; [serial_port] is
    [None] until the port is opened. *)
Record Link : Type :=
  mkLink { _running : bool; serial_port : option Serial }.

(** [SerialWorker.stop]; [close] is taken to succeed. *)
Definition stop (w : Link) : Link :=
  mkLink false
    (match serial_port w with
     | Some port =>
         if is_open port then Some (mkSerial false (written port))
         else Some port
     | None => None
     end).

(** [SerialWorker.send_command]: the command and a newline are written
    in one piece; [write] is taken to succeed. *)
Definition send_command (w : Link) (cmd : string) : Link :=
  match serial_port w with
  | Some port =>
      if is_open port
      then mkLink (_running w)
             (Some (mkSerial true (written port ++ [cmd +:+ newline])))
      else w
  | None => w
  end.

(** The command panel of [App]. *)
Record Console : Type :=
  mkConsole { worker : Link; cmd_input : string; cmd_history : list string }.

(** [App.send_command] *)
Definition App_send_command (app : Console) : Console :=
  let cmd := py_strip (cmd_input app) in
  if nonempty cmd
  then mkConsole (send_command (worker app) cmd) EmptyString
         (cmd_history app ++ [cmd])
  else app.

(** [App.send_quick_command] *)
Definition send_quick_command (app : Console) (value : pyval) : Console :=
  let value := py_strip (py_str value) in
  if nonempty value
  then mkConsole (send_command (worker app) value) (cmd_input app)
         (cmd_history app ++ [value])
  else app.

(** What the operator does: types a text and sends it
    ([App.send_command]), clicks a quick button
    ([App.send_quick_command] with the value of the button), closes the
    window ([App.closeEvent], which stops the worker). *)
Inductive action : Type :=
| Typed (text : string)
| Clicked (value : pyval)
| Closed.

Definition act (app : Console) (a : action) : Console :=
  match a with
  | Typed text =>
      App_send_command (mkConsole (worker app) text (cmd_history app))
  | Clicked value => send_quick_command app value
  | Closed => mkConsole (stop (worker app)) (cmd_input app) (cmd_history app)
  end.

(** The command an action hands to the worker, if any. *)
Definition command_of (a : action) : list string :=
  match a with
  | Typed text =>
      let cmd := py_strip text in if nonempty cmd then [cmd] else []
  | Clicked value =>
      let cmd := py_strip (py_str value) in if nonempty cmd then [cmd] else []
  | Closed => []
  end.

End Config.

(** ** Reference builtins

    [str], [strip] and [int] written out for ASCII text.  [str] of a float
    is its shortest decimal numeral that reads back as the same float, in
    the layout of [repr]; [str] of a list or a dict holds the [repr] of
    the items. *)

Module RefText.

Definition sign (neg : bool) : string := if neg then "-" else EmptyString.

Definition of_int (z : Z) : string := sign (z <? 0) +:+ Fmt.decimal (Z.abs z).

(** [x < 10^d] for [x = num / den]. *)
Definition below_pow10 (num den d : Z) : bool :=
  if 0 <=? d then num <? den * 10 ^ d else num * 10 ^ (- d) <? den.

(** The least [d] from [d0] on with [x < 10^d]. *)
Fixpoint decimal_point (fuel : nat) (num den d0 : Z) : Z :=
  match fuel with
  | O => d0
  | S fuel' =>
      if below_pow10 num den d0 then d0
      else decimal_point fuel' num den (d0 + 1)
  end.

(** The numeral of [n] digits nearest to [x = num / den < 10^d] that reads
    back as [x], if there is one, with its power of ten. *)
Definition candidate (x : float) (num den d : Z) (n : nat)
  : option (Z * Z) :=
  let e10 := d - Z.of_nat n in
  let '(snum, sden) :=
    if 0 <=? e10 then (num, den * 10 ^ e10) else (num * 10 ^ (- e10), den) in
  let lo := snum / sden in
  let hi := lo + 1 in
  let reads c := Float.eqb (Ref.of_decimal false c e10) x in
  let lo_first := 2 * snum <=? (2 * lo + 1) * sden in
  let '(c1, c2) := if lo_first then (lo, hi) else (hi, lo) in
  if reads c1 then Some (c1, e10)
  else if reads c2 then Some (c2, e10)
  else None.

Fixpoint shortest (fuel : nat) (x : float) (num den d : Z) (n : nat)
  : Z * Z :=
  match fuel with
  | O => (0, 0)
  | S fuel' =>
      match candidate x num den d n with
      | Some c => c
      | None => shortest fuel' x num den d (S n)
      end
  end.

Fixpoint drop_zeros (fuel : nat) (c e10 : Z) : Z * Z :=
  match fuel with
  | O => (c, e10)
  | S fuel' =>
      if (c mod 10 =? 0) && negb (c =? 0)
      then drop_zeros fuel' (c / 10) (e10 + 1)
      else (c, e10)
  end.

Definition two_digits (n : Z) : string :=
  (if n <? 10 then "0" else EmptyString) +:+ Fmt.decimal n.

Fixpoint take (n : nat) (s : string) : string :=
  match n, s with
  | S n', String c rest => String c (take n' rest)
  | _, _ => EmptyString
  end.

Fixpoint drop (n : nat) (s : string) : string :=
  match n, s with
  | S n', String _ rest => drop n' rest
  | _, _ => s
  end.

(** The layout of [repr]: digits [ds] and [x = 0.ds * 10^dp]. *)
Definition layout (ds : string) (dp : Z) : string :=
  let n := Z.of_nat (String.length ds) in
  if (dp <=? -4) || (16 <? dp) then
    take 1 ds +:+
    (if 1 <? n then "." +:+ drop 1 ds else EmptyString) +:+
    "e" +:+ (if dp - 1 <? 0 then "-" else "+") +:+ two_digits (Z.abs (dp - 1))
  else if dp <=? 0 then
    "0." +:+ Str.repeat "0" (Z.to_nat (- dp)) +:+ ds
  else if n <=? dp then
    ds +:+ Str.repeat "0" (Z.to_nat (dp - n)) +:+ ".0"
  else
    take (Z.to_nat dp) ds +:+ "." +:+ drop (Z.to_nat dp) ds.

Definition of_float (x : float) : string :=
  match x with
  | S754_nan => "nan"
  | S754_infinity s => sign s +:+ "inf"
  | S754_zero s => sign s +:+ "0.0"
  | S754_finite s m e =>
      let '(num, den) :=
        if 0 <=? e then (Zpos m * 2 ^ e, 1) else (Zpos m, 2 ^ (- e)) in
      let d := decimal_point 700 num den (-330) in
      let '(c, e10) := shortest 17 (S754_finite false m e) num den d 1 in
      let '(c, e10) := drop_zeros 17 c e10 in
      let ds := Fmt.decimal c in
      sign s +:+ layout ds (e10 + Z.of_nat (String.length ds))
  end.

(** [repr] of a string: single quotes, unless it has one and no double
    quote; the backslash, the quote in use and the control characters
    escaped. *)
Definition hex_digit (n : nat) : ascii :=
  if (n <? 10)%nat then ascii_of_nat (48 + n) else ascii_of_nat (87 + n).

Definition escaped (q c : ascii) : string :=
  let n := nat_of_ascii c in
  if Ascii.eqb c q || Ascii.eqb c "\" then String "\" (String c EmptyString)
  else if Ascii.eqb c "010" then "\n"
  else if Ascii.eqb c "013" then "\r"
  else if Ascii.eqb c "009" then "\t"
  else if (n <? 32)%nat || (n =? 127)%nat then
    String "\" (String "x" (String (hex_digit (n / 16))
                              (String (hex_digit (n mod 16)) EmptyString)))
  else String c EmptyString.

Fixpoint escape (q : ascii) (s : string) : string :=
  match s with
  | EmptyString => EmptyString
  | String c rest => escaped q c +:+ escape q rest
  end.

Definition of_string (s : string) : string :=
  let q : ascii :=
    if Str.contains "'" s && negb (Str.contains Ref.quote s)
    then Ref.quote else "'"%char in
  String q (escape q s) +:+ String q EmptyString.

Fixpoint join (items : list string) : string :=
  match items with
  | [] => EmptyString
  | [x] => x
  | x :: rest => x +:+ ", " +:+ join rest
  end.

Fixpoint repr (v : pyval) : string :=
  match v with
  | PNone => "None"
  | PBool b => if b then "True" else "False"
  | PInt z => of_int z
  | PFloat f => of_float f
  | PStr s => of_string s
  | PList items => "[" +:+ join (map repr items) +:+ "]"
  | PDict items =>
      "{" +:+
      join ((fix each (items : list (string * pyval)) : list string :=
               match items with
               | [] => []
               | (k, x) :: rest =>
                   (of_string k +:+ ": " +:+ repr x) :: each rest
               end) items) +:+
      "}"
  end.

Definition str (v : pyval) : string :=
  match v with
  | PStr s => s
  | _ => repr v
  end.

(** The blanks of [str.strip]: those of [float], and the four separators
    from 28 to 31. *)
Definition is_blank (c : ascii) : bool :=
  let n := nat_of_ascii c in
  Ref.is_space c || ((28 <=? n)%nat && (n <=? 31)%nat).

Fixpoint lstrip (s : string) : string :=
  match s with
  | String c rest => if is_blank c then lstrip rest else s
  | EmptyString => s
  end.

Fixpoint rstrip (s : string) : string :=
  match s with
  | EmptyString => EmptyString
  | String c rest =>
      match rstrip rest with
      | EmptyString => if is_blank c then EmptyString else String c EmptyString
      | r => String c r
      end
  end.

Definition strip (s : string) : string := rstrip (lstrip s).

(** Digits with single underscores between them. *)
Fixpoint digits_value (acc : Z) (after_digit : bool) (s : string)
  : option Z :=
  match s with
  | EmptyString => if after_digit then Some acc else None
  | String c rest =>
      if Ref.is_digit c then
        digits_value (acc * 10 + Ref.digit_value c) true rest
      else if Ascii.eqb c "_" && after_digit then digits_value acc false rest
      else None
  end.

Fixpoint count_digits (s : string) : Z :=
  match s with
  | EmptyString => 0
  | String c rest => (if Ref.is_digit c then 1 else 0) + count_digits rest
  end.

(** [int(s)]: the blanks of [float] around, a sign, the digits; more than
    4300 digits are refused. *)
Definition int_of_str (text : string) : option Z :=
  let s := Ref.rstrip (Ref.lstrip text) in
  if Ref.max_str_digits <? count_digits s then None
  else
    match s with
    | String "-" body => option_map Z.opp (digits_value 0 false body)
    | String "+" body => digits_value 0 false body
    | body => digits_value 0 false body
    end.

End RefText.

#[global] Instance reference_builtins : Builtins :=
  {| py_str := RefText.str;
     py_strip := RefText.strip;
     int_of_str := RefText.int_of_str;
     py_str_of_str := fun s => eq_refl |}.

(** ** The fixed bands of [main_key.py]

    [TableViewer.add_table] of [main_key.py]: the same loops, no
    formatting, and a heat map of four fixed bands around the mean, the
    deviation being a signed percentage of the mean itself. *)

Module Key.

Section KeyViewer.

Context `{Interpreter}.

(** [diff = abs(num - avg) / avg * 100 if avg else 0] *)
Definition percent_deviation (num avg : float) : result float :=
  if negb (Float.is_zero avg) then
    q ← Py.div (Float.abs (Float.sub num avg)) avg;
    Ok (Float.mul q (Float.of_Z 100))
  else Ok Float.zero.

(** The body of the [try] in the cell loop. *)
Definition cell_color (avg : float) (val : pyval) : result QColor :=
  num ← py_float val;
  diff ← percent_deviation num avg;
  if Float.leb diff (Float.of_Z 5) then
    Ok (mkQColor 204 255 204)
  else if Float.leb diff (Float.of_Z 10) then
    t ← Py.div (Float.sub diff (Float.of_Z 5)) (Float.of_Z 5);
    c ← Py.int (Float.add (Float.of_Z 204)
                  (Float.mul (Float.of_Z (255 - 204)) t));
    Ok (mkQColor c 255 c)
  else if Float.leb diff (Float.of_Z 50) then
    t ← Py.div (Float.sub diff (Float.of_Z 10)) (Float.of_Z 40);
    g ← Py.int (Float.add
                  (Float.mul (Float.of_Z 255) (Float.sub (Float.of_Z 1) t))
                  (Float.mul (Float.of_Z 204) t));
    b ← Py.int (Float.add
                  (Float.mul (Float.of_Z 255) (Float.sub (Float.of_Z 1) t))
                  (Float.mul (Float.of_Z 204) t));
    Ok (mkQColor 255 g b)
  else
    Ok (mkQColor 255 204 204).

Definition make_item (avg : float) (val : pyval) : QTableWidgetItem :=
  mkItem (StrOf val)
         (try_except (color ← cell_color avg val; Ok (Some color)) None).

(** Without numbers the mean is the [int] 0 here and the float 0.0 in
    [average]; only its truth value is read then. *)
Definition add_table (table_data : list (list pyval))
  : result QTableWidget :=
  let rows := length table_data in
  first ← getitem table_data 0;
  let cols := length first in
  avg ← average (collect_nums table_data);
  items ←
    for_each
      (fun i =>
         for_each
           (fun j =>
              row ← getitem table_data i;
              val ← getitem row j;
              Ok (make_item avg val))
           (seq 0 cols))
      (seq 0 rows);
  Ok (mkTable rows cols items).

End KeyViewer.

End Key.

(** ** Shapes of the views

    Notions used to state what the two views hold. *)

Section Views.

Context `{Interpreter}.

(** A table as [render_data] adds it: the bold label of its key, then the
    table. *)
Definition keyed_table (kt : string * QTableWidget) : list widget :=
  [add_label (Lit (fst kt +:+ ":")) true; QTable (snd kt)].

(** The table view shows the rendering of the record it remembers. *)
Definition shows_last_rendered (tv : TableViewer) : Prop :=
  render_data tv (last_rendered tv) = Ok (content_layout tv).

End Views.

(** What was written to the port, and whether the port takes commands. *)
Definition wire (w : Link) : list string :=
  match serial_port w with
  | Some port => written port
  | None => []
  end.

Definition is_live (w : Link) : bool :=
  match serial_port w with
  | Some port => is_open port
  | None => false
  end.

(** A button that [build_quick_buttons] does not skip. *)
Definition usable_button (b : list (string * pyval)) : bool :=
  truthy (get_or "name" (PStr EmptyString) b) &&
  truthy (get_or "value" (PStr EmptyString) b).

(** A button and a heat-map rule as [load_config] stores them. *)
Definition is_button (b : list (string * pyval)) : Prop :=
  exists name value,
    b = button_entry name value /\
    nonempty name = true /\ nonempty value = true.

Definition is_heatmap_rule (h : list (string * pyval)) : Prop :=
  exists name md,
    h = heatmap_entry name md /\
    nonempty name = true /\ Float.leb Float.zero md = true.

(* ================================================================== *)
(** * Properties *)

(** ** Floats: signs and zero tests *)

Lemma binary_round_aux_sign (s : bool) (m e : Z) (l : location) :
  let r := binary_round_aux Float.prec Float.emax s m e l in
  r = S754_nan \/ r = S754_zero s \/ r = S754_infinity s \/
  exists m' e', r = S754_finite s m' e'.
Proof.
  cbv zeta. unfold binary_round_aux.
  destruct (shr_fexp _ _ m e l) as [mrs' e'].
  destruct (shr_fexp _ _ _ e' loc_Exact) as [mrs'' e''].
  destruct (shr_m mrs'') as [|p|p]; auto.
  destruct (e'' <=? _)%Z; eauto 6.
Qed.

(** A quotient of two absolute values is a NaN or carries no sign. *)
Lemma div_abs_sign (x y : float) (q : float) :
  Py.div (Float.abs x) (Float.abs y) = Ok q ->
  Float.is_nan q = true \/ Float.signbit q = false.
Proof.
  unfold Py.div. destruct (Float.is_zero (Float.abs y)) eqn:Hz; [discriminate|].
  intros [= <-].
  destruct x as [sx|sx| |sx mx ex], y as [sy|sy| |sy my ey];
    simpl in *; auto; try discriminate.
  destruct (SFdiv_core_binary _ _ _ _ _ _) as [[mz ez] lz].
  destruct (binary_round_aux_sign false mz ez lz) as [E|[E|[E|(m'&e'&E)]]];
    rewrite E; auto.
Qed.

(** Nothing without a sign bit is below zero. *)
Lemma unsigned_not_negative (q : float) :
  Float.is_nan q = true \/ Float.signbit q = false ->
  Float.ltb q Float.zero = false.
Proof.
  destruct q as [s|s| |s m e]; simpl; intros [E|E]; try discriminate;
    subst; reflexivity.
Qed.

(** A positive integer never rounds to zero. *)

Lemma digits2_pos_bound (p : positive) :
  2 ^ (Zpos (digits2_pos p) - 1) <= Zpos p.
Proof.
  induction p as [p IH|p IH|]; simpl digits2_pos.
  - rewrite Pos2Z.inj_succ.
    replace (Z.succ (Zpos (digits2_pos p)) - 1) with (Z.succ (Zpos (digits2_pos p) - 1)) by lia.
    rewrite Z.pow_succ_r by lia. lia.
  - rewrite Pos2Z.inj_succ.
    replace (Z.succ (Zpos (digits2_pos p)) - 1) with (Z.succ (Zpos (digits2_pos p) - 1)) by lia.
    rewrite Z.pow_succ_r by lia. lia.
  - simpl. lia.
Qed.

Lemma shr_1_m (mrs : shr_record) :
  0 <= shr_m mrs -> shr_m (shr_1 mrs) = shr_m mrs / 2.
Proof.
  destruct mrs as [m r s]. cbn [shr_m]. intros Hm.
  destruct m as [|[p|p|]|p]; cbn [shr_1 shr_m]; try lia; try reflexivity.
  - apply Z.div_unique with (r := 1); lia.
  - apply Z.div_unique with (r := 0); lia.
Qed.

Lemma iter_shr_1_m (n : positive) :
  forall mrs, 0 <= shr_m mrs ->
  shr_m (SpecFloat.iter_pos shr_1 n mrs) = shr_m mrs / 2 ^ Zpos n.
Proof.
  assert (Hpow : forall k : positive, 0 < 2 ^ Zpos k)
    by (intros; apply Z.pow_pos_nonneg; lia).
  induction n as [n IH|n IH|]; intros mrs Hm; simpl SpecFloat.iter_pos.
  - assert (H1 : 0 <= shr_m (shr_1 mrs))
      by (rewrite shr_1_m by auto; apply Z.div_pos; lia).
    assert (H2 : 0 <= shr_m (SpecFloat.iter_pos shr_1 n (shr_1 mrs))).
    { rewrite IH by auto. apply Z.div_pos; [lia|apply Hpow]. }
    rewrite IH, IH, shr_1_m by auto.
    pose proof (Hpow n).
    rewrite !Z.div_div by lia. f_equal.
    replace (Zpos n~1) with (1 + Zpos n + Zpos n) by lia.
    rewrite !Z.pow_add_r by lia. change (2 ^ 1) with 2. lia.
  - assert (H2 : 0 <= shr_m (SpecFloat.iter_pos shr_1 n mrs)).
    { rewrite IH by auto. apply Z.div_pos; [lia|apply Hpow]. }
    rewrite IH, IH by auto.
    pose proof (Hpow n).
    rewrite Z.div_div by lia. f_equal.
    replace (Zpos n~0) with (Zpos n + Zpos n) by lia.
    rewrite Z.pow_add_r by lia. reflexivity.
  - rewrite shr_1_m by auto. reflexivity.
Qed.

Lemma shr_fexp_positive (m e : Z) (l : location) :
  0 < m -> emin Float.prec Float.emax <= e ->
  0 < shr_m (fst (shr_fexp Float.prec Float.emax m e l)) /\
  emin Float.prec Float.emax <= snd (shr_fexp Float.prec Float.emax m e l).
Proof.
  intros Hm He. unfold shr_fexp, shr.
  assert (Hrec : shr_m (shr_record_of_loc m l) = m)
    by (destruct l as [|[]]; reflexivity).
  destruct (fexp _ _ (Zdigits2 m + e) - e) as [|n|n] eqn:Hn; simpl;
    rewrite ?Hrec; try (split; lia).
  destruct m as [|p|p]; try lia.
  unfold fexp, Zdigits2 in Hn.
  assert (Hd := digits2_pos_bound p).
  assert (En : Zpos n = Zpos (digits2_pos p) - Float.prec) by lia.
  rewrite iter_shr_1_m by (rewrite Hrec; lia). rewrite Hrec.
  split; [|lia].
  apply Z.div_str_pos. split; [apply Z.pow_pos_nonneg; lia|].
  etransitivity; [|exact Hd].
  apply Z.pow_le_mono_r; [lia|]. rewrite En. unfold Float.prec. lia.
Qed.

Lemma round_nearest_even_ge (m : Z) (l : location) :
  m <= round_nearest_even m l.
Proof.
  destruct l as [|[]]; simpl; try lia. destruct (Z.even m); lia.
Qed.

Lemma binary_round_aux_nonzero (s : bool) (m e : Z) (l : location) :
  0 < m -> emin Float.prec Float.emax <= e ->
  Float.is_zero (binary_round_aux Float.prec Float.emax s m e l) = false.
Proof.
  intros Hm He. unfold binary_round_aux.
  destruct (shr_fexp_positive m e l Hm He) as [H1 H2].
  destruct (shr_fexp _ _ m e l) as [mrs' e']. simpl in H1, H2.
  pose proof (round_nearest_even_ge (shr_m mrs') (loc_of_shr_record mrs')) as Hr.
  destruct (shr_fexp_positive
              (round_nearest_even (shr_m mrs') (loc_of_shr_record mrs'))
              e' loc_Exact ltac:(lia) H2) as [H3 _].
  destruct (shr_fexp _ _ _ e' loc_Exact) as [mrs'' e'']. simpl in H3.
  destruct (shr_m mrs'') as [|p|p]; try lia.
  destruct (e'' <=? _); reflexivity.
Qed.

Lemma of_Z_pos_nonzero (p : positive) :
  Float.is_zero (Float.of_Z (Zpos p)) = false.
Proof.
  unfold Float.of_Z, binary_normalize, binary_round, shl_align.
  set (ex' := fexp _ _ _).
  assert (Hex : emin Float.prec Float.emax <= ex') by (apply Z.le_max_r).
  destruct (ex' - 0) as [|d|d] eqn:Hd;
    apply binary_round_aux_nonzero; try lia; vm_compute; discriminate.
Qed.

(** ** Strings *)

Lemma append_nil (s : string) : EmptyString +:+ s = s.
Proof. reflexivity. Qed.

Lemma append_cons (x : ascii) (a b : string) :
  String x a +:+ b = String x (a +:+ b).
Proof. reflexivity. Qed.

(** [append] does not reduce under [simpl]; its two equations are applied
    by rewriting. *)
Ltac unfold_append := rewrite ?append_nil, ?append_cons.

Lemma append_empty (a : string) : a +:+ EmptyString = a.
Proof.
  induction a as [|x a IH]; unfold_append;
    [reflexivity|now rewrite IH].
Qed.


Lemma rstrip_app (c : ascii) (a b : string) :
  Str.rstrip c (a +:+ b) =
  match Str.rstrip c b with
  | EmptyString => Str.rstrip c a
  | r => a +:+ r
  end.
Proof.
  induction a as [|x a IH]; unfold_append; simpl.
  - destruct (Str.rstrip c b); reflexivity.
  - rewrite IH. destruct (Str.rstrip c b) as [|y r]; [reflexivity|].
    destruct a; reflexivity.
Qed.

Lemma rstrip_cons (c x : ascii) (s : string) :
  Str.rstrip c (String x s) =
  match Str.rstrip c s with
  | EmptyString =>
      if Str.eqb_ascii x c then EmptyString else String x EmptyString
  | r => String x r
  end.
Proof. reflexivity. Qed.

Lemma rstrip_absent (c : ascii) (s : string) :
  Str.contains c s = false -> Str.rstrip c s = s.
Proof.
  induction s as [|x s IH]; simpl; [reflexivity|].
  intros Hc. apply orb_false_elim in Hc as [Hx Hs].
  rewrite (IH Hs), Hx. destruct s; reflexivity.
Qed.



Lemma rstrip_repeat (c : ascii) (n : nat) (s : string) :
  Str.rstrip c (s +:+ Str.repeat c n) = Str.rstrip c s.
Proof.
  rewrite rstrip_app.
  assert (E : Str.rstrip c (Str.repeat c n) = EmptyString).
  { induction n as [|n IH]; simpl; [reflexivity|].
    rewrite IH. unfold Str.eqb_ascii. now rewrite Ascii.eqb_refl. }
  now rewrite E.
Qed.

Lemma before_absent (c : ascii) (s : string) :
  Str.contains c s = false -> Str.before c s = s /\ Str.after c s = None.
Proof.
  induction s as [|x s IH]; simpl; [auto|].
  intros Hc. apply orb_false_elim in Hc as [Hx Hs].
  rewrite Hx. destruct (IH Hs) as [-> ->]. auto.
Qed.




(** ** Fixed-point numerals *)




Lemma repeat_snoc (c : ascii) (n : nat) :
  Str.repeat c n +:+ String c EmptyString = String c (Str.repeat c n).
Proof.
  induction n as [|n IH]; cbn [Str.repeat];
    unfold_append; [reflexivity|now rewrite IH].
Qed.

Lemma low_digits_zero (p : nat) : Fmt.low_digits p 0 = Str.repeat "0" p.
Proof.
  induction p as [|p IH]; [reflexivity|].
  cbn [Fmt.low_digits]. change (0 / 10) with 0. rewrite IH.
  change (Fmt.digit (0 mod 10)) with "0"%char. apply repeat_snoc.
Qed.




Lemma round_half_even_exact (q den : Z) :
  0 < den -> Fmt.round_half_even (q * den) den = q.
Proof.
  intros Hden. unfold Fmt.round_half_even.
  rewrite Z.div_mul, Z.mod_mul by lia.
  destruct (Z.compare_spec (2 * 0) den); lia.
Qed.

Lemma unsigned_fixed_integer (p : nat) (k : Z) :
  Fmt.unsigned_fixed p (k * 10 ^ Z.of_nat p) =
  Fmt.decimal k +:+
  match p with
  | O => EmptyString
  | S _ => String "." (Str.repeat "0" p)
  end.
Proof.
  unfold Fmt.unsigned_fixed. cbv zeta.
  assert (Hpow : 0 < 10 ^ Z.of_nat p) by (apply Z.pow_pos_nonneg; lia).
  rewrite Z.div_mul, Z.mod_mul by lia.
  now rewrite low_digits_zero.
Qed.

(** [f"{1.0:.{p}f}"] and [f"{0.0:.{p}f}"] *)
Lemma fixed_of_bool (p : nat) (b : bool) :
  Fmt.fixed p (Float.of_Z (if b then 1 else 0)) =
  (if b then "1" else "0") +:+
  match p with
  | O => EmptyString
  | S _ => String "." (Str.repeat "0" p)
  end.
Proof.
  destruct b.
  - change (Float.of_Z 1) with (S754_finite false 4503599627370496 (-52)).
    cbn [Fmt.fixed Fmt.sign Fmt.scaled]. rewrite append_nil.
    change (2 ^ 52) with 4503599627370496.
    rewrite (Z.mul_comm 4503599627370496).
    rewrite round_half_even_exact by lia.
    rewrite <- (Z.mul_1_l (10 ^ Z.of_nat p)).
    apply unsigned_fixed_integer.
  - change (Float.of_Z 0) with (S754_zero false).
    cbn [Fmt.fixed Fmt.sign]. rewrite append_nil.
    change 0 with (0 * 10 ^ Z.of_nat p) at 1.
    apply unsigned_fixed_integer.
Qed.

Lemma strip_integer_numeral (p : nat) (a : string) :
  Str.contains "." a = false ->
  (if Nat.ltb 0 p
   then Str.rstrip "." (Str.rstrip "0"
          (a +:+ match p with
                 | O => EmptyString
                 | S _ => String "." (Str.repeat "0" p)
                 end))
   else Str.before "." (a +:+ match p with
                              | O => EmptyString
                              | S _ => String "." (Str.repeat "0" p)
                              end))
  = a.
Proof.
  intros Ha. destruct p as [|p].
  - change (Nat.ltb 0 0) with false. cbv iota. rewrite append_empty.
    apply before_absent, Ha.
  - change (Nat.ltb 0 (S p)) with true. cbv iota.
    rewrite rstrip_app, rstrip_cons.
    change (String "0" (Str.repeat "0" p)) with (Str.repeat "0" (S p)).
    rewrite <- (append_nil (Str.repeat "0" (S p))), rstrip_repeat.
    cbn [Str.rstrip]. change (Str.eqb_ascii "." "0") with false. cbv iota.
    rewrite rstrip_app, rstrip_cons. cbn [Str.rstrip].
    change (Str.eqb_ascii "." ".") with true. cbv iota.
    apply rstrip_absent, Ha.
Qed.

(** ** Loops *)

Lemma for_each_seq {A B : Type} (F : nat -> result B) (g : A -> B)
    (l : list A) :
  forall k : nat,
  (forall i x, l !! i = Some x -> F (k + i)%nat = Ok (g x)) ->
  for_each F (seq k (length l)) = Ok (map g l).
Proof.
  induction l as [|a l IH]; intros k HF; [reflexivity|].
  simpl. pose proof (HF 0%nat a eq_refl) as H0.
  rewrite Nat.add_0_r in H0. rewrite H0. simpl.
  rewrite (IH (S k)); [reflexivity|].
  intros i x Hi. specialize (HF (S i) x Hi).
  rewrite <- HF. f_equal. lia.
Qed.

Lemma for_each_Forall {A B : Type} (f : A -> result B) (P : B -> Prop)
    (xs : list A) :
  (forall x y, f x = Ok y -> P y) ->
  forall ys, for_each f xs = Ok ys -> Forall P ys.
Proof.
  intros Hf. induction xs as [|x xs IH]; simpl; intros ys Hys.
  - injection Hys as <-. constructor.
  - destruct (f x) as [y|e] eqn:Hy; simpl in Hys; [|discriminate].
    destruct (for_each f xs) as [ys'|e]; simpl in Hys; [|discriminate].
    injection Hys as <-. constructor; eauto.
Qed.

Section ViewerProperties.

Context `{Interpreter}.

(** ** The mean *)

Lemma collect_nums_row (r : list pyval) (acc : list float) :
  fold_left
    (fun nums v => match py_float v with
                   | Ok x => nums ++ [x]
                   | Raise _ => nums
                   end) r acc
  = acc ++ flat_map (fun v => match py_float v with
                              | Ok x => [x]
                              | Raise _ => []
                              end) r.
Proof.
  revert acc. induction r as [|v r IH]; intros acc; simpl.
  - now rewrite app_nil_r.
  - rewrite IH. destruct (py_float v); simpl.
    + now rewrite <- app_assoc.
    + reflexivity.
Qed.

Lemma collect_nums_acc (table_data : list (list pyval)) :
  forall acc : list float,
  fold_left
    (fun nums r =>
       fold_left
         (fun nums v => match py_float v with
                        | Ok x => nums ++ [x]
                        | Raise _ => nums
                        end) r nums) table_data acc
  = acc ++ numeric_cells table_data.
Proof.
  unfold numeric_cells.
  induction table_data as [|r td IH]; intros acc; cbn [fold_left concat].
  - now rewrite app_nil_r.
  - rewrite IH, collect_nums_row, flat_map_app, app_assoc. reflexivity.
Qed.

(** The two loops gather exactly the cells that convert, in reading
    order. *)
Lemma collect_nums_numeric_cells (table_data : list (list pyval)) :
  collect_nums table_data = numeric_cells table_data.
Proof. unfold collect_nums. now rewrite collect_nums_acc. Qed.

Lemma average_ok (nums : list float) : exists avg, average nums = Ok avg.
Proof.
  destruct nums as [|x xs]; [simpl; eauto|].
  unfold average, Py.div.
  change (Z.of_nat (length (x :: xs)))
    with (Zpos (Pos.of_succ_nat (length xs))).
  rewrite of_Z_pos_nonzero. eauto.
Qed.

Lemma average_nonempty (nums : list float) :
  nums <> [] -> average nums = arithmetic_mean nums.
Proof. destruct nums; [congruence|reflexivity]. Qed.

(** ** The table built for a rectangular grid *)

Lemma add_table_rectangular (p : nat) (table_data : list (list pyval))
    (max_dev : option float) (avg : float) :
  rectangular table_data ->
  average (collect_nums table_data) = Ok avg ->
  add_table p table_data max_dev =
  Ok (mkTable (length table_data)
        (match table_data with first :: _ => length first | [] => 0%nat end)
        (map (map (make_item p max_dev avg)) table_data)).
Proof.
  intros Hrect Havg. unfold add_table.
  destruct table_data as [|first rest] eqn:Htd; [contradiction|].
  rewrite <- Htd in *. 
  assert (Hfirst : getitem table_data 0 = Ok first) by (now subst).
  rewrite Hfirst. simpl mbind. unfold mbind, result_bind at 1.
  rewrite Havg. unfold mbind, result_bind at 1.
  rewrite (for_each_seq _ (map (make_item p max_dev avg)) table_data 0).
  - subst table_data. reflexivity.
  - intros i row Hi. simpl.
    assert (Hlen : length row = length first).
    { subst table_data. unfold rectangular in Hrect.
      rewrite List.Forall_forall in Hrect. apply Hrect.
      apply list_elem_of_In. eapply list_elem_of_lookup_2; eauto. }
    rewrite <- Hlen.
    apply for_each_seq. intros j x Hj. simpl.
    unfold getitem. rewrite Hi. simpl. rewrite Hj. reflexivity.
Qed.

(** ** The heat map of one cell *)

Lemma nonzero_mean_divides (avg : float) :
  Float.eqb avg Float.zero = false ->
  Float.is_zero (Float.abs avg) = false.
Proof. destruct avg as [s|s| |s m e]; simpl; auto; discriminate. Qed.

Lemma relative_deviation_ok (num avg : float) :
  Float.eqb avg Float.zero = false ->
  exists diff, relative_deviation num avg = Ok diff.
Proof.
  intros Havg. unfold relative_deviation, Py.div.
  rewrite (nonzero_mean_divides avg Havg). eauto.
Qed.

(** The relative deviation is never below zero. *)
Lemma relative_deviation_not_negative (num avg diff : float) :
  relative_deviation num avg = Ok diff ->
  Float.ltb diff Float.zero = false.
Proof.
  intros Hd. apply unsigned_not_negative. eapply div_abs_sign, Hd.
Qed.

(** A deviation that equals zero is the float [+0.0]. *)
Lemma relative_deviation_zero (num avg diff : float) :
  relative_deviation num avg = Ok diff ->
  Float.eqb diff Float.zero = true ->
  diff = Float.zero.
Proof.
  intros Hd Hz. apply div_abs_sign in Hd.
  destruct diff as [s|s| |s m e]; simpl in *; try discriminate;
    try (destruct s; discriminate).
  destruct Hd as [Hd|Hd]; [discriminate|now subst].
Qed.

Lemma compare_swap (x y : float) :
  SFcompare y x = option_map CompOpp (SFcompare x y).
Proof.
  destruct x as [sx|sx| |sx mx ex], y as [sy|sy| |sy my ey]; simpl;
    try reflexivity; try (destruct sx; reflexivity);
    try (destruct sy; reflexivity);
    try (destruct sx, sy; reflexivity).
  destruct sx, sy; simpl; try reflexivity;
    rewrite (Z.compare_antisym ey ex);
    destruct (ey ?= ex) eqn:E; simpl; try reflexivity;
    rewrite (Pos.compare_cont_antisym mx my Eq); simpl;
    try reflexivity.
Qed.

Lemma leb_not_ltb (x y : float) :
  Float.leb x y = true -> Float.ltb y x = false.
Proof.
  unfold Float.leb, Float.ltb, SFleb, SFltb. rewrite (compare_swap x y).
  destruct (SFcompare x y) as [[]|]; simpl; congruence.
Qed.

Lemma ltb_not_leb (x y : float) :
  Float.ltb x y = true -> Float.leb y x = false.
Proof.
  unfold Float.leb, Float.ltb, SFleb, SFltb. rewrite (compare_swap x y).
  destruct (SFcompare x y) as [[]|]; simpl; congruence.
Qed.

(** The denominator of the out-of-band branch is never zero. *)
Lemma red_denominator_nonzero (max_dev : float) :
  Float.is_zero (Py.max (Float.mul max_dev red_cap_factor) min_denom) = false.
Proof.
  unfold Py.max.
  destruct (Float.mul max_dev red_cap_factor) as [s|s| |s m e].
  - destruct s; vm_compute; reflexivity.
  - destruct (Float.ltb _ _); reflexivity.
  - reflexivity.
  - destruct (Float.ltb _ _); reflexivity.
Qed.

(** What the out-of-band branch computes. *)
Lemma heat_param_out_of_band (max_dev avg : float) (raw_val : pyval)
    (num diff : float) :
  py_float raw_val = Ok num ->
  relative_deviation num avg = Ok diff ->
  Float.ltb max_dev diff = true ->
  exists q,
    Py.div (Float.sub diff max_dev)
           (Py.max (Float.mul max_dev red_cap_factor) min_denom) = Ok q /\
    heat_param max_dev avg raw_val =
      Ok (OutOfBand, clamp q Float.zero (Float.of_Z 1)).
Proof.
  intros Hnum Hdiff Hlt. unfold heat_param.
  rewrite Hnum. simpl. rewrite Hdiff. simpl.
  rewrite (ltb_not_leb _ _ Hlt).
  unfold Py.div at 1 2. rewrite red_denominator_nonzero.
  eexists. split; reflexivity.
Qed.

(** What the in-band branch computes for a positive threshold. *)
Lemma heat_param_at_mean (max_dev avg : float) (raw_val : pyval)
    (num diff : float) :
  py_float raw_val = Ok num ->
  relative_deviation num avg = Ok diff ->
  Float.eqb diff Float.zero = true ->
  Float.ltb Float.zero max_dev = true ->
  heat_param max_dev avg raw_val = Ok (InBand, Float.zero) /\
  band_color (InBand, Float.zero) = Ok (mkQColor 234 251 234).
Proof.
  intros Hnum Hdiff Hz Hpos.
  rewrite (relative_deviation_zero _ _ _ Hdiff Hz) in Hdiff.
  split; [|reflexivity].
  unfold heat_param. rewrite Hnum. simpl. rewrite Hdiff. simpl.
  destruct max_dev as [s|s| |s m e]; try discriminate;
    destruct s; try discriminate; reflexivity.
Qed.
(** ** The heat map of a table *)

(** C1 (amended).  For a cell that converts to a number, a threshold
    [max_dev] and a mean that is not zero: when the relative deviation
    [diff] exceeds [max_dev], the cell is out of band and its parameter is
    [clamp((diff - max_dev) / max(max_dev * 5, 1e-12), 0, 1)]; this is the
    formula [clamp((diff - max_dev) / (max_dev * 5), 0, 1)] whenever
    [max_dev * 5 >= 1e-12].  For [[10,10],[10,40]] the mean is 17.5, the
    cell 40 has [diff = 22.5 / 17.5], and with [max_dev = 0.1] the
    parameter is exactly 1.0. *)
Theorem C1_out_of_band_parameter :
  (forall (max_dev avg : float) (raw_val : pyval) (num diff : float),
     py_float raw_val = Ok num ->
     Float.eqb avg Float.zero = false ->
     relative_deviation num avg = Ok diff ->
     Float.ltb max_dev diff = true ->
     exists q,
       Py.div (Float.sub diff max_dev)
              (Py.max (Float.mul max_dev (Float.of_Z 5)) min_denom) = Ok q /\
       heat_param max_dev avg raw_val =
         Ok (OutOfBand, clamp q Float.zero (Float.of_Z 1)) /\
       cell_background (Some max_dev) avg raw_val =
         try_except
           (color ← _red_color (clamp q Float.zero (Float.of_Z 1));
            Ok (Some color)) None /\
       (Float.leb min_denom (Float.mul max_dev (Float.of_Z 5)) = true ->
        out_of_band_t max_dev diff =
          Ok (clamp q Float.zero (Float.of_Z 1)))) /\
  (let table_data := [[PInt 10; PInt 10]; [PInt 10; PInt 40]] in
   let avg := Float.of_ratio 175 10 in
   average (collect_nums table_data) = Ok avg /\
   relative_deviation (Float.of_Z 40) avg =
     Py.div (Float.of_ratio 225 10) avg /\
   heat_param (Float.of_ratio 1 10) avg (PInt 40) =
     Ok (OutOfBand, Float.of_Z 1)).
Proof.
  split.
  - intros max_dev avg raw_val num diff Hnum Havg Hdiff Hlt.
    destruct (heat_param_out_of_band _ avg _ _ _ Hnum Hdiff Hlt)
      as (q & Hq & Hheat).
    exists q. repeat split; try assumption.
    + unfold cell_background. rewrite Havg. simpl negb. cbv iota.
      rewrite Hheat. reflexivity.
    + intros Hfloor. unfold out_of_band_t.
      unfold Py.max in Hq. change red_cap_factor with (Float.of_Z 5) in Hq.
      rewrite (leb_not_ltb _ _ Hfloor) in Hq.
      rewrite Hq. reflexivity.
  - vm_compute. repeat split; reflexivity.
Qed.

(** C5.  When the mean over the cells that convert to numbers equals 0, no
    cell of the table is given a background, whatever the threshold. *)
Theorem C5_zero_mean_no_color (p : nat) (table_data : list (list pyval))
    (max_dev : option float) (avg : float) :
  rectangular table_data ->
  average (numeric_cells table_data) = Ok avg ->
  Float.eqb avg Float.zero = true ->
  exists t,
    add_table p table_data max_dev = Ok t /\
    Forall (Forall (fun it => item_background it = None)) (table_items t).
Proof.
  intros Hrect Havg Hzero.
  rewrite <- collect_nums_numeric_cells in Havg.
  rewrite (add_table_rectangular p _ max_dev avg Hrect Havg).
  eexists. split; [reflexivity|]. simpl.
  apply List.Forall_forall. intros row' Hrow.
  apply List.in_map_iff in Hrow as (row & <- & _).
  apply List.Forall_forall. intros it Hit.
  apply List.in_map_iff in Hit as (v & <- & _).
  unfold make_item, cell_background. simpl.
  destruct max_dev; [|reflexivity]. now rewrite Hzero.
Qed.

(** C6 (the code at the failing input).  The threshold 0 is one the
    configuration yields, for an entry of 0 and for a negative one.  With
    it and the matrix [[5, 5]], each cell sits at the mean: its deviation
    is 0 and is within the band, the in-band parameter [0 / 0] raises, and
    the cell is left without a background, whereas the lightest in-band
    shade is (234, 251, 234). *)
Theorem C6_zero_threshold_uncolored :
  let table_data := [[PInt 5; PInt 5]] in
  let max_dev := Float.zero in
  let avg := Float.of_Z 5 in
  heatmap_threshold Float.zero = max_dev /\
  heatmap_threshold (Float.of_ratio (-1) 10) = max_dev /\
  average (collect_nums table_data) = Ok avg /\
  Float.eqb avg Float.zero = false /\
  relative_deviation (Float.of_Z 5) avg = Ok Float.zero /\
  Float.leb Float.zero max_dev = true /\
  heat_param max_dev avg (PInt 5) = Raise ZeroDivisionError /\
  add_table 3 table_data (Some max_dev) =
    Ok (mkTable 1 2 [[mkItem (Lit "5") None; mkItem (Lit "5") None]]) /\
  _green_color Float.zero = Ok (mkQColor 234 251 234).
Proof. vm_compute. repeat split; reflexivity. Qed.

(** A cell that does not convert is left out of the numbers averaged. *)
Lemma numeric_cells_skip (before_rows after_rows : list (list pyval))
    (left_cells right_cells : list pyval) (v : pyval) (e : exn) :
  py_float v = Raise e ->
  numeric_cells (before_rows ++ (left_cells ++ v :: right_cells) :: after_rows)
  = numeric_cells (before_rows ++ (left_cells ++ right_cells) :: after_rows).
Proof.
  intros Hv. unfold numeric_cells.
  rewrite !concat_app, !flat_map_app. simpl concat.
  rewrite !flat_map_app. simpl. now rewrite Hv.
Qed.

(** C7.  The average of a matrix is the arithmetic mean of exactly the
    cells that convert to numbers (0.0 when there is none); the table is
    built without an error, and a cell that does not convert is left out
    of the mean, is given no background and is shown as its text. *)
Theorem C7_mean_over_numeric_cells (p : nat)
    (table_data : list (list pyval)) (max_dev : option float) :
  rectangular table_data ->
  collect_nums table_data = numeric_cells table_data /\
  (numeric_cells table_data <> [] ->
   average (collect_nums table_data) =
     arithmetic_mean (numeric_cells table_data)) /\
  (numeric_cells table_data = [] ->
   average (collect_nums table_data) = Ok Float.zero) /\
  exists avg,
    average (collect_nums table_data) = Ok avg /\
    add_table p table_data max_dev =
      Ok (mkTable (length table_data)
            (match table_data with first :: _ => length first | [] => 0%nat end)
            (map (map (make_item p max_dev avg)) table_data)) /\
    forall (v : pyval) (e : exn),
      py_float v = Raise e ->
      make_item p max_dev avg v = mkItem (StrOf v) None /\
      forall before_rows after_rows left_cells right_cells,
        numeric_cells (before_rows ++ (left_cells ++ v :: right_cells) :: after_rows)
        = numeric_cells (before_rows ++ (left_cells ++ right_cells) :: after_rows).
Proof.
  intros Hrect. rewrite collect_nums_numeric_cells.
  split; [reflexivity|]. split; [apply average_nonempty|].
  split; [now intros ->|].
  destruct (average_ok (numeric_cells table_data)) as [avg Havg].
  exists avg. split; [assumption|]. split.
  - apply add_table_rectangular; [assumption|].
    now rewrite collect_nums_numeric_cells.
  - intros v e Hv. split.
    + unfold make_item, _format_for_display, cell_background, heat_param.
      rewrite Hv. simpl.
      destruct max_dev; [|reflexivity].
      destruct (negb _); reflexivity.
    + intros. eapply numeric_cells_skip, Hv.
Qed.
(** ** Display formatting *)


(** From 2^31 on the format raises and the value is shown as its [str]. *)
Lemma format_precision_too_big (p : nat) (v : pyval) :
  2 ^ 31 <= Z.of_nat p -> _format_for_display p v = StrOf v.
Proof.
  intros Hp. unfold _format_for_display, format_fixed.
  destruct (py_float v) as [num|e]; [|reflexivity].
  apply Z.ltb_ge in Hp. cbn [mbind result_bind]. now rewrite Hp.
Qed.


(** A cell that converts is one of the numbers averaged. *)
Lemma numeric_cells_keep (before_rows after_rows : list (list pyval))
    (left_cells right_cells : list pyval) (v : pyval) (x : float) :
  py_float v = Ok x ->
  numeric_cells (before_rows ++ (left_cells ++ v :: right_cells) :: after_rows)
  = numeric_cells (before_rows ++ [left_cells]) ++
    x :: numeric_cells (right_cells :: after_rows).
Proof.
  intros Hv. unfold numeric_cells.
  rewrite !concat_app, !flat_map_app. cbn [concat].
  rewrite !flat_map_app, app_nil_r. cbn [flat_map]. rewrite Hv.
  rewrite <- !app_assoc. reflexivity.
Qed.

Lemma collect_nums_keep (before_rows after_rows : list (list pyval))
    (left_cells right_cells : list pyval) (v : pyval) (x : float) :
  py_float v = Ok x ->
  collect_nums (before_rows ++ (left_cells ++ v :: right_cells) :: after_rows)
  = collect_nums (before_rows ++ [left_cells]) ++
    x :: collect_nums (right_cells :: after_rows).
Proof.
  intros Hv. rewrite !collect_nums_numeric_cells. now apply numeric_cells_keep.
Qed.

Lemma format_of_bool (p : nat) (b : bool) :
  Z.of_nat p < 2 ^ 31 ->
  _format_for_display p (PBool b) = Lit (if b then "1" else "0").
Proof.
  intros Hp. unfold _format_for_display, format_fixed.
  apply Z.ltb_lt in Hp. cbn [py_float mbind result_bind]. rewrite Hp.
  cbn [mbind result_bind try_except].
  rewrite fixed_of_bool, strip_integer_numeral; [reflexivity|].
  now destruct b.
Qed.

(** C10 (amended).  A boolean cell is a number throughout: [float] turns
    it into 1.0 or 0.0; the loops of [add_table] collect that number where
    the cell stands, so the mean is taken over it; the cell is coloured as
    the number would be; and in the table built it is shown as [1] or [0],
    not as the text of the boolean, when the precision is below 2^31.
    From 2^31 on it is shown as the text of the boolean. *)
Theorem C10_boolean_cells_are_numeric (b : bool) :
  let x := Float.of_Z (if b then 1 else 0) in
  py_float (PBool b) = Ok x /\
  (forall max_dev avg,
     heat_param max_dev avg (PBool b) = heat_param max_dev avg (PFloat x)) /\
  (forall max_dev avg,
     cell_background max_dev avg (PBool b) =
     cell_background max_dev avg (PFloat x)) /\
  (forall (p : nat) (max_dev : option float)
          (before_rows after_rows : list (list pyval))
          (left_cells right_cells : list pyval),
     let table_data :=
       before_rows ++ (left_cells ++ PBool b :: right_cells) :: after_rows in
     let nums :=
       collect_nums (before_rows ++ [left_cells]) ++
       x :: collect_nums (right_cells :: after_rows) in
     rectangular table_data ->
     collect_nums table_data = nums /\
     exists avg t,
       average nums = Ok avg /\
       add_table p table_data max_dev = Ok t /\
       table_items t =
         map (map (make_item p max_dev avg)) before_rows ++
         (map (make_item p max_dev avg) left_cells ++
          mkItem (if Z.of_nat p <? 2 ^ 31
                  then Lit (if b then "1" else "0")
                  else StrOf (PBool b))
                 (cell_background max_dev avg (PFloat x))
          :: map (make_item p max_dev avg) right_cells)
         :: map (map (make_item p max_dev avg)) after_rows) /\
  (forall p : nat,
     Z.of_nat p < 2 ^ 31 ->
     _format_for_display p (PBool b) = Lit (if b then "1" else "0") /\
     _format_for_display p (PBool b) <> StrOf (PBool b)) /\
  (forall p : nat,
     2 ^ 31 <= Z.of_nat p ->
     _format_for_display p (PBool b) = StrOf (PBool b)).
Proof.
  cbv zeta. split; [reflexivity|]. split; [reflexivity|].
  split; [reflexivity|]. split; [|split].
  - intros p max_dev before_rows after_rows left_cells right_cells Hrect.
    assert (Hnums : collect_nums
                      (before_rows ++
                       (left_cells ++ PBool b :: right_cells) :: after_rows)
                    = collect_nums (before_rows ++ [left_cells]) ++
                      Float.of_Z (if b then 1 else 0)
                      :: collect_nums (right_cells :: after_rows))
      by (now apply collect_nums_keep).
    split; [exact Hnums|].
    destruct (average_ok
                (collect_nums
                   (before_rows ++
                    (left_cells ++ PBool b :: right_cells) :: after_rows)))
      as [avg Havg].
    pose proof (add_table_rectangular p _ max_dev avg Hrect Havg) as Htable.
    rewrite Hnums in Havg. eexists avg, _.
    split; [exact Havg|]. split; [exact Htable|].
    cbn [table_items]. rewrite map_app. cbn [map]. rewrite map_app.
    cbn [map]. do 3 f_equal. unfold make_item at 1.
    change (cell_background max_dev avg (PBool b))
      with (cell_background max_dev avg
              (PFloat (Float.of_Z (if b then 1 else 0)))).
    destruct (Z.of_nat p <? 2 ^ 31) eqn:Hp.
    + rewrite format_of_bool by (now apply Z.ltb_lt). reflexivity.
    + rewrite format_precision_too_big by (now apply Z.ltb_ge). reflexivity.
  - intros p Hp. rewrite (format_of_bool p b Hp). split; [reflexivity|].
    discriminate.
  - intros p Hp. now apply format_precision_too_big.
Qed.

(** ** The classifier and the traversal *)

Lemma is_2d_array_grid (v : pyval) : is_2d_array v = true <-> grid_shape v.
Proof.
  unfold grid_shape. split.
  - destruct v as [| | | | |rows|]; try discriminate.
    destruct rows as [|r0 rest]; [discriminate|].
    cbn [is_2d_array]. intros Hv. apply andb_prop in Hv as [Hl Hlen].
    destruct r0 as [| | | | |first|]; try discriminate.
    exists first, rest. split; [reflexivity|].
    apply List.Forall_forall. intros r Hr.
    rewrite List.forallb_forall in Hlen. specialize (Hlen r Hr).
    destruct r as [| | | | |cells|]; try discriminate.
    exists cells. split; [reflexivity|]. now apply Nat.eqb_eq.
  - intros (first & rest & -> & Hall). cbn [is_2d_array].
    apply andb_true_intro. split; apply List.forallb_forall; intros r Hr;
      rewrite List.Forall_forall in Hall;
      destruct (Hall r Hr) as (cells & -> & Hlen); [reflexivity|].
    now apply Nat.eqb_eq.
Qed.

Lemma as_rows_uniform (n : nat) (arr : list pyval) :
  Forall (fun r => exists cells, r = PList cells /\ length cells = n) arr ->
  exists rows,
    as_rows arr = Ok rows /\ Forall (fun r => length r = n) rows /\
    length rows = length arr.
Proof.
  induction arr as [|r arr IH]; intros Hall.
  - exists []. repeat split; constructor.
  - apply List.Forall_cons_iff in Hall as [(cells & -> & Hlen) Hall].
    destruct (IH Hall) as (rows & Hrows & Hlens & Hcount).
    exists (cells :: rows). cbn [as_rows]. rewrite Hrows.
    repeat split; [now constructor|]. cbn [length]. now rewrite Hcount.
Qed.

(** The rows of an accepted value form a rectangular grid. *)
Lemma as_rows_matrix (arr : list pyval) :
  is_2d_array (PList arr) = true ->
  exists rows, as_rows arr = Ok rows /\ rectangular rows.
Proof.
  intros Hv. apply is_2d_array_grid in Hv as (first & rest & E & Hall).
  injection E as ->.
  destruct (as_rows_uniform (length first) _ Hall) as (rows & Hrows & Hlens & _).
  exists rows. split; [assumption|].
  cbn [as_rows] in Hrows.
  destruct (as_rows rest) as [rows'|]; [|discriminate].
  injection Hrows as <-. exact Hlens.
Qed.

(** A table is built for every rectangular grid. *)
Lemma add_table_ok (p : nat) (rows : list (list pyval))
    (max_dev : option float) :
  rectangular rows ->
  exists avg,
    average (collect_nums rows) = Ok avg /\
    add_table p rows max_dev =
      Ok (mkTable (length rows)
            (match rows with first :: _ => length first | [] => 0%nat end)
            (map (map (make_item p max_dev avg)) rows)).
Proof.
  intros Hrect. destruct (average_ok (collect_nums rows)) as [avg Havg].
  exists avg. split; [assumption|]. now apply add_table_rectangular.
Qed.

Lemma render_data_dict_cons (tv : TableViewer) (key : string)
    (value : pyval) (rest : list (string * pyval)) :
  render_data tv (PDict ((key, value) :: rest)) =
  (ws ← render_entry tv key value;
   ws' ← render_data tv (PDict rest);
   Ok (ws ++ ws')).
Proof. destruct value; reflexivity. Qed.

Lemma render_data_list_cons (tv : TableViewer) (item : pyval)
    (rest : list pyval) :
  render_data tv (PList (item :: rest)) =
  (ws ← render_data tv item;
   ws' ← render_data tv (PList rest);
   Ok (ws ++ ws')).
Proof. reflexivity. Qed.

Lemma render_entry_matrix (tv : TableViewer) (key : string)
    (arr : list pyval) :
  is_2d_array (PList arr) = true ->
  exists rows avg,
    as_rows arr = Ok rows /\ rectangular rows /\
    average (collect_nums rows) = Ok avg /\
    render_entry tv key (PList arr) =
      Ok [add_label (Lit (key +:+ ":")) true;
          QTable (mkTable (length rows)
                    (match rows with first :: _ => length first | [] => 0%nat end)
                    (map (map (make_item (precision tv) (max_dev_for tv key) avg))
                       rows))].
Proof.
  intros Hv. destruct (as_rows_matrix arr Hv) as (rows & Hrows & Hrect).
  destruct (add_table_ok (precision tv) rows (max_dev_for tv key) Hrect)
    as (avg & Havg & Htable).
  exists rows, avg. repeat split; try assumption.
  unfold render_entry. rewrite Hv, Hrows.
  cbn [mbind result_bind]. rewrite Htable. reflexivity.
Qed.

(** The traversal always completes, and every table it adds holds a
    grid. *)
Lemma render_data_total (tv : TableViewer) (data : pyval) :
  exists ws, render_data tv data = Ok ws /\ Forall holds_grid ws.
Proof.
  induction data as [| | | | |items IH|items IH] using pyval_nested_ind;
    try (exists []; split; [reflexivity|constructor]).
  - induction IH as [|item rest (ws & Hws & Hg) _ (ws' & Hws' & Hg')].
    + exists []. split; [reflexivity|constructor].
    + exists (ws ++ ws'). rewrite render_data_list_cons, Hws.
      cbn [mbind result_bind]. rewrite Hws'.
      split; [reflexivity|]. now apply Forall_app.
  - induction IH as [|[key value] rest Hvalue _ (ws' & Hws' & Hg')].
    + exists []. split; [reflexivity|constructor].
    + assert (Hentry : exists ws,
                 render_entry tv key value = Ok ws /\ Forall holds_grid ws).
      { cbn [snd] in Hvalue.
        destruct value as [| | | | |arr|d];
          try (exists []; split; [reflexivity|constructor]);
          try exact Hvalue.
        destruct (is_2d_array (PList arr)) eqn:Harr.
        - destruct (render_entry_matrix tv key arr Harr)
            as (rows & avg & Hrows & Hrect & Havg & ->).
          eexists. split; [reflexivity|].
          repeat constructor; cbn [rowCount columnCount table_items].
          + destruct rows; [contradiction|cbn; lia].
          + now rewrite length_map.
          + destruct rows as [|first rows']; [contradiction|].
            unfold rectangular in Hrect.
            apply List.Forall_forall. intros r' Hr'.
            apply List.in_map_iff in Hr' as (r & <- & Hr).
            rewrite length_map.
            rewrite List.Forall_forall in Hrect. now apply Hrect.
        - unfold render_entry. rewrite Harr. exact Hvalue. }
      destruct Hentry as (ws & Hws & Hg).
      exists (ws ++ ws'). rewrite render_data_dict_cons, Hws.
      cbn [mbind result_bind]. rewrite Hws'.
      split; [reflexivity|]. now apply Forall_app.
Qed.

Lemma render_entry_total (tv : TableViewer) (key : string) (value : pyval) :
  exists ws, render_entry tv key value = Ok ws.
Proof.
  destruct (render_data_total tv (PDict [(key, value)])) as (ws & Hws & _).
  rewrite render_data_dict_cons in Hws.
  destruct (render_entry tv key value) as [ws0|e]; [eauto|discriminate].
Qed.

(** The loop over a dict goes through the entries in order. *)
Lemma render_data_dict_app (tv : TableViewer)
    (xs ys : list (string * pyval)) :
  exists wx wy,
    render_data tv (PDict xs) = Ok wx /\
    render_data tv (PDict ys) = Ok wy /\
    render_data tv (PDict (xs ++ ys)) = Ok (wx ++ wy).
Proof.
  destruct (render_data_total tv (PDict ys)) as (wy & Hwy & _).
  induction xs as [|[key value] xs (wx & wy' & Hwx & Hwy' & Hboth)].
  - exists [], wy. repeat split; assumption.
  - destruct (render_entry_total tv key value) as [ws Hws].
    exists (ws ++ wx), wy. cbn [app].
    rewrite !render_data_dict_cons, Hws, Hwx, Hboth.
    cbn [mbind result_bind]. rewrite Hwy in Hwy'. injection Hwy' as <-.
    repeat split; [assumption|]. now rewrite app_assoc.
Qed.

(** The loop over a list goes through the items in order. *)
Lemma render_data_list_app (tv : TableViewer) (xs ys : list pyval) :
  exists wx wy,
    render_data tv (PList xs) = Ok wx /\
    render_data tv (PList ys) = Ok wy /\
    render_data tv (PList (xs ++ ys)) = Ok (wx ++ wy).
Proof.
  destruct (render_data_total tv (PList ys)) as (wy & Hwy & _).
  induction xs as [|item xs (wx & wy' & Hwx & Hwy' & Hboth)].
  - exists [], wy. repeat split; assumption.
  - destruct (render_data_total tv item) as (ws & Hws & _).
    exists (ws ++ wx), wy. cbn [app].
    rewrite !render_data_list_cons, Hws, Hwx, Hboth.
    cbn [mbind result_bind]. rewrite Hwy in Hwy'. injection Hwy' as <-.
    repeat split; [assumption|]. now rewrite app_assoc.
Qed.

(** What the traversal adds for one entry stands, in the view of the whole
    dict, between what it adds for the entries before and after. *)
Lemma render_data_dict_middle (tv : TableViewer) (key : string)
    (value : pyval) (before after : list (string * pyval))
    (ws : list widget) :
  render_entry tv key value = Ok ws ->
  exists wb wa,
    render_data tv (PDict (before ++ (key, value) :: after)) =
      Ok (wb ++ ws ++ wa).
Proof.
  intros Hws.
  destruct (render_data_dict_app tv before ((key, value) :: after))
    as (wb & wrest & _ & Hrest & Hboth).
  destruct (render_data_total tv (PDict after)) as (wa & Hwa & _).
  rewrite render_data_dict_cons, Hws, Hwa in Hrest.
  cbn [mbind result_bind] in Hrest. injection Hrest as <-.
  now exists wb, wa.
Qed.

Lemma render_data_list_middle (tv : TableViewer) (item : pyval)
    (before after : list pyval) (ws : list widget) :
  render_data tv item = Ok ws ->
  exists wb wa,
    render_data tv (PList (before ++ item :: after)) = Ok (wb ++ ws ++ wa).
Proof.
  intros Hws.
  destruct (render_data_list_app tv before (item :: after))
    as (wb & wrest & _ & Hrest & Hboth).
  destruct (render_data_total tv (PList after)) as (wa & Hwa & _).
  rewrite render_data_list_cons, Hws, Hwa in Hrest.
  cbn [mbind result_bind] in Hrest. injection Hrest as <-.
  now exists wb, wa.
Qed.

(** C2.  For every matrix the traversal encounters under a key, at any
    depth, [render_data] adds the label of the key and a table built by
    [add_table] from the rows of the matrix with a threshold resolved by
    precedence: the rule named by the key when there is one; the default
    threshold when no rules are configured at all (none given, or an empty
    set); no threshold, and then no background on any cell, when rules
    exist but none is named by the key.  With the rules {A: 0.1} the
    matrix B is not coloured; with no rules and the default 0.2 it is
    coloured with the threshold 0.2. *)
Theorem C2_rule_precedence :
  (forall (tv : TableViewer) (data : pyval) (key : string)
          (arr : list pyval),
      encountered key arr data ->
      exists rows th t before after,
        as_rows arr = Ok rows /\
        (forall rules md,
            heatmap_rules tv = Some rules -> rules !! key = Some md ->
            th = Some md) /\
        (heatmap_rules tv = None -> th = Some (default_max_dev tv)) /\
        (forall rules,
            heatmap_rules tv = Some rules -> rules !! key = None ->
            th = None) /\
        add_table (precision tv) rows th = Ok t /\
        render_data tv data =
          Ok (before ++
              [add_label (Lit (key +:+ ":")) true; QTable t] ++ after) /\
        (th = None ->
         Forall (Forall (fun it => item_background it = None))
                (table_items t))) /\
  (forall p d,
      heatmap_rules (TableViewer_init p None d) = None /\
      heatmap_rules (TableViewer_init p (Some ∅) d) = None) /\
  (forall p rules d,
      rules <> ∅ ->
      heatmap_rules (TableViewer_init p (Some rules) d) = Some rules) /\
  (let matrix := PList [PList [PInt 10; PInt 10]; PList [PInt 10; PInt 40]] in
   render_data
     (TableViewer_init (Some 3%nat)
        (Some {[ "A" := Float.of_ratio 1 10 ]}) None)
     (PDict [("B", matrix)]) =
     Ok [add_label (Lit "B:") true;
         QTable (mkTable 2 2 [[mkItem (Lit "10") None; mkItem (Lit "10") None];
                              [mkItem (Lit "10") None; mkItem (Lit "40") None]])] /\
   render_data
     (TableViewer_init (Some 3%nat) None (Some (Float.of_ratio 2 10)))
     (PDict [("B", matrix)]) =
     (t ← add_table 3 [[PInt 10; PInt 10]; [PInt 10; PInt 40]]
            (Some (Float.of_ratio 2 10));
      Ok [add_label (Lit "B:") true; QTable t]) /\
   exists t,
     add_table 3 [[PInt 10; PInt 10]; [PInt 10; PInt 40]]
       (Some (Float.of_ratio 2 10)) = Ok t /\
     Forall (Forall (fun it => item_background it <> None)) (table_items t)).
Proof.
  split; [|split; [|split]].
  - intros tv data key arr Henc.
    induction Henc as [before after Hgrid
                      |k v before after Hgrid Henc IH
                      |item before after Henc IH].
    + apply is_2d_array_grid in Hgrid.
      destruct (render_entry_matrix tv key arr Hgrid)
        as (rows & avg & Hrows & Hrect & Havg & Hentry).
      pose proof (add_table_rectangular (precision tv) rows
                    (max_dev_for tv key) avg Hrect Havg) as Htable.
      destruct (render_data_dict_middle tv key (PList arr) before after _
                  Hentry) as (wb & wa & Hdata).
      eexists rows, (max_dev_for tv key), _, wb, wa.
      split; [exact Hrows|]. unfold max_dev_for at 1 2 3.
      split; [intros rules md -> Hmd; exact Hmd|].
      split; [now intros ->|].
      split; [intros rules -> Hmd; exact Hmd|].
      split; [exact Htable|]. split; [exact Hdata|].
      intros Hnone. cbn [table_items]. rewrite Hnone.
      apply List.Forall_forall. intros r' Hr'.
      apply List.in_map_iff in Hr' as (r & <- & _).
      apply List.Forall_forall. intros it Hit.
      apply List.in_map_iff in Hit as (cell & <- & _). reflexivity.
    + destruct IH as (rows & th & t & wb & wa & Hrows & Ha & Hb & Hc & Ht
                      & Hdata & Hnone).
      assert (Hentry : render_entry tv k v = render_data tv v).
      { assert (Hv : is_2d_array v = false).
        { destruct (is_2d_array v) eqn:E; [|reflexivity].
          exfalso. apply Hgrid. now apply is_2d_array_grid. }
        unfold render_entry.
        destruct v; try reflexivity; try (now inversion Henc).
        now rewrite Hv. }
      rewrite Hdata in Hentry.
      destruct (render_data_dict_middle tv k v before after _ Hentry)
        as (wb' & wa' & Hwhole).
      exists rows, th, t, (wb' ++ wb), (wa ++ wa').
      repeat split; try assumption.
      rewrite Hwhole. f_equal. now rewrite <- !app_assoc.
    + destruct IH as (rows & th & t & wb & wa & Hrows & Ha & Hb & Hc & Ht
                      & Hdata & Hnone).
      destruct (render_data_list_middle tv item before after _ Hdata)
        as (wb' & wa' & Hwhole).
      exists rows, th, t, (wb' ++ wb), (wa ++ wa').
      repeat split; try assumption.
      rewrite Hwhole. f_equal. now rewrite <- !app_assoc.
  - intros p d. split; reflexivity.
  - intros p rules d Hne. cbn [TableViewer_init heatmap_rules].
    destruct (decide (rules = ∅)); [contradiction|reflexivity].
  - cbv zeta. split; [vm_compute; reflexivity|].
    split; [reflexivity|].
    eexists. split; [vm_compute; reflexivity|].
    repeat constructor; discriminate.
Qed.

(** C8 (amended).  The classifier accepts a value exactly when it is a
    non-empty list of lists, each as long as the first; the cells are not
    inspected.  A value under a key that is not of this shape gets no
    table: the traversal descends into it when it is a list or a dict and
    skips it otherwise; and every table the traversal adds holds a
    grid. *)
Theorem C8_classifier_accepts_grids :
  (forall v : pyval, is_2d_array v = true <-> grid_shape v) /\
  (forall (tv : TableViewer) (key : string) (v : pyval),
      is_2d_array v = false ->
      render_entry tv key v =
        if is_list v || is_dict v then render_data tv v else Ok []) /\
  (forall (tv : TableViewer) (data : pyval),
      exists ws, render_data tv data = Ok ws /\ Forall holds_grid ws).
Proof.
  split; [exact is_2d_array_grid|]. split; [|exact render_data_total].
  intros tv key v Hv. unfold render_entry.
  destruct v; try reflexivity. now rewrite Hv.
Qed.

(** ** Equality and the render skip *)

Lemma float_eqb_refl (f : float) :
  Float.is_nan f = false -> Float.eqb f f = true.
Proof.
  destruct f as [s|s| |s m e]; try discriminate; intros _;
    unfold Float.eqb, SFeqb; cbn [SFcompare];
    try (destruct s; reflexivity).
  rewrite Z.compare_refl, Pos.compare_cont_refl. now destruct s.
Qed.

Lemma assoc_NoDup {A : Type} (items : list (string * A)) (k : string) (v : A) :
  NoDup (map fst items) -> In (k, v) items -> assoc k items = Some v.
Proof.
  induction items as [|[k' v'] items IH]; intros Hnd Hin; [contradiction|].
  cbn [map fst] in Hnd. apply NoDup_cons in Hnd as [Hk' Hnd].
  cbn [assoc]. destruct Hin as [[= -> ->]|Hin].
  - now rewrite String.eqb_refl.
  - destruct (String.eqb_spec k k') as [->|_]; [|auto].
    exfalso. apply Hk'. apply list_elem_of_In.
    apply (List.in_map fst) in Hin. exact Hin.
Qed.

Lemma same_or_eq_dict (xs ys : list (string * pyval)) :
  same_or_eq (PDict xs) (PDict ys) =
  Nat.eqb (length xs) (length ys) &&
  forallb (fun kv => match assoc (fst kv) ys with
                     | Some v' => same_or_eq (snd kv) v'
                     | None => false
                     end) xs.
Proof.
  cbn [same_or_eq]. f_equal.
  induction xs as [|[k v] xs IH]; [reflexivity|].
  cbn [forallb fst snd]. now rewrite <- IH.
Qed.

(** A decoded value is the same as, or equal to, itself: also a NaN, which
    is the same object. *)
Lemma same_or_eq_refl (v : pyval) : decoded v -> same_or_eq v v = true.
Proof.
  induction v as [| | |f| |items IH|items IH] using pyval_nested_ind;
    cbn [decoded]; intros Hd.
  - reflexivity.
  - apply Bool.eqb_reflx.
  - apply Z.eqb_refl.
  - cbn [same_or_eq]. destruct (Float.is_nan f) eqn:Hf; [reflexivity|].
    now apply float_eqb_refl.
  - apply String.eqb_refl.
  - induction IH as [|x rest Hx _ IHrest]; [reflexivity|].
    destruct Hd as [Hdx Hdrest].
    change (same_or_eq (PList (x :: rest)) (PList (x :: rest)))
      with (same_or_eq x x && same_or_eq (PList rest) (PList rest)).
    now rewrite Hx, IHrest.
  - destruct Hd as [Hnd Hall]. rewrite same_or_eq_dict, Nat.eqb_refl.
    cbn [andb]. apply List.forallb_forall. intros [k v] Hin. cbn [fst snd].
    rewrite (assoc_NoDup items k v Hnd Hin).
    clear Hnd. induction IH as [|kv rest Hkv _ IHrest]; [contradiction|].
    destruct Hall as [Hdkv Hdrest].
    destruct Hin as [->|Hin]; [now apply Hkv|now apply IHrest].
Qed.

(** A decoded record equals itself, a NaN inside it included; only a NaN
    on its own does not. *)
Lemma py_eq_refl (v : pyval) :
  decoded v -> v <> PFloat S754_nan -> py_eq v v = true.
Proof.
  intros Hd Hv. destruct v as [| | |f| | |];
    try (now apply (same_or_eq_refl _ Hd)).
  cbn [py_eq]. apply float_eqb_refl. destruct f; try reflexivity.
  now contradiction Hv.
Qed.

Lemma display_tables_twice (tv : TableViewer) (r : pyval) :
  decoded r ->
  exists tv1 work,
    display_tables tv r = Ok (tv1, work) /\
    display_tables tv1 r = Ok (tv1, []).
Proof.
  intros Hd. unfold display_tables at 1.
  destruct (py_eq r (last_rendered tv)) eqn:Hlast.
  - exists tv, []. split; [reflexivity|].
    unfold display_tables. now rewrite Hlast.
  - destruct (render_data_total tv r) as (ws & Hws & _). rewrite Hws.
    eexists _, _. split; [reflexivity|].
    unfold display_tables. cbn [last_rendered content_layout].
    destruct (py_eq r r) eqn:Hrr; [reflexivity|].
    assert (Hnan : r = PFloat S754_nan).
    { destruct r as [| | |f| | |];
        try (rewrite (py_eq_refl _ Hd) in Hrr; discriminate).
      destruct f; try (rewrite (py_eq_refl _ Hd) in Hrr; discriminate).
      reflexivity. }
    subst r. injection Hws as <-. reflexivity.
Qed.

(** C4 (amended).  A second call of [display_tables] with the same record
    does no work and leaves the table viewer as it is, a record that holds
    a NaN included.  [update_view] skips the table view in the same way,
    but takes down and rebuilds the companion view of the other fields on
    every call, with the same content. *)
Theorem C4_second_display_skips_tables :
  (forall (tv : TableViewer) (r : pyval),
      decoded r ->
      exists tv1 work,
        display_tables tv r = Ok (tv1, work) /\
        display_tables tv1 r = Ok (tv1, [])) /\
  (forall (app : App) (r : pyval),
      decoded r ->
      exists app1 work,
        update_view app r = Ok (app1, work) /\
        non_table_layout app1 = recurse r /\
        update_view app1 r =
          Ok (app1, clear_layout (recurse r) ++ map Added (recurse r))) /\
  (forall r : pyval,
      decoded r -> r <> PFloat S754_nan -> py_eq r r = true).
Proof.
  split; [exact display_tables_twice|]. split; [|exact py_eq_refl].
  intros app r Hd.
  destruct (display_tables_twice (table_viewer app) r Hd)
    as (tv1 & work & H1 & H2).
  unfold update_view at 1. rewrite H1. cbn [mbind result_bind].
  eexists _, _. split; [reflexivity|]. split; [reflexivity|].
  unfold update_view. cbn [table_viewer non_table_layout].
  rewrite H2. reflexivity.
Qed.

End ViewerProperties.

(** ** The reader loop *)

Section ReaderProperties.

Context `{Interpreter}.

Lemma iteration_emitted (w : SerialWorker) (line : string) :
  emitted (iteration w line) = emitted w ++ delivered line.
Proof.
  unfold iteration, delivered.
  destruct line as [|c line]; [now rewrite app_nil_r|].
  cbn [buffer emitted printed].
  destruct (json_loads (String c line)) as [v|e].
  - destruct v; cbn [emit emitted]; now rewrite ?app_nil_r.
  - destruct e; cbn [emitted]; now rewrite app_nil_r.
Qed.

Lemma start_emitted (lines : list string) :
  forall w, emitted (start w lines) = emitted w ++ flat_map delivered lines.
Proof.
  unfold start. induction lines as [|line lines IH]; intros w; cbn [fold_left flat_map].
  - now rewrite app_nil_r.
  - now rewrite IH, iteration_emitted, <- app_assoc.
Qed.

(** C3 (amended).  A line that decodes to a JSON object delivers exactly
    one record, the decoded object; a line that decodes to any other JSON
    value delivers none, the signal carrying dicts only, and the refusal is
    printed; a line that the decoder rejects as malformed delivers none and
    prints nothing, and an empty line is skipped before it is decoded; a
    line on which the decoder raises any other error delivers none, and
    the error is printed.  What the lines deliver is the concatenation of
    what each delivers on its own: it depends neither on the buffer nor on
    the lines before. *)
Theorem C3_one_record_per_object_line :
  (forall (w : SerialWorker) (line : string) (d : list (string * pyval)),
      line <> EmptyString ->
      json_loads line = Ok (PDict d) ->
      emitted (iteration w line) = emitted w ++ [PDict d] /\
      printed (iteration w line) = printed w) /\
  (forall (w : SerialWorker) (line : string) (v : pyval),
      line <> EmptyString ->
      json_loads line = Ok v -> is_dict v = false ->
      emitted (iteration w line) = emitted w /\
      printed (iteration w line) = printed w ++ [TypeError]) /\
  (forall (w : SerialWorker) (line : string),
      json_loads line = Raise JSONDecodeError ->
      emitted (iteration w line) = emitted w /\
      printed (iteration w line) = printed w) /\
  (forall (w : SerialWorker) (line : string) (e : exn),
      line <> EmptyString ->
      json_loads line = Raise e -> e <> JSONDecodeError ->
      emitted (iteration w line) = emitted w /\
      printed (iteration w line) = printed w ++ [e]) /\
  (forall w : SerialWorker, iteration w EmptyString = w) /\
  (forall (w : SerialWorker) (lines : list string),
      emitted (start w lines) = emitted w ++ flat_map delivered lines).
Proof.
  split; [|split; [|split; [|split; [|split]]]].
  - intros w line d Hline Hd. unfold iteration.
    destruct line; [congruence|]. cbn [buffer]. rewrite Hd. auto.
  - intros w line v Hline Hv Hnd. unfold iteration.
    destruct line; [congruence|]. cbn [buffer]. rewrite Hv.
    destruct v; try discriminate; auto.
  - intros w line Hfail. unfold iteration.
    destruct line; [auto|]. cbn [buffer]. rewrite Hfail. auto.
  - intros w line e Hline He Hne. unfold iteration.
    destruct line; [congruence|]. cbn [buffer]. rewrite He.
    destruct e; try (now contradiction Hne); auto.
  - reflexivity.
  - intros w lines. apply start_emitted.
Qed.

End ReaderProperties.

(** ** Closed instances, evaluated with the reference interpreter *)

Lemma C1_out_of_band_parameter_witness :
  let max_dev := Float.of_ratio 1 10 in
  let avg := Float.of_ratio 175 10 in
  let diff := S754_finite false 5790342378047781 (-52) in
  (py_float (PInt 40) = Ok (Float.of_Z 40) /\
   Float.eqb avg Float.zero = false /\
   relative_deviation (Float.of_Z 40) avg = Ok diff /\
   Float.ltb max_dev diff = true) /\
  exists q,
    Py.div (Float.sub diff max_dev)
           (Py.max (Float.mul max_dev (Float.of_Z 5)) min_denom) = Ok q /\
    heat_param max_dev avg (PInt 40) =
      Ok (OutOfBand, clamp q Float.zero (Float.of_Z 1)) /\
    cell_background (Some max_dev) avg (PInt 40) =
      try_except
        (color ← _red_color (clamp q Float.zero (Float.of_Z 1));
         Ok (Some color)) None /\
    (Float.leb min_denom (Float.mul max_dev (Float.of_Z 5)) = true ->
     out_of_band_t max_dev diff = Ok (clamp q Float.zero (Float.of_Z 1))).
Proof.
  cbv zeta. split.
  - repeat split; vm_compute; reflexivity.
  - apply (proj1 C1_out_of_band_parameter _ _ _ (Float.of_Z 40));
      vm_compute; reflexivity.
Defined.

(** The claim of C1 fails below the floor of the denominator: with the
    threshold 1e-13 and the row [1 - 2^-42, 1 + 2^-42] the mean is 1 and
    the second cell deviates by 2^-42 > 1e-13; the code divides by 1e-12
    and gets t = 0.1273..., the stated formula divides by 5e-13 and gives
    t = 0.2547... *)
Lemma C1_counterexample :
  let max_dev := Float.of_ratio 1 (10 ^ 13) in
  let low := Float.of_ratio (2 ^ 42 - 1) (2 ^ 42) in
  let high := Float.of_ratio (2 ^ 42 + 1) (2 ^ 42) in
  let avg := Float.of_Z 1 in
  let diff := S754_finite false 4503599627370496 (-94) in
  let t_code := S754_finite false 4589120298103603 (-55) in
  let t_stated := S754_finite false 4589120298103603 (-54) in
  heatmap_threshold max_dev = max_dev /\
  average (collect_nums [[PFloat low; PFloat high]]) = Ok avg /\
  Float.eqb avg Float.zero = false /\
  py_float (PFloat high) = Ok high /\
  relative_deviation high avg = Ok diff /\
  Float.ltb max_dev diff = true /\
  heat_param max_dev avg (PFloat high) = Ok (OutOfBand, t_code) /\
  out_of_band_t max_dev diff = Ok t_stated /\
  t_code <> t_stated.
Proof.
  cbv zeta. repeat split; try (vm_compute; reflexivity). discriminate.
Qed.

Lemma C2_rule_precedence_witness :
  let tv := TableViewer_init (Some 3%nat)
              (Some {[ "A" := Float.of_ratio 1 10 ]}) None in
  let arr := [PList [PInt 10; PInt 10]; PList [PInt 10; PInt 40]] in
  let data :=
    PDict [("x", PInt 1);
           ("outer", PList [PDict [("A", PList arr); ("B", PList arr)]])] in
  encountered "B" arr data /\
  heatmap_rules tv = Some {[ "A" := Float.of_ratio 1 10 ]} /\
  exists rows t before after,
    as_rows arr = Ok rows /\
    add_table (precision tv) rows None = Ok t /\
    render_data tv data =
      Ok (before ++ [add_label (Lit ("B" +:+ ":")) true; QTable t] ++ after) /\
    Forall (Forall (fun it => item_background it = None)) (table_items t).
Proof.
  cbv zeta.
  assert (Henc : encountered "B"
                   [PList [PInt 10; PInt 10]; PList [PInt 10; PInt 40]]
                   (PDict
                      [("x", PInt 1);
                       ("outer",
                        PList
                          [PDict
                             [("A", PList [PList [PInt 10; PInt 10];
                                           PList [PInt 10; PInt 40]]);
                              ("B", PList [PList [PInt 10; PInt 10];
                                           PList [PInt 10; PInt 40]])]])])).
  { apply (inside_value "B" _ "outer" _ [("x", PInt 1)] []).
    - intros (first & rest & E & _). discriminate E.
    - apply (inside_item "B" _ _ [] []).
      apply (under_key "B" _
               [("A", PList [PList [PInt 10; PInt 10];
                             PList [PInt 10; PInt 40]])] []).
      apply is_2d_array_grid. reflexivity. }
  split; [exact Henc|]. split; [reflexivity|].
  destruct (proj1 C2_rule_precedence
              (TableViewer_init (Some 3%nat)
                 (Some {[ "A" := Float.of_ratio 1 10 ]}) None)
              _ _ _ Henc)
    as (rows & th & t & before & after & Hrows & _ & _ & Hnone & Ht & Hdata
        & Hplain).
  pose proof (Hnone {[ "A" := Float.of_ratio 1 10 ]} eq_refl eq_refl) as Hth.
  subst th. exists rows, t, before, after.
  repeat split; try assumption. now apply Hplain.
Defined.

Lemma C3_one_record_per_object_line_witness :
  let w := mkWorker EmptyString [] [] in
  let record := "{" +:+ String Ref.quote "a" +:+ String Ref.quote ": 1}"
                +:+ newline in
  let truncated := "{" +:+ String Ref.quote "a" +:+ String Ref.quote ": 1"
                   +:+ newline in
  let long := String "1" (Str.repeat "1" 4300 +:+ newline) in
  (record <> EmptyString /\
   json_loads record = Ok (PDict [("a", PInt 1)]) /\
   json_loads truncated = Raise JSONDecodeError /\
   json_loads newline = Raise JSONDecodeError /\
   json_loads long = Raise ValueError) /\
  (emitted (iteration w record) = emitted w ++ [PDict [("a", PInt 1)]] /\
   printed (iteration w record) = printed w) /\
  (emitted (iteration w truncated) = emitted w /\
   printed (iteration w truncated) = printed w) /\
  (emitted (iteration w long) = emitted w /\
   printed (iteration w long) = printed w ++ [ValueError]) /\
  emitted (start w [truncated; newline; record]) = [PDict [("a", PInt 1)]].
Proof.
  cbv zeta.
  pose proof C3_one_record_per_object_line
    as (Hobject & _ & Hfail & Herror & _ & Hall).
  assert (Hlong : json_loads (String "1" (Str.repeat "1" 4300 +:+ newline))
                  = Raise ValueError) by (vm_compute; reflexivity).
  split.
  { split; [discriminate|]. split; [vm_compute; reflexivity|].
    split; [vm_compute; reflexivity|]. split; [vm_compute; reflexivity|].
    exact Hlong. }
  split; [apply Hobject; [discriminate|vm_compute; reflexivity]|].
  split; [apply Hfail; vm_compute; reflexivity|].
  split; [apply Herror; [discriminate|exact Hlong|discriminate]|].
  rewrite Hall. vm_compute. reflexivity.
Defined.

(** The claim of C3 fails for a line that is JSON but not an object: the
    line [[1]] decodes, and no record is delivered. *)
Lemma C3_counterexample :
  let w := mkWorker EmptyString [] [] in
  let line := "[1]" +:+ newline in
  json_loads line = Ok (PList [PInt 1]) /\
  emitted (iteration w line) = [] /\
  printed (iteration w line) = [TypeError].
Proof. cbv zeta. repeat split; vm_compute; reflexivity. Qed.

Lemma C4_second_display_skips_tables_witness :
  let tv := TableViewer_init None None None in
  let r := PDict [("a", PInt 1);
                  ("m", PList [PList [PFloat S754_nan; PInt 2]])] in
  json_loads ("{" +:+ String Ref.quote "a" +:+ String Ref.quote ": 1, "
              +:+ String Ref.quote "m" +:+ String Ref.quote ": [[NaN, 2]]}")
    = Ok r /\
  decoded r /\ py_eq r r = true /\
  exists tv1 work,
    display_tables tv r = Ok (tv1, work) /\
    display_tables tv1 r = Ok (tv1, []).
Proof.
  cbv zeta.
  assert (Hdecoded :
            decoded (PDict [("a", PInt 1);
                            ("m", PList [PList [PFloat S754_nan; PInt 2]])])).
  { cbn. repeat split; auto. apply (bool_decide_unpack _). reflexivity. }
  split; [vm_compute; reflexivity|].
  split; [exact Hdecoded|]. split; [reflexivity|].
  apply (proj1 C4_second_display_skips_tables). exact Hdecoded.
Defined.

(** The claim of C4 fails for [update_view]: the second call with the same
    record takes down the two labels of the companion view and adds them
    again. *)
Lemma C4_counterexample :
  let app := mkApp (TableViewer_init None None None) [] in
  let r := PDict [("a", PInt 1)] in
  let labels := [QLabel (Lit "a:") true 0; QLabel (StrOf (PInt 1)) false 10] in
  let app1 := mkApp (mkTableViewer 3 None (Float.of_ratio 5 100) [] r)
                labels in
  py_eq r r = true /\
  update_view app r = Ok (app1, map Added labels) /\
  update_view app1 r = Ok (app1, map Removed labels ++ map Added labels) /\
  map Removed labels ++ map Added labels <> [].
Proof. cbv zeta. repeat split; try (vm_compute; reflexivity). discriminate. Qed.

Lemma C5_zero_mean_no_color_witness :
  let table_data := [[PInt 1; PInt (-1)]; [PStr "n/a"; PFloat Float.zero]] in
  (rectangular table_data /\
   average (numeric_cells table_data) = Ok Float.zero /\
   Float.eqb Float.zero Float.zero = true) /\
  exists t,
    add_table 3 table_data (Some (Float.of_ratio 1 10)) = Ok t /\
    Forall (Forall (fun it => item_background it = None)) (table_items t).
Proof.
  cbv zeta.
  assert (Hrect : rectangular
            [[PInt 1; PInt (-1)]; [PStr "n/a"; PFloat Float.zero]])
    by (repeat constructor).
  split; [repeat split; try exact Hrect; vm_compute; reflexivity|].
  apply (C5_zero_mean_no_color 3 _ (Some (Float.of_ratio 1 10)) Float.zero);
    [exact Hrect|vm_compute; reflexivity|reflexivity].
Defined.

Lemma C7_mean_over_numeric_cells_witness :
  let table_data := [[PInt 10; PStr "n/a"]; [PNone; PInt 40]] in
  rectangular table_data /\
  numeric_cells table_data = [Float.of_Z 10; Float.of_Z 40] /\
  average (collect_nums table_data) = Ok (Float.of_Z 25) /\
  add_table 3 table_data (Some (Float.of_ratio 1 10)) =
    Ok (mkTable 2 2
          [[mkItem (Lit "10") (Some (mkQColor 255 140 140));
            mkItem (StrOf (PStr "n/a")) None];
           [mkItem (StrOf PNone) None;
            mkItem (Lit "40") (Some (mkQColor 255 140 140))]]).
Proof.
  cbv zeta.
  assert (Hrect : rectangular [[PInt 10; PStr "n/a"]; [PNone; PInt 40]])
    by (repeat constructor).
  destruct (C7_mean_over_numeric_cells 3 _ (Some (Float.of_ratio 1 10)) Hrect)
    as (Hnums & Hmean & _ & avg & Havg & Htable & _).
  split; [exact Hrect|]. split; [vm_compute; reflexivity|].
  split; [vm_compute; reflexivity|].
  rewrite Htable.
  assert (E : avg = Float.of_Z 25).
  { assert (Ok avg = Ok (Float.of_Z 25)) as [= ->]; [|reflexivity].
    rewrite <- Havg. vm_compute. reflexivity. }
  rewrite E. vm_compute. reflexivity.
Defined.

Lemma C8_classifier_accepts_grids_witness :
  let v := PList [PList [PInt 1; PInt 2]; PList [PInt 3; PInt 4]] in
  is_2d_array v = true /\ grid_shape v /\
  render_entry (TableViewer_init None None None) "k" (PList [PInt 1; PList []])
  = render_data (TableViewer_init None None None) (PList [PInt 1; PList []]).
Proof.
  cbv zeta. split; [reflexivity|]. split.
  - apply (proj1 C8_classifier_accepts_grids). reflexivity.
  - apply (proj1 (proj2 C8_classifier_accepts_grids)). reflexivity.
Defined.

(** The claim of C8 fails for a grid whose cells are not scalars:
    [[[1]]] is accepted, and under a key it is rendered as a table with one
    cell. *)
Lemma C8_counterexample :
  let v := PList [PList [PList [PInt 1]]] in
  json_loads "[[[1]]]" = Ok v /\
  is_2d_array v = true /\
  ~ matrix_of_scalars v /\
  render_data (TableViewer_init None None None) (PDict [("m", v)]) =
    Ok [QLabel (Lit "m:") true 0;
        QTable (mkTable 1 1 [[mkItem (StrOf (PList [PInt 1])) None]])].
Proof.
  cbv zeta. repeat split; try (vm_compute; reflexivity).
  intros [_ Hscalars]. specialize (Hscalars _ eq_refl).
  apply List.Forall_inv in Hscalars. specialize (Hscalars _ eq_refl).
  discriminate.
Qed.



Lemma C10_boolean_cells_are_numeric_witness :
  let table_data := [[PInt 3; PBool true]; [PBool false; PNone]] in
  py_float (PBool true) = Ok (Float.of_Z 1) /\
  rectangular table_data /\
  collect_nums table_data = [Float.of_Z 3; Float.of_Z 1; Float.of_Z 0] /\
  (exists avg t,
     average [Float.of_Z 3; Float.of_Z 1; Float.of_Z 0] = Ok avg /\
     add_table 3 table_data (Some (Float.of_ratio 1 10)) = Ok t /\
     table_items t =
       [[make_item 3 (Some (Float.of_ratio 1 10)) avg (PInt 3);
         mkItem (Lit "1")
           (cell_background (Some (Float.of_ratio 1 10)) avg
              (PFloat (Float.of_Z 1)))];
        [make_item 3 (Some (Float.of_ratio 1 10)) avg (PBool false);
         make_item 3 (Some (Float.of_ratio 1 10)) avg PNone]]) /\
  _format_for_display 3 (PBool true) = Lit "1" /\
  _format_for_display 0 (PBool false) = Lit "0" /\
  _format_for_display 3 (PBool true) <> StrOf (PBool true).
Proof.
  cbv zeta.
  assert (Hrect : rectangular [[PInt 3; PBool true]; [PBool false; PNone]])
    by (repeat constructor).
  pose proof (C10_boolean_cells_are_numeric true)
    as (Hf & _ & _ & Htable & Ht & _).
  pose proof (C10_boolean_cells_are_numeric false) as (_ & _ & _ & _ & Hz & _).
  split; [exact Hf|]. split; [exact Hrect|].
  split; [vm_compute; reflexivity|].
  split.
  { destruct (Htable 3%nat (Some (Float.of_ratio 1 10)) []
                [[PBool false; PNone]] [PInt 3] [] Hrect)
      as (_ & avg & t & Havg & Ht' & Hitems).
    exists avg, t. split; [exact Havg|]. split; [exact Ht'|exact Hitems]. }
  split; [exact (proj1 (Ht 3%nat eq_refl))|].
  split; [exact (proj1 (Hz 0%nat eq_refl))|].
  exact (proj2 (Ht 3%nat eq_refl)).
Defined.

(** The claim of C10 fails for a precision the format refuses: with the
    precision 2^31, which [load_config] accepts, the boolean cell is
    shown as the text of the boolean. *)
Lemma C10_counterexample :
  let p := Z.to_nat (2 ^ 31) in
  Cfg.precision
    (fst (load_config
            (Cfg.Document (PDict [("precision", PInt (2 ^ 31))])))) = 2 ^ 31 /\
  add_table p [[PBool true; PInt 3]] None =
    Ok (mkTable 1 2 [[mkItem (StrOf (PBool true)) None;
                      mkItem (StrOf (PInt 3)) None]]) /\
  py_str (PBool true) = "True".
Proof.
  cbv zeta.
  assert (Hp : 2 ^ 31 <= Z.of_nat (Z.to_nat (2 ^ 31)))
    by (rewrite Z2Nat.id; lia).
  split; [vm_compute; reflexivity|]. split; [|vm_compute; reflexivity].
  rewrite (add_table_rectangular (Z.to_nat (2 ^ 31))
             [[PBool true; PInt 3]] None (Float.of_Z 2)).
  - cbn [map length]. unfold make_item.
    rewrite !(format_precision_too_big _ _ Hp). reflexivity.
  - repeat constructor.
  - vm_compute. reflexivity.
Qed.

(* ================================================================== *)
(** * Further properties of the code *)

(** ** The reader loop *)

Section ReaderInvariants.

Context `{Interpreter}.

Lemma delivered_objects (line : string) :
  Forall (fun v => is_dict v = true) (delivered line) /\
  (length (delivered line) <= 1)%nat.
Proof.
  unfold delivered. destruct line as [|c line]; [split; [constructor|cbn; lia]|].
  destruct (json_loads (String c line)) as [[]|];
    split; try constructor; cbn; auto; lia.
Qed.

(** X1.  The loop delivers objects only, at most one for each line read,
    after those delivered before: a line that decodes to an object
    delivers that object, and an empty line, a line that does not decode
    and a line that decodes to anything else deliver nothing. *)
Theorem reader_delivers_only_objects (w : SerialWorker)
    (lines : list string) :
  exists new,
    emitted (start w lines) = emitted w ++ new /\
    Forall (fun v => is_dict v = true) new /\
    (length new <= length lines)%nat /\
    new = flat_map
            (fun line =>
               match line with
               | EmptyString => []
               | _ =>
                   match json_loads line with
                   | Ok (PDict d) => [PDict d]
                   | _ => []
                   end
               end) lines.
Proof.
  exists (flat_map delivered lines). split; [apply start_emitted|].
  assert (Hnew : Forall (fun v => is_dict v = true) (flat_map delivered lines)
                 /\ (length (flat_map delivered lines) <= length lines)%nat).
  { induction lines as [|line lines [IH1 IH2]];
      [split; [constructor|cbn; lia]|].
    cbn [flat_map]. destruct (delivered_objects line) as [H1 H2].
    split; [now apply Forall_app|]. rewrite length_app. cbn [length]. lia. }
  destruct Hnew as [H1 H2]. repeat split; assumption.
Qed.

Lemma iteration_buffer (w : SerialWorker) (line : string) :
  buffer (iteration w line) =
  match line with
  | EmptyString => buffer w
  | _ => match delivered line with [] => line | _ => EmptyString end
  end.
Proof.
  unfold iteration, delivered. destruct line as [|c line]; [reflexivity|].
  cbn [buffer emitted printed].
  destruct (json_loads (String c line)) as [v|e].
  - destruct v; reflexivity.
  - destruct e; reflexivity.
Qed.

(** X2.  The buffer never holds more than one line: after any run it is the
    buffer the run started with, empty, or one of the lines read, as it was
    read. *)
Theorem reader_buffer_holds_one_line (w : SerialWorker)
    (lines : list string) :
  buffer (start w lines) = buffer w \/
  buffer (start w lines) = EmptyString \/
  In (buffer (start w lines)) lines.
Proof.
  unfold start. revert w.
  induction lines as [|line lines IH]; intros w; cbn [fold_left]; [auto|].
  destruct (IH (iteration w line)) as [E|[E|E]].
  - rewrite E, iteration_buffer.
    destruct line as [|c line]; [auto|].
    destruct (delivered (String c line)); [right; right; now left|auto].
  - auto.
  - right. right. now right.
Qed.

End ReaderInvariants.

(** ** Edges of the heat map *)

Section HeatMapEdges.

Context `{Interpreter}.

Lemma within_zero_band (diff md : float) :
  Float.is_nan diff = true \/ Float.signbit diff = false ->
  Float.is_zero md = true ->
  Float.leb diff md = Float.eqb diff Float.zero.
Proof.
  intros Hsign Hmd.
  destruct md as [s| | |]; try discriminate.
  destruct diff as [sd|sd| |sd m e]; cbn in *; try reflexivity;
    destruct Hsign as [Hs|Hs]; try discriminate; subst; reflexivity.
Qed.

(** X3.  Every cell that converts to a number gets a hue and a parameter, the
    in-band one when its deviation is within the threshold and the
    out-of-band one otherwise, except in one case: with a threshold of
    zero, a cell whose deviation is zero raises [ZeroDivisionError]. *)
Theorem heat_param_raises_only_at_zero_threshold (max_dev avg : float)
    (raw_val : pyval) (num diff : float) :
  py_float raw_val = Ok num ->
  relative_deviation num avg = Ok diff ->
  (Float.is_zero max_dev = true /\ Float.eqb diff Float.zero = true ->
   heat_param max_dev avg raw_val = Raise ZeroDivisionError) /\
  (Float.is_zero max_dev = false \/ Float.eqb diff Float.zero = false ->
   exists t,
     (Float.leb diff max_dev = true /\
      heat_param max_dev avg raw_val = Ok (InBand, t)) \/
     (Float.leb diff max_dev = false /\
      heat_param max_dev avg raw_val = Ok (OutOfBand, t))).
Proof.
  intros Hnum Hdiff.
  pose proof (div_abs_sign _ _ _ Hdiff) as Hsign.
  unfold heat_param. rewrite Hnum. cbn [mbind result_bind].
  rewrite Hdiff. cbn [mbind result_bind]. split.
  - intros [Hmd Hz]. rewrite (within_zero_band _ _ Hsign Hmd), Hz.
    unfold Py.div. now rewrite Hmd.
  - intros Hcase. destruct (Float.leb diff max_dev) eqn:Hle.
    + unfold Py.div at 1.
      destruct (Float.is_zero max_dev) eqn:Hmd.
      * rewrite (within_zero_band _ _ Hsign Hmd) in Hle.
        destruct Hcase; congruence.
      * eexists. left. split; reflexivity.
    + cbv zeta. unfold Py.div. rewrite red_denominator_nonzero.
      cbn [mbind result_bind]. eexists. right. split; reflexivity.
Qed.

Lemma clamp_nan :
  Py.max Float.zero (Py.min (Float.of_Z 1) S754_nan) = Float.of_Z 1.
Proof. reflexivity. Qed.

(** X4.  A NaN among the cell, the mean and the threshold gives the cell the
    out-of-band hue at full strength. *)
Theorem nan_is_coloured_full_strength (max_dev avg : float)
    (raw_val : pyval) (num : float) :
  py_float raw_val = Ok num ->
  Float.eqb avg Float.zero = false ->
  Float.is_nan num || Float.is_nan avg || Float.is_nan max_dev = true ->
  heat_param max_dev avg raw_val = Ok (OutOfBand, Float.of_Z 1) /\
  cell_background (Some max_dev) avg raw_val = Some (mkQColor 255 140 140).
Proof.
  intros Hnum Havg Hnan.
  assert (Hheat : heat_param max_dev avg raw_val = Ok (OutOfBand, Float.of_Z 1)).
  { unfold heat_param. rewrite Hnum. cbn [mbind result_bind].
    destruct (relative_deviation_ok num avg Havg) as [diff Hdiff].
    rewrite Hdiff. cbn [mbind result_bind].
    unfold relative_deviation, Py.div in Hdiff.
    rewrite (nonzero_mean_divides avg Havg) in Hdiff.
    assert (Hcase : Float.is_nan diff = true \/ Float.is_nan max_dev = true).
    { destruct (Float.is_nan max_dev); [now right|left].
      rewrite orb_false_r in Hnan. injection Hdiff as <-.
      destruct num as [sn|sn| |sn mn en], avg as [sa|sa| |sa ma ea];
        cbn in *; try discriminate; reflexivity. }
    assert (Hle : Float.leb diff max_dev = false).
    { destruct Hcase as [Hc|Hc];
        destruct diff as [| | |], max_dev as [| | |];
        try discriminate; reflexivity. }
    rewrite Hle.
    assert (Hover : Float.sub diff max_dev = S754_nan).
    { destruct Hcase as [Hc|Hc];
        destruct diff as [| | |], max_dev as [| | |];
        try discriminate; reflexivity. }
    cbv zeta. rewrite Hover. unfold Py.div. rewrite red_denominator_nonzero.
    cbn [mbind result_bind SFdiv]. reflexivity. }
  split; [exact Hheat|].
  unfold cell_background. rewrite Havg, Hheat. reflexivity.
Qed.

(** X5.  The colour helpers saturate: a parameter that is not below 1, a NaN
    included, gives the deep shade, and one that is not above 0 the light
    shade. *)
Theorem colors_saturate (t : float) :
  (Float.ltb t (Float.of_Z 1) = false ->
   _green_color t = Ok (mkQColor 184 240 184) /\
   _red_color t = Ok (mkQColor 255 140 140)) /\
  (Float.ltb t (Float.of_Z 1) = true -> Float.ltb Float.zero t = false ->
   _green_color t = Ok (mkQColor 234 251 234) /\
   _red_color t = Ok (mkQColor 255 234 234)).
Proof.
  split.
  - intros Hhigh.
    assert (E : Py.max Float.zero (Py.min (Float.of_Z 1) t) = Float.of_Z 1)
      by (unfold Py.min; rewrite Hhigh; reflexivity).
    unfold _green_color, _red_color, _lerp. rewrite E. split; reflexivity.
  - intros Hlt Hlow.
    assert (E : Py.max Float.zero (Py.min (Float.of_Z 1) t) = Float.zero)
      by (unfold Py.min, Py.max; rewrite Hlt, Hlow; reflexivity).
    unfold _green_color, _red_color, _lerp. rewrite E. split; reflexivity.
Qed.

End HeatMapEdges.

(** ** Bounds of the table loops *)

Lemma for_each_raise {A B : Type} (f : A -> result B) (e : exn)
    (xs : list A) :
  (forall x, In x xs -> f x = Raise e \/ exists y, f x = Ok y) ->
  (exists x, In x xs /\ f x = Raise e) ->
  for_each f xs = Raise e.
Proof.
  induction xs as [|x xs IH]; intros Hall (x0 & Hin & Hx0); [contradiction|].
  cbn [for_each]. destruct (Hall x (or_introl eq_refl)) as [Hx|[y Hx]];
    rewrite Hx; [reflexivity|]. cbn [mbind result_bind].
  rewrite IH; [reflexivity| |].
  - intros x' Hx'. apply Hall. now right.
  - destruct Hin as [->|Hin]; [congruence|eauto].
Qed.

Lemma for_each_ext {A B : Type} (f g : A -> result B) (xs : list A) :
  (forall x, f x = g x) -> for_each f xs = for_each g xs.
Proof.
  intros Hfg. induction xs as [|x xs IH]; [reflexivity|].
  cbn [for_each]. now rewrite Hfg, IH.
Qed.

Lemma row_loop_ok {B : Type} (g : pyval -> B) (row : list pyval)
    (cols : nat) :
  (cols <= length row)%nat ->
  for_each (fun j => raw_val ← getitem row j; Ok (g raw_val)) (seq 0 cols)
  = Ok (map g (take cols row)).
Proof.
  intros Hlen.
  pose proof (for_each_seq
                (fun j => raw_val ← getitem row j; Ok (g raw_val))
                g (take cols row) 0) as E.
  rewrite length_take in E.
  replace (cols `min` length row)%nat with cols in E by lia.
  apply E. intros i x Hi. cbn [Nat.add]. unfold getitem.
  apply lookup_take_Some in Hi as [Hi _]. now rewrite Hi.
Qed.

Lemma row_loop_raise {B : Type} (g : pyval -> B) (row : list pyval)
    (cols : nat) :
  (length row < cols)%nat ->
  for_each (fun j => raw_val ← getitem row j; Ok (g raw_val)) (seq 0 cols)
  = Raise IndexError.
Proof.
  intros Hlen. apply for_each_raise.
  - intros j _. unfold getitem. destruct (row !! j); [right; eauto|now left].
  - exists (length row). split; [apply in_seq; lia|].
    unfold getitem. now rewrite lookup_ge_None_2.
Qed.

Section TableBounds.

Context `{Interpreter}.

(** X6.  [add_table] reads [len(table_data[0])] cells of every row.  It builds
    a table exactly when there is a first row and no row is shorter than
    it: the table has a row for each row of the data and a column for each
    cell of the first row, a longer row is cut to that width (its cells
    still count in the mean), and item (i, j) is built from cell (i, j).
    With no row, or with a row shorter than the first, it raises
    [IndexError]. *)
Theorem add_table_bounds (p : nat) (table_data : list (list pyval))
    (max_dev : option float) :
  (table_data = [] -> add_table p table_data max_dev = Raise IndexError) /\
  (forall first rest, table_data = first :: rest ->
     (Forall (fun r => (length first <= length r)%nat) table_data ->
      exists avg,
        average (collect_nums table_data) = Ok avg /\
        add_table p table_data max_dev =
          Ok (mkTable (length table_data) (length first)
                (map (fun r => map (make_item p max_dev avg)
                                 (take (length first) r)) table_data))) /\
     (Exists (fun r => (length r < length first)%nat) table_data ->
      add_table p table_data max_dev = Raise IndexError)).
Proof.
  split; [now intros ->|].
  intros first rest Htd.
  destruct (average_ok (collect_nums table_data)) as [avg Havg].
  assert (Hhead : add_table p table_data max_dev =
    (items ← for_each
       (fun i =>
          for_each
            (fun j =>
               row ← getitem table_data i;
               raw_val ← getitem row j;
               Ok (make_item p max_dev avg raw_val))
            (seq 0 (length first)))
       (seq 0 (length table_data));
     Ok (mkTable (length table_data) (length first) items))).
  { unfold add_table. rewrite Htd at 1. cbn [getitem lookup list_lookup].
    cbn [mbind result_bind]. rewrite Havg. reflexivity. }
  assert (Hrow : forall i row, table_data !! i = Some row ->
    for_each
      (fun j =>
         row ← getitem table_data i;
         raw_val ← getitem row j;
         Ok (make_item p max_dev avg raw_val))
      (seq 0 (length first))
    = for_each
        (fun j => raw_val ← getitem row j;
                  Ok (make_item p max_dev avg raw_val))
        (seq 0 (length first))).
  { intros i row Hi. apply for_each_ext. intros j.
    replace (getitem table_data i) with (Ok row)
      by (unfold getitem; now rewrite Hi).
    reflexivity. }
  split.
  - intros Hall. exists avg. split; [assumption|]. rewrite Hhead.
    rewrite (for_each_seq _
               (fun r => map (make_item p max_dev avg) (take (length first) r))
               table_data 0); [reflexivity|].
    intros i row Hi. cbn [Nat.add]. rewrite (Hrow i row Hi).
    apply row_loop_ok.
    rewrite List.Forall_forall in Hall. apply Hall.
    apply list_elem_of_In. eapply list_elem_of_lookup_2, Hi.
  - intros Hshort. rewrite Hhead.
    rewrite (for_each_raise _ IndexError); [reflexivity| |].
    + intros i Hi. apply in_seq in Hi as [_ Hi]. cbn [Nat.add] in Hi.
      destruct (lookup_lt_is_Some_2 table_data i Hi) as [row Hrowi].
      rewrite (Hrow i row Hrowi).
      destruct (le_lt_dec (length first) (length row)) as [Hle|Hlt].
      * right. eexists. now apply row_loop_ok.
      * left. now apply row_loop_raise.
    + apply List.Exists_exists in Hshort as (row & Hin & Hlt).
      apply list_elem_of_In, list_elem_of_lookup_1 in Hin as [i Hi].
      exists i. split.
      * apply in_seq. apply lookup_lt_Some in Hi. lia.
      * rewrite (Hrow i row Hi). now apply row_loop_raise.
Qed.

End TableBounds.

(** ** What the views hold *)

Section ViewInvariants.

Context `{Interpreter}.

(** X7.  The table view is a sequence of tables, each under the bold label of
    its key and each holding a grid; nothing else is ever added to it. *)
Theorem render_data_adds_keyed_tables (tv : TableViewer) (data : pyval) :
  exists pairs,
    render_data tv data = Ok (flat_map keyed_table pairs) /\
    Forall (fun kt => holds_grid (QTable (snd kt))) pairs.
Proof.
  induction data as [| | | | |items IH|items IH] using pyval_nested_ind;
    try (exists []; split; [reflexivity|constructor]).
  - induction IH as [|item rest (ps & Hps & Hg) _ (ps' & Hps' & Hg')].
    + exists []. split; [reflexivity|constructor].
    + exists (ps ++ ps'). rewrite render_data_list_cons, Hps.
      cbn [mbind result_bind]. rewrite Hps', flat_map_app.
      split; [reflexivity|now apply Forall_app].
  - induction IH as [|[key value] rest Hvalue _ (ps' & Hps' & Hg')].
    + exists []. split; [reflexivity|constructor].
    + assert (Hentry : exists ps,
                 render_entry tv key value = Ok (flat_map keyed_table ps) /\
                 Forall (fun kt => holds_grid (QTable (snd kt))) ps).
      { cbn [snd] in Hvalue.
        destruct value as [| | | | |arr|d];
          try (exists []; split; [reflexivity|constructor]);
          try exact Hvalue.
        destruct (is_2d_array (PList arr)) eqn:Harr.
        - destruct (render_entry_matrix tv key arr Harr)
            as (rows & avg & Hrows & Hrect & Havg & ->).
          eexists [(key, _)]. split; [reflexivity|].
          constructor; [|constructor].
          cbn [snd holds_grid rowCount columnCount table_items].
          destruct rows as [|first rows']; [contradiction|].
          split; [cbn; lia|]. split; [now rewrite length_map|].
          unfold rectangular in Hrect.
          apply List.Forall_forall. intros r' Hr'.
          apply List.in_map_iff in Hr' as (r & <- & Hr).
          rewrite length_map.
          rewrite List.Forall_forall in Hrect. now apply Hrect.
        - unfold render_entry. rewrite Harr. exact Hvalue. }
      destruct Hentry as (ps & Hps & Hg).
      exists (ps ++ ps'). rewrite render_data_dict_cons, Hps.
      cbn [mbind result_bind]. rewrite Hps', flat_map_app.
      split; [reflexivity|now apply Forall_app].
Qed.

(** The traversal reads the settings of the viewer only, not what the
    viewer shows or remembers. *)
Lemma render_data_settings (tv tv' : TableViewer) (data : pyval) :
  precision tv = precision tv' ->
  heatmap_rules tv = heatmap_rules tv' ->
  default_max_dev tv = default_max_dev tv' ->
  render_data tv data = render_data tv' data.
Proof.
  intros Hp Hr Hd.
  induction data as [| | | | |items IH|items IH] using pyval_nested_ind;
    try reflexivity.
  - induction IH as [|item rest Hitem _ IHrest]; [reflexivity|].
    now rewrite !render_data_list_cons, Hitem, IHrest.
  - induction IH as [|[key value] rest Hvalue _ IHrest]; [reflexivity|].
    rewrite !render_data_dict_cons, IHrest. cbn [snd] in Hvalue.
    assert (Hentry : render_entry tv key value = render_entry tv' key value).
    { unfold render_entry, max_dev_for.
      destruct value; try reflexivity; try exact Hvalue.
      rewrite Hvalue, Hp, Hr, Hd. reflexivity. }
    now rewrite Hentry.
Qed.

(** X8.  [update_view] keeps both views current.  When the table view shows
    the rendering of the record it remembers, then after a call it still
    does, the record remembered being the new one or one equal to it; and
    the companion view holds the labels of the new record, whatever it
    held before.  The settings are unchanged.  A viewer as constructed
    shows the rendering of the record it remembers. *)
Theorem update_view_keeps_views_current :
  (forall (app : App) (data : pyval),
      shows_last_rendered (table_viewer app) ->
      exists app' work,
        update_view app data = Ok (app', work) /\
        shows_last_rendered (table_viewer app') /\
        (last_rendered (table_viewer app') = data \/
         (table_viewer app' = table_viewer app /\
          py_eq data (last_rendered (table_viewer app)) = true)) /\
        non_table_layout app' = recurse data /\
        precision (table_viewer app') = precision (table_viewer app) /\
        heatmap_rules (table_viewer app') = heatmap_rules (table_viewer app) /\
        default_max_dev (table_viewer app') =
          default_max_dev (table_viewer app)) /\
  (forall p rules d, shows_last_rendered (TableViewer_init p rules d)).
Proof.
  split; [|reflexivity].
  intros [tv layout] data Hshows. cbn [table_viewer] in *.
  unfold update_view, display_tables. cbn [table_viewer non_table_layout].
  destruct (py_eq data (last_rendered tv)) eqn:Heq.
  - eexists _, _. cbn [mbind result_bind]. split; [reflexivity|].
    cbn [table_viewer non_table_layout]. repeat split; auto.
  - destruct (render_data_total tv data) as (ws & Hws & _). rewrite Hws.
    eexists _, _. cbn [mbind result_bind]. split; [reflexivity|].
    cbn [table_viewer non_table_layout precision heatmap_rules
           default_max_dev last_rendered].
    repeat split; auto.
    unfold shows_last_rendered. cbn [last_rendered content_layout].
    rewrite <- Hws. now apply render_data_settings.
Qed.

End ViewInvariants.

(** ** The configuration *)

Section ConfigProperties.

Context `{Interpreter} `{Builtins}.

Lemma heatmap_threshold_not_negative (md : float) :
  Float.leb Float.zero (heatmap_threshold md) = true.
Proof.
  unfold heatmap_threshold, Py.max.
  destruct (Float.ltb Float.zero md) eqn:Hlt; [|reflexivity].
  revert Hlt. unfold Float.ltb, Float.leb, SFltb, SFleb.
  destruct (SFcompare Float.zero md) as [[]|]; congruence.
Qed.

Lemma normalize_heatmaps_rules (entries : list pyval) :
  Forall is_heatmap_rule (normalize_heatmaps entries).
Proof.
  induction entries as [|entry rest IH]; [constructor|].
  cbn [normalize_heatmaps]. destruct entry; try exact IH.
  cbv zeta.
  destruct (nonempty (py_strip (py_str (get_or "name" (PStr EmptyString) items))))
    eqn:Hname; [|exact IH].
  constructor; [|exact IH].
  eexists _, _. split; [reflexivity|]. split; [exact Hname|].
  apply heatmap_threshold_not_negative.
Qed.

Lemma normalize_buttons_entries (items : list pyval) :
  Forall is_button (fst (normalize_buttons items)).
Proof.
  induction items as [|item rest IH]; [constructor|].
  cbn [normalize_buttons].
  destruct (normalize_buttons rest) as [norm warnings]. cbn [fst] in IH.
  destruct item; try exact IH. cbv zeta.
  destruct (nonempty (py_strip (py_str (get_or "name" (PStr EmptyString) items)))
            && nonempty (py_strip (py_str (get_or "value" (PStr EmptyString) items))))
    eqn:Hboth; [|exact IH].
  apply andb_true_iff in Hboth as [Hname Hvalue].
  constructor; [|exact IH]. eexists _, _. eauto.
Qed.

Lemma load_COM_nonempty (d : list (string * pyval)) :
  nonempty (load_COM d) = true.
Proof.
  unfold load_COM. destruct (assoc "COM" d) as [[| | | |s| |]|]; try reflexivity.
  destruct (nonempty s) eqn:Hs; [exact Hs|reflexivity].
Qed.

Lemma load_precision_not_negative (d : list (string * pyval)) :
  0 <= fst (load_precision d).
Proof.
  unfold load_precision. cbv zeta.
  destruct (match assoc "precision" d with
            | Some v => Some v
            | None => assoc "PRECISION" d
            end) as [v|]; [|cbn; lia].
  destruct (py_int v) as [p|e]; [|cbn; lia].
  destruct (p <? 0) eqn:Hp; cbn; lia.
Qed.

Lemma load_max_deviation_not_negative (d : list (string * pyval)) :
  Float.ltb (fst (load_max_deviation d)) Float.zero = false.
Proof.
  unfold load_max_deviation.
  destruct (assoc "max_deviation" d) as [v|]; [|reflexivity].
  destruct (py_float v) as [md|e]; [|reflexivity].
  destruct (Float.ltb md Float.zero) eqn:Hmd; [reflexivity|exact Hmd].
Qed.

Lemma load_heatmaps_rules (d : list (string * pyval))
    (hm : list (list (string * pyval))) :
  load_heatmaps d = Some hm -> hm <> [] /\ Forall is_heatmap_rule hm.
Proof.
  unfold load_heatmaps.
  destruct (assoc "heatmaps" d) as [[| | | | |entries|]|]; try discriminate.
  pose proof (normalize_heatmaps_rules entries) as Hrules.
  destruct (normalize_heatmaps entries) as [|h hs]; [discriminate|].
  intros [= <-]. split; [discriminate|exact Hrules].
Qed.

Lemma load_buttons_entries (d : list (string * pyval)) :
  Forall is_button (fst (load_buttons d)).
Proof.
  unfold load_buttons.
  destruct (assoc "buttons" d) as [[| | | | |items|]|]; try constructor.
  apply normalize_buttons_entries.
Qed.

(** The configuration is the defaults, or is read field by field off a
    mapping; with rules under [heatmaps] the legacy keys are not read. *)
Lemma load_config_fields (src : Cfg.source) :
  load_config src = (Cfg.defaults, []) \/
  fst (load_config src) = Cfg.defaults /\
    (exists w, snd (load_config src) = [w] /\ w <> Cfg.WarnMaxDeviation) \/
  exists d,
    match load_heatmaps d with
    | Some hm =>
        load_config src =
          (Cfg.mk (load_COM d) (fst (load_BAUD d)) (fst (load_buttons d))
             (fst (load_precision d)) (Some hm) None
             Cfg.default_max_deviation,
           snd (load_BAUD d) ++ snd (load_buttons d) ++
           snd (load_precision d))
    | None =>
        load_config src =
          (Cfg.mk (load_COM d) (fst (load_BAUD d)) (fst (load_buttons d))
             (fst (load_precision d)) None (load_heatmap_tables d)
             (fst (load_max_deviation d)),
           snd (load_BAUD d) ++ snd (load_buttons d) ++
           snd (load_precision d) ++ snd (load_max_deviation d))
    end.
Proof.
  destruct src as [| | | |loaded]; try (left; reflexivity);
    try (right; left; split; [reflexivity|eexists; split; [reflexivity|discriminate]]).
  cbn [load_config].
  destruct (truthy loaded); [|left; reflexivity]. cbv zeta.
  destruct loaded as [| | | | | |d]; try (left; reflexivity).
  right. right. exists d.
  destruct (load_BAUD d) as [baud w1], (load_buttons d) as [buttons w2],
    (load_precision d) as [precision w3].
  destruct (load_heatmaps d) as [hm|]; [reflexivity|].
  destruct (load_max_deviation d) as [md w4]. reflexivity.
Qed.

(** X9.  Whatever the file holds, the configuration returned can be used as
    it is: the port name is not empty, the precision is not negative, the
    legacy threshold is not negative, and every button has a name and a
    value, both strings that are not empty. *)
Theorem load_config_returns_valid_fields (src : Cfg.source) :
  let cfg := fst (load_config src) in
  nonempty (Cfg.COM cfg) = true /\
  0 <= Cfg.precision cfg /\
  Float.ltb (Cfg.max_deviation cfg) Float.zero = false /\
  Forall is_button (Cfg.buttons cfg).
Proof.
  cbv zeta.
  destruct (load_config_fields src) as [E|[[E _]|[d E]]].
  - rewrite E. cbn. repeat split; [lia|constructor].
  - rewrite E. cbn. repeat split; [lia|constructor].
  - destruct (load_heatmaps d) as [hm|]; rewrite E; cbn [fst Cfg.COM
      Cfg.precision Cfg.max_deviation Cfg.buttons];
      repeat split;
      auto using load_COM_nonempty, load_precision_not_negative,
        load_max_deviation_not_negative, load_buttons_entries.
Qed.

(** X10.  The rules stored under [heatmaps] are never an empty list, and each
    has a name that is not empty and a threshold that is neither negative
    nor a NaN. *)
Theorem load_config_heatmaps_are_rules (src : Cfg.source)
    (hm : list (list (string * pyval))) :
  Cfg.heatmaps (fst (load_config src)) = Some hm ->
  hm <> [] /\ Forall is_heatmap_rule hm.
Proof.
  destruct (load_config_fields src) as [E|[[E _]|[d E]]];
    try (rewrite E; discriminate).
  destruct (load_heatmaps d) as [hm'|] eqn:Hd; rewrite E; cbn [fst Cfg.heatmaps];
    [|discriminate].
  intros [= <-]. now apply load_heatmaps_rules in Hd.
Qed.

Lemma load_BAUD_warnings (d : list (string * pyval)) :
  ~ In Cfg.WarnMaxDeviation (snd (load_BAUD d)).
Proof.
  unfold load_BAUD. destruct (assoc "BAUD" d) as [v|]; [|cbn; tauto].
  destruct (py_int v); cbn; [tauto|]. intros [?|[]]. discriminate.
Qed.

Lemma load_precision_warnings (d : list (string * pyval)) :
  ~ In Cfg.WarnMaxDeviation (snd (load_precision d)).
Proof.
  unfold load_precision. cbv zeta.
  destruct (match assoc "precision" d with
            | Some v => Some v
            | None => assoc "PRECISION" d
            end) as [v|]; [|cbn; tauto].
  destruct (py_int v) as [p|e]; [destruct (p <? 0)|]; cbn; try tauto;
    intros [?|[]]; discriminate.
Qed.

Lemma normalize_buttons_warnings (items : list pyval) :
  ~ In Cfg.WarnMaxDeviation (snd (normalize_buttons items)).
Proof.
  induction items as [|item rest IH]; [cbn; tauto|].
  cbn [normalize_buttons].
  destruct (normalize_buttons rest) as [norm warnings]. cbn [snd] in IH.
  destruct item; try exact IH. cbv zeta.
  destruct (_ && _); [exact IH|]. cbn. intros [?|?]; [discriminate|tauto].
Qed.

Lemma load_buttons_warnings (d : list (string * pyval)) :
  ~ In Cfg.WarnMaxDeviation (snd (load_buttons d)).
Proof.
  unfold load_buttons.
  destruct (assoc "buttons" d) as [[| | | | |items|]|]; try (cbn; tauto).
  apply normalize_buttons_warnings.
Qed.

(** X11.  Rules under [heatmaps] switch the legacy keys off: [heatmap_tables]
    and [max_deviation] keep their defaults whatever the file gives for
    them, and a bad [max_deviation] is not even warned about. *)
Theorem heatmaps_override_legacy_keys (src : Cfg.source)
    (hm : list (list (string * pyval))) :
  Cfg.heatmaps (fst (load_config src)) = Some hm ->
  Cfg.heatmap_tables (fst (load_config src)) = None /\
  Cfg.max_deviation (fst (load_config src)) = Cfg.default_max_deviation /\
  ~ In Cfg.WarnMaxDeviation (snd (load_config src)).
Proof.
  destruct (load_config_fields src) as [E|[[E _]|[d E]]];
    try (rewrite E; discriminate).
  destruct (load_heatmaps d) as [hm'|] eqn:Hd; rewrite E;
    cbn [fst snd Cfg.heatmaps Cfg.heatmap_tables Cfg.max_deviation];
    [|discriminate].
  intros _. repeat split. rewrite !in_app_iff.
  pose proof (load_BAUD_warnings d). pose proof (load_buttons_warnings d).
  pose proof (load_precision_warnings d). tauto.
Qed.

End ConfigProperties.

(** ** The rules of the heat map, from the configuration to the viewer *)

Lemma fold_insert_lookup_other (key : string) (l : list (string * float))
    (m : gmap string float) :
  (forall r, In r l -> fst r <> key) ->
  fold_left (fun m r => <[fst r := snd r]> m) l m !! key = m !! key.
Proof.
  revert m. induction l as [|r l IH]; intros m Hl; [reflexivity|].
  cbn [fold_left]. rewrite IH by (intros r' Hr'; apply Hl; now right).
  apply lookup_insert_ne. apply Hl. now left.
Qed.

Lemma fold_insert_lookup_last (key : string) (md : float)
    (l1 l2 : list (string * float)) (m : gmap string float) :
  (forall r, In r l2 -> fst r <> key) ->
  fold_left (fun m r => <[fst r := snd r]> m) (l1 ++ (key, md) :: l2) m !! key
  = Some md.
Proof.
  intros Hl2. rewrite fold_left_app. cbn [fold_left fst snd].
  rewrite fold_insert_lookup_other by exact Hl2.
  apply lookup_insert_eq.
Qed.

Lemma fold_insert_lookup_Some (key : string) (md : float)
    (l : list (string * float)) (m : gmap string float) :
  fold_left (fun m r => <[fst r := snd r]> m) l m !! key = Some md ->
  m !! key = Some md \/ In (key, md) l.
Proof.
  revert m. induction l as [|[k v] l IH]; intros m Hl; [now left|].
  cbn [fold_left fst snd] in Hl. apply IH in Hl as [Hl|Hl]; [|right; now right].
  destruct (decide (k = key)) as [->|Hk].
  - rewrite lookup_insert_eq in Hl. injection Hl as ->. right. now left.
  - rewrite lookup_insert_ne in Hl by exact Hk. now left.
Qed.

Lemma fold_insert_nonempty (l : list (string * float))
    (m : gmap string float) :
  m <> ∅ -> fold_left (fun m r => <[fst r := snd r]> m) l m <> ∅.
Proof.
  revert m. induction l as [|r l IH]; intros m Hm; [exact Hm|].
  cbn [fold_left]. apply IH, insert_non_empty.
Qed.

Lemma rules_of_tables_lookup (names : list string) (d : float)
    (key : string) (m : gmap string float) :
  (In key names ->
   fold_left (fun rules name => <[name := d]> rules) names m !! key = Some d) /\
  (~ In key names ->
   fold_left (fun rules name => <[name := d]> rules) names m !! key = m !! key).
Proof.
  revert m. induction names as [|name names IH]; intros m.
  - split; [contradiction|reflexivity].
  - cbn [fold_left]. destruct (IH (<[name := d]> m)) as [IHin IHout].
    destruct (in_dec string_dec key names) as [Hin|Hout].
    + split; [intros _; now apply IHin|].
      intros Hnot. exfalso. apply Hnot. now right.
    + split.
      * intros [->|Hin]; [|contradiction].
        rewrite IHout by exact Hout. apply lookup_insert_eq.
      * intros Hnot. rewrite IHout by exact Hout.
        apply lookup_insert_ne. intros ->. apply Hnot. now left.
Qed.

Lemma rules_of_tables_nonempty (names : list string) (d : float)
    (m : gmap string float) :
  m <> ∅ -> fold_left (fun rules name => <[name := d]> rules) names m <> ∅.
Proof.
  revert m. induction names as [|name names IH]; intros m Hm; [exact Hm|].
  cbn [fold_left]. apply IH, insert_non_empty.
Qed.

Section RulesProperties.

Context `{Interpreter} `{Builtins}.

(** On rules as [load_config] stores them, the dict comprehension of
    [App.__init__] inserts each name with its threshold, in order. *)
Lemma rules_of_heatmaps_rules (hm : list (list (string * pyval))) :
  Forall is_heatmap_rule hm ->
  exists l : list (string * float),
    hm = map (fun r => heatmap_entry (fst r) (snd r)) l /\
    Forall (fun r => Float.leb Float.zero (snd r) = true) l /\
    forall d rules,
      rules_of_heatmaps hm d rules =
      Ok (fold_left (fun m r => <[fst r := snd r]> m) l rules).
Proof.
  induction 1 as [|h hm (name & md & -> & Hname & Hmd) _ (l & -> & Hl & IH)].
  - exists []. repeat split; constructor.
  - exists ((name, md) :: l). split; [reflexivity|].
    split; [now constructor|]. intros d rules.
    cbn [rules_of_heatmaps]. unfold heatmap_entry at 1 2.
    change (assoc "name" [("name", PStr name); ("max_deviation", PFloat md)])
      with (Some (PStr name)).
    change (get_or "max_deviation" (PFloat d)
              [("name", PStr name); ("max_deviation", PFloat md)])
      with (PFloat md).
    cbn [py_float mbind result_bind]. rewrite py_str_of_str. apply IH.
Qed.

Lemma viewer_rules_nonempty (p : option nat) (rules : gmap string float)
    (d : option float) (key : string) :
  rules <> ∅ -> max_dev_for (TableViewer_init p (Some rules) d) key = rules !! key.
Proof.
  intros Hne. unfold max_dev_for, TableViewer_init. cbn [heatmap_rules].
  now destruct (decide (rules = ∅)).
Qed.

(** Every threshold a table is coloured with is one of the thresholds of
    a configuration whose rules and legacy threshold are not negative. *)
Lemma App_table_viewer_thresholds (cfg : Cfg.t) :
  (forall hm, Cfg.heatmaps cfg = Some hm -> Forall is_heatmap_rule hm) ->
  Float.ltb (Cfg.max_deviation cfg) Float.zero = false ->
  exists tv,
    App_table_viewer cfg = Ok tv /\
    precision tv = Z.to_nat (Cfg.precision cfg) /\
    forall key md,
      max_dev_for tv key = Some md -> Float.ltb md Float.zero = false.
Proof.
  intros Hrules Hlegacy. unfold App_table_viewer, App_rules.
  assert (Hdefault : forall tables,
    exists tv,
      (rules ← match tables with
               | Some (name :: names) =>
                   Ok (Some (rules_of_tables (name :: names)
                               (Cfg.max_deviation cfg)))
               | _ => Ok None
               end;
       Ok (TableViewer_init (Some (Z.to_nat (Cfg.precision cfg))) rules
             (Some (Cfg.max_deviation cfg)))) = Ok tv /\
      precision tv = Z.to_nat (Cfg.precision cfg) /\
      forall key md,
        max_dev_for tv key = Some md -> Float.ltb md Float.zero = false).
  { intros tables.
    assert (Hall : forall key md,
      max_dev_for
        (TableViewer_init (Some (Z.to_nat (Cfg.precision cfg))) None
           (Some (Cfg.max_deviation cfg))) key = Some md ->
      Float.ltb md Float.zero = false).
    { intros key md [= <-]. exact Hlegacy. }
    destruct tables as [[|name names]|];
      try (eexists; split; [reflexivity|split; [reflexivity|exact Hall]]).
    eexists. split; [reflexivity|]. split; [reflexivity|].
    intros key md.
    rewrite viewer_rules_nonempty
      by (unfold rules_of_tables; cbn [fold_left];
        apply rules_of_tables_nonempty, insert_non_empty).
    unfold rules_of_tables.
    destruct (rules_of_tables_lookup (name :: names) (Cfg.max_deviation cfg)
                key ∅) as [Hin Hout].
    destruct (in_dec string_dec key (name :: names)) as [Hk|Hk].
    - rewrite (Hin Hk). now intros [= <-].
    - rewrite (Hout Hk), lookup_empty. discriminate. }
  destruct (Cfg.heatmaps cfg) as [[|h hs]|] eqn:Hhm; try apply Hdefault.
  destruct (rules_of_heatmaps_rules (h :: hs) (Hrules _ eq_refl))
    as (l & Hl & Hpos & Hfold).
  rewrite Hfold. cbn [mbind result_bind].
  eexists. split; [reflexivity|]. split; [reflexivity|].
  intros key md. destruct l as [|r l]; [discriminate|].
  rewrite viewer_rules_nonempty
    by (cbn [fold_left]; apply fold_insert_nonempty, insert_non_empty).
  intros Hkey. apply fold_insert_lookup_Some in Hkey as [Hkey|Hkey];
    [now rewrite lookup_empty in Hkey|].
  rewrite List.Forall_forall in Hpos. apply leb_not_ltb.
  exact (Hpos _ Hkey).
Qed.

(** X12.  From any configuration file to the cells: building the viewer from
    what [load_config] returns never raises, the viewer formats with the
    precision of the configuration, and no table is ever coloured with a
    negative threshold. *)
Theorem loaded_thresholds_are_not_negative (src : Cfg.source) :
  exists tv,
    App_table_viewer (fst (load_config src)) = Ok tv /\
    Z.of_nat (precision tv) = Cfg.precision (fst (load_config src)) /\
    forall key md,
      max_dev_for tv key = Some md -> Float.ltb md Float.zero = false.
Proof.
  assert (Hcfg :
    (forall hm, Cfg.heatmaps (fst (load_config src)) = Some hm ->
                Forall is_heatmap_rule hm) /\
    Float.ltb (Cfg.max_deviation (fst (load_config src))) Float.zero = false /\
    0 <= Cfg.precision (fst (load_config src))).
  { destruct (load_config_fields src) as [E|[[E _]|[d E]]];
      try (rewrite E; cbn; repeat split; [discriminate|lia]).
    destruct (load_heatmaps d) as [hm'|] eqn:Hd; rewrite E;
      cbn [fst Cfg.heatmaps Cfg.max_deviation Cfg.precision];
      repeat split;
      auto using load_max_deviation_not_negative, load_precision_not_negative.
    - intros hm [= <-]. now apply load_heatmaps_rules in Hd.
    - discriminate. }
  destruct Hcfg as (Hrules & Hlegacy & Hprec).
  destruct (App_table_viewer_thresholds _ Hrules Hlegacy)
    as (tv & Htv & Hp & Hmd).
  exists tv. split; [exact Htv|]. split; [|exact Hmd].
  rewrite Hp. now apply Z2Nat.id.
Qed.

(** X13.  With rules under [heatmaps] in the configuration, a table is coloured
    exactly when a rule names it, with the threshold of the last rule that
    does. *)
Theorem loaded_rules_select_tables (src : Cfg.source)
    (hm : list (list (string * pyval))) (tv : TableViewer) (key : string) :
  Cfg.heatmaps (fst (load_config src)) = Some hm ->
  App_table_viewer (fst (load_config src)) = Ok tv ->
  ((forall h, In h hm -> assoc "name" h <> Some (PStr key)) ->
   max_dev_for tv key = None) /\
  (forall before md after,
     hm = before ++ heatmap_entry key md :: after ->
     (forall h, In h after -> assoc "name" h <> Some (PStr key)) ->
     max_dev_for tv key = Some md).
Proof.
  intros Hhm.
  assert (Hrules : hm <> [] /\ Forall is_heatmap_rule hm).
  { destruct (load_config_fields src) as [E|[[E _]|[d E]]];
      try (rewrite E in Hhm; discriminate).
    destruct (load_heatmaps d) as [hm'|] eqn:Hd; rewrite E in Hhm;
      cbn [fst Cfg.heatmaps] in Hhm; [|discriminate].
    injection Hhm as <-. now apply load_heatmaps_rules in Hd. }
  destruct Hrules as [Hne Hrules].
  destruct (rules_of_heatmaps_rules hm Hrules) as (l & Hl & _ & Hfold).
  unfold App_table_viewer, App_rules. rewrite Hhm.
  destruct hm as [|h hs]; [contradiction|].
  rewrite Hfold. cbn [mbind result_bind]. intros [= <-].
  destruct l as [|r l]; [discriminate|].
  rewrite viewer_rules_nonempty
    by (cbn [fold_left]; apply fold_insert_nonempty, insert_non_empty).
  assert (Hother : forall rs : list (string * float),
    (forall h, In h (map (fun r => heatmap_entry (fst r) (snd r)) rs) ->
               assoc "name" h <> Some (PStr key)) ->
    forall r, In r rs -> fst r <> key).
  { intros rs Hnone r' Hr' <-.
    apply (Hnone (heatmap_entry (fst r') (snd r')));
      [|reflexivity].
    exact (in_map (fun r => heatmap_entry (fst r) (snd r)) rs r' Hr'). }
  split.
  - intros Hnone. rewrite fold_insert_lookup_other, lookup_empty;
      [reflexivity|]. apply Hother. now rewrite <- Hl.
  - intros before md after Hsplit Hafter. rewrite Hsplit in Hl.
    symmetry in Hl. apply map_eq_app in Hl as (l1 & l2' & Hrl & _ & Hcons).
    apply map_eq_cons in Hcons as ([k v] & l2 & -> & Hentry & Hl2).
    cbn [fst snd] in Hentry. injection Hentry as -> ->.
    rewrite Hrl. apply fold_insert_lookup_last.
    apply Hother. now rewrite Hl2.
Qed.

(** X14.  The edge of the comprehension in [App.__init__]: a list of rules that
    is not empty but in which no rule has a name gives an empty dict, which
    the viewer takes for no rules at all: every table is coloured, with the
    legacy threshold, and the legacy table names are ignored. *)
Theorem nameless_rules_colour_every_table
    (hm : list (list (string * pyval))) (tables : option (list string))
    (legacy_max_dev : float) :
  hm <> [] ->
  Forall (fun h => assoc "name" h = None) hm ->
  App_rules (Some hm) tables legacy_max_dev = Ok (Some ∅) /\
  forall p key,
    max_dev_for (TableViewer_init p (Some ∅) (Some legacy_max_dev)) key
    = Some legacy_max_dev.
Proof.
  intros Hne Hnameless. split; [|reflexivity].
  assert (Hfold : forall rules,
    rules_of_heatmaps hm legacy_max_dev rules = Ok rules).
  { clear Hne.
    induction Hnameless as [|h' hm' Hh' _ IH]; intros rules; [reflexivity|].
    cbn [rules_of_heatmaps]. rewrite Hh'. apply IH. }
  unfold App_rules. destruct hm as [|h hs]; [contradiction|].
  now rewrite Hfold.
Qed.

(** X15.  Without rules under [heatmaps], the legacy keys decide: with table
    names, exactly the tables named are coloured; with none, every table
    is; always with the one legacy threshold. *)
Theorem legacy_tables_share_one_threshold (cfg : Cfg.t) (key : string) :
  Cfg.heatmaps cfg = None ->
  exists tv,
    App_table_viewer cfg = Ok tv /\
    max_dev_for tv key =
      match Cfg.heatmap_tables cfg with
      | Some (name :: names) =>
          if in_dec string_dec key (name :: names)
          then Some (Cfg.max_deviation cfg) else None
      | _ => Some (Cfg.max_deviation cfg)
      end.
Proof.
  intros Hhm. unfold App_table_viewer, App_rules. rewrite Hhm.
  destruct (Cfg.heatmap_tables cfg) as [[|name names]|];
    try (eexists; split; reflexivity).
  eexists. split; [reflexivity|].
  rewrite viewer_rules_nonempty
    by (unfold rules_of_tables; cbn [fold_left];
        apply rules_of_tables_nonempty, insert_non_empty).
  unfold rules_of_tables.
  destruct (rules_of_tables_lookup (name :: names) (Cfg.max_deviation cfg)
              key ∅) as [Hin Hout].
  destruct (in_dec string_dec key (name :: names)) as [Hk|Hk].
  - now apply Hin.
  - rewrite (Hout Hk). apply lookup_empty.
Qed.

End RulesProperties.

(** ** The quick command buttons *)

Section ButtonProperties.

Context `{Interpreter} `{Builtins}.

Lemma grid_cell_of_index (row col : nat) :
  (col < 2)%nat ->
  ((2 * row + col) / 2 = row)%nat /\ ((2 * row + col) mod 2 = col)%nat.
Proof.
  intros Hcol. split.
  - symmetry. apply (Nat.div_unique _ 2 row col); lia.
  - symmetry. apply (Nat.mod_unique _ 2 row col); lia.
Qed.

(** The invariant of the loop: the cell [(row, col)] is the cell of index
    [2 * row + col], and the buttons placed from it on take the indices
    that follow, one each. *)
Lemma place_buttons_grid (buttons : list (list (string * pyval))) :
  forall (row col : nat) (items : list grid_item),
    (col < 2)%nat ->
    place_buttons buttons row col = Ok items ->
    length items = length (filter (fun b => usable_button b = true) buttons) /\
    forall k item,
      items !! k = Some item ->
      grid_row item = ((2 * row + col + k) / 2)%nat /\
      grid_col item = ((2 * row + col + k) mod 2)%nat /\
      exists b label,
        filter (fun b => usable_button b = true) buttons !! k = Some b /\
        get_or "name" (PStr EmptyString) b = PStr label /\
        grid_widget item =
          QPushButton label (get_or "value" (PStr EmptyString) b).
Proof.
  induction buttons as [|b rest IH]; intros row col items Hcol Hplace.
  - injection Hplace as <-. split; [reflexivity|]. intros k item Hk.
    now rewrite lookup_nil in Hk.
  - cbn [place_buttons] in Hplace. cbv zeta in Hplace.
    assert (Hskip : negb (truthy (get_or "name" (PStr EmptyString) b))
                    || negb (truthy (get_or "value" (PStr EmptyString) b))
                    = negb (usable_button b)).
    { unfold usable_button.
      now destruct (truthy (get_or "name" (PStr EmptyString) b)),
        (truthy (get_or "value" (PStr EmptyString) b)). }
    rewrite Hskip in Hplace. clear Hskip. rewrite filter_cons.
    destruct (usable_button b) eqn:Huse; cbn [negb] in Hplace.
    + destruct (get_or "name" (PStr EmptyString) b) as [| | | |label| |] eqn:Hlabel;
        try discriminate.
      destruct (decide (true = true)) as [_|Hne]; [|now contradiction Hne].
      assert (Hnext : exists row' col',
        (col' < 2)%nat /\ (2 * row' + col' = 2 * row + col + 1)%nat /\
        (if (2 <=? S col)%nat
         then place_buttons rest (S row) 0
         else place_buttons rest row (S col)) = place_buttons rest row' col').
      { destruct (2 <=? S col)%nat eqn:Hwrap.
        - exists (S row), 0%nat. apply Nat.leb_le in Hwrap.
          repeat split; [lia|lia].
        - exists row, (S col). apply Nat.leb_gt in Hwrap.
          repeat split; [lia|lia]. }
      destruct Hnext as (row' & col' & Hcol' & Hindex & Hnext).
      rewrite Hnext in Hplace.
      destruct (place_buttons rest row' col') as [items'|e] eqn:Hrest;
        [|discriminate].
      cbn [mbind result_bind] in Hplace. injection Hplace as <-.
      destruct (IH row' col' items' Hcol' Hrest) as [Hlen Hitems].
      split; [cbn [length]; now rewrite Hlen|].
      intros [|k] item Hk.
      * injection Hk as <-. cbn [grid_row grid_col grid_widget].
        rewrite Nat.add_0_r.
        destruct (grid_cell_of_index row col Hcol) as [-> ->].
        repeat split. exists b, label. repeat split. exact Hlabel.
      * cbn [lookup list_lookup] in Hk.
        destruct (Hitems k item Hk) as (Hr & Hc & Hb).
        replace (2 * row + col + S k)%nat with (2 * row' + col' + k)%nat
          by lia.
        repeat split; assumption.
    + destruct (decide (false = true)) as [Hne|_]; [discriminate|].
      now apply IH.
Qed.

(** X16.  The buttons are laid out two to a row, in the order of the list: the
    button of index [k] among those not skipped sits in row [k / 2] and
    column [k mod 2], with the name of its entry as label and its value
    as the command a click sends.  No cell is left out and none is used
    twice. *)
Theorem quick_buttons_fill_the_grid_in_order
    (buttons : list (list (string * pyval))) (items : list grid_item) :
  buttons <> [] ->
  build_quick_buttons buttons = Ok items ->
  length items = length (filter (fun b => usable_button b = true) buttons) /\
  forall k item,
    items !! k = Some item ->
    grid_row item = (k / 2)%nat /\
    grid_col item = (k mod 2)%nat /\
    exists b label,
      filter (fun b => usable_button b = true) buttons !! k = Some b /\
      get_or "name" (PStr EmptyString) b = PStr label /\
      grid_widget item =
        QPushButton label (get_or "value" (PStr EmptyString) b).
Proof.
  intros Hne Hbuild. unfold build_quick_buttons in Hbuild.
  destruct buttons as [|b rest]; [contradiction|].
  apply (place_buttons_grid (b :: rest) 0 0 items); [lia|exact Hbuild].
Qed.

(** X17.  A list that is not empty but holds no usable entry leaves the panel
    empty: no button, and no note that nothing is configured either. *)
Theorem unusable_buttons_leave_the_panel_empty
    (buttons : list (list (string * pyval))) :
  buttons <> [] ->
  Forall (fun b => usable_button b = false) buttons ->
  build_quick_buttons buttons = Ok [].
Proof.
  intros Hne Hall.
  assert (Hplace : forall row col, place_buttons buttons row col = Ok []).
  { clear Hne. induction Hall as [|b rest Hb _ IH]; intros row col;
      [reflexivity|].
    cbn [place_buttons]. cbv zeta. unfold usable_button in Hb.
    destruct (truthy (get_or "name" (PStr EmptyString) b));
      [destruct (truthy (get_or "value" (PStr EmptyString) b));
         [discriminate|]|]; apply IH. }
  unfold build_quick_buttons. destruct buttons; [contradiction|apply Hplace].
Qed.

Lemma place_buttons_entries (buttons : list (list (string * pyval))) :
  Forall is_button buttons ->
  forall row col : nat,
    (col < 2)%nat ->
    exists items,
      place_buttons buttons row col = Ok items /\
      length items = length buttons /\
      forall k b,
        buttons !! k = Some b ->
        exists name value,
          b = button_entry name value /\
          items !! k =
            Some (mkGridItem (QPushButton name (PStr value))
                    ((2 * row + col + k) / 2) ((2 * row + col + k) mod 2)).
Proof.
  induction 1 as [|b rest (name & value & -> & Hname & Hvalue) _ IH];
    intros row col Hcol.
  - exists []. repeat split. intros k b Hk. now rewrite lookup_nil in Hk.
  - cbn [place_buttons]. cbv zeta.
    change (get_or "name" (PStr EmptyString) (button_entry name value))
      with (PStr name).
    change (get_or "value" (PStr EmptyString) (button_entry name value))
      with (PStr value).
    assert (Hn : truthy (PStr name) = true) by exact Hname.
    assert (Hv : truthy (PStr value) = true) by exact Hvalue.
    rewrite Hn, Hv. cbn [negb orb].
    assert (Hnext : exists row' col',
      (col' < 2)%nat /\ (2 * row' + col' = 2 * row + col + 1)%nat /\
      (if (2 <=? S col)%nat
       then place_buttons rest (S row) 0
       else place_buttons rest row (S col)) = place_buttons rest row' col').
    { destruct (2 <=? S col)%nat eqn:Hwrap.
      - exists (S row), 0%nat. apply Nat.leb_le in Hwrap.
        repeat split; [lia|lia].
      - exists row, (S col). apply Nat.leb_gt in Hwrap.
        repeat split; [lia|lia]. }
    destruct Hnext as (row' & col' & Hcol' & Hindex & ->).
    destruct (IH row' col' Hcol') as (items & -> & Hlen & Hitems).
    cbn [mbind result_bind]. eexists. split; [reflexivity|].
    split; [cbn [length]; now rewrite Hlen|].
    intros [|k] b Hk.
    + injection Hk as <-. exists name, value. split; [reflexivity|].
      rewrite Nat.add_0_r.
      now destruct (grid_cell_of_index row col Hcol) as [-> ->].
    + cbn [lookup list_lookup] in Hk.
      destruct (Hitems k b Hk) as (name' & value' & -> & Hitem).
      exists name', value'. split; [reflexivity|].
      replace (2 * row + col + S k)%nat with (2 * row' + col' + k)%nat
        by lia.
      exact Hitem.
Qed.

(** X18.  From the configuration file to the panel: building the buttons from
    what [load_config] returns never raises and skips nothing.  With no
    button the panel holds the note alone; otherwise button [k] of the
    configuration sits in row [k / 2], column [k mod 2]. *)
Theorem configured_buttons_are_all_placed (src : Cfg.source) :
  let buttons := Cfg.buttons (fst (load_config src)) in
  exists items,
    build_quick_buttons buttons = Ok items /\
    (buttons = [] -> items = [mkGridItem NoteLabel 0 0]) /\
    (buttons <> [] ->
     length items = length buttons /\
     forall k b,
       buttons !! k = Some b ->
       exists name value,
         b = button_entry name value /\
         items !! k =
           Some (mkGridItem (QPushButton name (PStr value))
                   (k / 2) (k mod 2))).
Proof.
  cbv zeta.
  assert (Hentries : Forall is_button (Cfg.buttons (fst (load_config src)))).
  { destruct (load_config_fields src) as [E|[[E _]|[d E]]];
      try (rewrite E; constructor).
    destruct (load_heatmaps d); rewrite E; apply load_buttons_entries. }
  destruct (Cfg.buttons (fst (load_config src))) as [|b rest].
  - eexists. split; [reflexivity|]. split; [reflexivity|contradiction].
  - destruct (place_buttons_entries (b :: rest) Hentries 0 0)
      as (items & Hplace & Hlen & Hitems); [lia|].
    exists items. split; [exact Hplace|]. split; [discriminate|].
    intros _. split; [exact Hlen|]. exact Hitems.
Qed.

End ButtonProperties.

(** ** Commands *)

Lemma send_command_live (w : Link) (cmd : string) :
  is_live w = true ->
  is_live (send_command w cmd) = true /\
  wire (send_command w cmd) = wire w ++ [cmd +:+ newline].
Proof.
  unfold is_live, wire, send_command.
  destruct (serial_port w) as [port|]; [|discriminate].
  intros ->. split; reflexivity.
Qed.

Lemma send_command_dead (w : Link) (cmd : string) :
  is_live w = false -> send_command w cmd = w.
Proof.
  unfold is_live, send_command.
  destruct (serial_port w) as [port|]; [|reflexivity]. now intros ->.
Qed.

Lemma stop_dead (w : Link) :
  is_live (stop w) = false /\ wire (stop w) = wire w.
Proof.
  unfold is_live, wire, stop. cbn [serial_port].
  destruct (serial_port w) as [port|]; [|split; reflexivity].
  destruct (is_open port) eqn:Hopen; cbn [is_open written]; auto.
Qed.

Section CommandProperties.

Context `{Builtins}.

Lemma act_history (app : Console) (a : action) :
  cmd_history (act app a) = cmd_history app ++ command_of a.
Proof.
  destruct a as [text|value|]; cbn [act command_of].
  - unfold App_send_command. cbn [cmd_input cmd_history worker]. cbv zeta.
    destruct (nonempty (py_strip text)); cbn [cmd_history];
      [reflexivity|now rewrite app_nil_r].
  - unfold send_quick_command. cbv zeta.
    destruct (nonempty (py_strip (py_str value))); cbn [cmd_history];
      [reflexivity|now rewrite app_nil_r].
  - cbn [cmd_history]. now rewrite app_nil_r.
Qed.

Lemma act_worker (app : Console) (a : action) :
  worker (act app a) =
  match a with
  | Closed => stop (worker app)
  | _ => fold_left send_command (command_of a) (worker app)
  end.
Proof.
  destruct a as [text|value|]; cbn [act command_of]; [| |reflexivity].
  - unfold App_send_command. cbn [cmd_input cmd_history worker]. cbv zeta.
    destruct (nonempty (py_strip text)); reflexivity.
  - unfold send_quick_command. cbv zeta.
    destruct (nonempty (py_strip (py_str value))); reflexivity.
Qed.

Lemma sends_live (cmds : list string) (w : Link) :
  is_live w = true ->
  is_live (fold_left send_command cmds w) = true /\
  wire (fold_left send_command cmds w) =
    wire w ++ map (fun c => c +:+ newline) cmds.
Proof.
  revert w. induction cmds as [|cmd cmds IH]; intros w Hw.
  - split; [exact Hw|now rewrite app_nil_r].
  - cbn [fold_left map]. destruct (send_command_live w cmd Hw) as [Hl Hwire].
    destruct (IH _ Hl) as [IHl IHw]. split; [exact IHl|].
    now rewrite IHw, Hwire, <- app_assoc.
Qed.

Lemma sends_dead (cmds : list string) (w : Link) :
  is_live w = false -> fold_left send_command cmds w = w.
Proof.
  intros Hw. induction cmds as [|cmd cmds IH]; [reflexivity|].
  cbn [fold_left]. now rewrite send_command_dead.
Qed.

(** X19.  The history lists every command handed to the worker, in order, and
    nothing else: an action adds its text, stripped, when that is not
    empty.  Whether the port took the command plays no part. *)
Theorem history_records_every_command (app : Console)
    (actions : list action) :
  cmd_history (fold_left act actions app) =
  cmd_history app ++ flat_map command_of actions.
Proof.
  revert app. induction actions as [|a actions IH]; intros app.
  - cbn. now rewrite app_nil_r.
  - cbn [fold_left flat_map]. now rewrite IH, act_history, <- app_assoc.
Qed.

(** X20.  While the port is open, it receives exactly what the history shows:
    each command, in order, each followed by a newline. *)
Theorem open_port_receives_the_history (app : Console)
    (actions : list action) :
  is_live (worker app) = true ->
  Forall (fun a => a <> Closed) actions ->
  is_live (worker (fold_left act actions app)) = true /\
  wire (worker (fold_left act actions app)) =
    wire (worker app) ++
    map (fun c => c +:+ newline) (flat_map command_of actions).
Proof.
  intros Hlive Hopen. revert app Hlive.
  induction Hopen as [|a actions Ha _ IH]; intros app Hlive.
  - split; [exact Hlive|cbn; now rewrite app_nil_r].
  - cbn [fold_left flat_map].
    assert (Hstep : is_live (worker (act app a)) = true /\
                    wire (worker (act app a)) =
                      wire (worker app) ++
                      map (fun c => c +:+ newline) (command_of a)).
    { rewrite act_worker. destruct a; try contradiction;
        now apply sends_live. }
    destruct Hstep as [Hl Hw]. destruct (IH _ Hl) as [IHl IHw].
    split; [exact IHl|]. now rewrite IHw, Hw, map_app, <- app_assoc.
Qed.

(** X21.  Once the window is closed, and likewise when the port could never be
    opened, nothing is written any more, whatever is typed or clicked; the
    history goes on recording the commands as if they were sent. *)
Theorem closed_port_receives_nothing (app : Console)
    (actions : list action) :
  is_live (worker app) = false ->
  is_live (worker (fold_left act actions app)) = false /\
  wire (worker (fold_left act actions app)) = wire (worker app) /\
  cmd_history (fold_left act actions app) =
    cmd_history app ++ flat_map command_of actions.
Proof.
  intros Hdead. revert app Hdead.
  induction actions as [|a actions IH]; intros app Hdead.
  - repeat split; [exact Hdead|cbn; now rewrite app_nil_r].
  - cbn [fold_left flat_map].
    assert (Hstep : is_live (worker (act app a)) = false /\
                    wire (worker (act app a)) = wire (worker app)).
    { rewrite act_worker. destruct a.
      - now rewrite sends_dead.
      - now rewrite sends_dead.
      - apply stop_dead. }
    destruct Hstep as [Hl Hw]. destruct (IH _ Hl) as (IHl & IHw & IHh).
    repeat split; [exact IHl|now rewrite IHw|].
    now rewrite IHh, act_history, <- app_assoc.
Qed.

End CommandProperties.

(** ** The fixed bands of [main_key.py] *)

Lemma shr_fexp_not_negative (m e : Z) (l : location) :
  0 <= m -> 0 <= shr_m (fst (shr_fexp Float.prec Float.emax m e l)).
Proof.
  intros Hm. unfold shr_fexp, shr.
  assert (Hrec : shr_m (shr_record_of_loc m l) = m)
    by (destruct l as [|[]]; reflexivity).
  destruct (fexp _ _ (Zdigits2 m + e) - e) as [|n|n]; simpl;
    rewrite ?Hrec; try lia.
  rewrite iter_shr_1_m by (rewrite Hrec; lia). rewrite Hrec.
  apply Z.div_pos; [lia|apply Z.pow_pos_nonneg; lia].
Qed.

(** Rounding a magnitude gives a number, with the sign asked for. *)
Lemma binary_round_aux_signed (s : bool) (m e : Z) (l : location) :
  0 <= m ->
  Float.is_nan (binary_round_aux Float.prec Float.emax s m e l) = false /\
  Float.signbit (binary_round_aux Float.prec Float.emax s m e l) = s.
Proof.
  intros Hm. unfold binary_round_aux.
  pose proof (shr_fexp_not_negative m e l Hm) as H1.
  destruct (shr_fexp _ _ m e l) as [mrs' e']. simpl in H1.
  pose proof (round_nearest_even_ge (shr_m mrs') (loc_of_shr_record mrs'))
    as Hr.
  pose proof (shr_fexp_not_negative
                (round_nearest_even (shr_m mrs') (loc_of_shr_record mrs'))
                e' loc_Exact ltac:(lia)) as H3.
  destruct (shr_fexp _ _ _ e' loc_Exact) as [mrs'' e'']. simpl in H3.
  destruct (shr_m mrs'') as [|p|p]; try lia; [split; reflexivity|].
  destruct (e'' <=? _); split; reflexivity.
Qed.

Lemma sub_finite_not_nan (x : float) (s : bool) (m : positive) (e : Z) :
  Float.is_nan x = false ->
  Float.is_nan (Float.sub x (S754_finite s m e)) = false.
Proof.
  intros Hx. destruct x as [sx|sx| |sx mx ex]; try discriminate;
    try reflexivity.
  unfold Float.sub, SFsub, binary_normalize.
  set (d := cond_Zopp sx _ - cond_Zopp s _).
  destruct d as [|p|p]; [reflexivity| |]; unfold binary_round;
    destruct (shl_align _ _ _) as [mz ez];
    apply binary_round_aux_signed; lia.
Qed.

Lemma div_core_not_negative (m1 m2 : positive) (e1 e2 : Z) :
  0 <= fst (fst (SFdiv_core_binary Float.prec Float.emax
                   (Zpos m1) e1 (Zpos m2) e2)).
Proof.
  unfold SFdiv_core_binary.
  set (s := e1 - e2 - _).
  set (m' := match s with 0 => Zpos m1 | Zpos _ => _ | Zneg _ => 0 end).
  assert (Hm' : 0 <= m').
  { subst m'. destruct s; [lia| |lia]. apply Z.shiftl_nonneg. lia. }
  pose proof (Z.div_pos m' (Zpos m2) Hm' ltac:(lia)) as Hq.
  unfold Z.div in Hq.
  destruct (Z.div_eucl m' (Zpos m2)) as [q r]. exact Hq.
Qed.

(** Dividing a magnitude by a negative number gives a number with the
    sign bit set. *)
Lemma div_by_negative (x : float) (m : positive) (e : Z) :
  Float.is_nan x = false -> Float.signbit x = false ->
  Float.is_nan (SFdiv Float.prec Float.emax x (S754_finite true m e)) = false /\
  Float.signbit (SFdiv Float.prec Float.emax x (S754_finite true m e)) = true.
Proof.
  intros Hnan Hsign.
  destruct x as [sx|sx| |sx mx ex]; try discriminate;
    cbn [Float.signbit] in Hsign; subst sx; try (split; reflexivity).
  unfold SFdiv.
  pose proof (div_core_not_negative mx m ex e) as Hq.
  destruct (SFdiv_core_binary _ _ _ _ _ _) as [[mz ez] lz]. cbn [fst] in Hq.
  now apply binary_round_aux_signed.
Qed.

Lemma mul_positive_keeps_sign (q : float) (s : bool) (m : positive) (e : Z) :
  Float.is_nan q = false -> Float.signbit q = s ->
  Float.is_nan (Float.mul q (S754_finite false m e)) = false /\
  Float.signbit (Float.mul q (S754_finite false m e)) = s.
Proof.
  intros Hnan Hsign.
  destruct q as [sq|sq| |sq mq eq]; try discriminate;
    cbn [Float.signbit] in Hsign; subst sq;
    try (split; [reflexivity|cbn; now destruct s]).
  unfold Float.mul, SFmul. rewrite xorb_false_r.
  apply binary_round_aux_signed. lia.
Qed.

Lemma negative_below_positive (q : float) (m : positive) (e : Z) :
  Float.is_nan q = false -> Float.signbit q = true ->
  Float.leb q (S754_finite false m e) = true.
Proof.
  intros Hnan Hsign.
  destruct q as [sq|sq| |sq mq eq]; try discriminate;
    cbn [Float.signbit] in Hsign; subst sq; reflexivity.
Qed.

Lemma add_nan_absorbs (x : float) :
  Float.add S754_nan x = S754_nan /\ Float.add x S754_nan = S754_nan.
Proof. destruct x; split; reflexivity. Qed.

Lemma fold_add_nan (xs : list float) :
  fold_left Float.add xs S754_nan = S754_nan.
Proof.
  induction xs as [|x xs IH]; [reflexivity|].
  cbn [fold_left]. now rewrite (proj1 (add_nan_absorbs x)).
Qed.

Lemma sum_nan (xs : list float) :
  In S754_nan xs -> Py.sum xs = S754_nan.
Proof.
  unfold Py.sum. generalize Float.zero.
  induction xs as [|x xs IH]; intros acc; [contradiction|].
  intros [->|Hin]; cbn [fold_left].
  - rewrite (proj2 (add_nan_absorbs acc)). apply fold_add_nan.
  - now apply IH.
Qed.

Section KeyProperties.

Context `{Interpreter}.

Lemma average_nan (nums : list float) :
  In S754_nan nums -> average nums = Ok S754_nan.
Proof.
  intros Hin. destruct (average_ok nums) as [avg Havg]. rewrite Havg.
  destruct nums as [|x xs]; [contradiction|].
  unfold average, Py.div in Havg. rewrite (sum_nan _ Hin) in Havg.
  destruct (Float.is_zero _); [discriminate|]. now injection Havg as <-.
Qed.

Lemma numeric_cell_counts (table_data : list (list pyval))
    (row : list pyval) (val : pyval) (num : float) :
  In row table_data -> In val row -> py_float val = Ok num ->
  In num (collect_nums table_data).
Proof.
  intros Hrow Hval Hnum. rewrite collect_nums_numeric_cells.
  unfold numeric_cells. apply in_flat_map. exists val. split.
  - apply in_concat. eauto.
  - rewrite Hnum. now left.
Qed.

(** A cell of a table whose mean is zero or negative is in the first
    band. *)
Lemma cell_color_mean_not_positive (avg num : float) (val : pyval) :
  Float.leb avg Float.zero = true ->
  avg <> S754_infinity true ->
  py_float val = Ok num ->
  Float.is_nan num = false ->
  Key.cell_color avg val = Ok (mkQColor 204 255 204).
Proof.
  intros Havg Hinf Hnum Hnan. unfold Key.cell_color. rewrite Hnum.
  cbn [mbind result_bind].
  assert (Hdiff : exists diff,
    Key.percent_deviation num avg = Ok diff /\
    Float.leb diff (Float.of_Z 5) = true).
  { unfold Key.percent_deviation.
    destruct avg as [s|[]| |[] m e]; try discriminate; try congruence.
    - exists Float.zero. split; reflexivity.
    - cbn [Float.is_zero negb]. unfold Py.div. cbn [Float.is_zero].
      cbn [mbind result_bind]. eexists. split; [reflexivity|].
      assert (Hsub : Float.is_nan (Float.abs (Float.sub num (S754_finite true m e))) = false /\
                     Float.signbit (Float.abs (Float.sub num (S754_finite true m e))) = false).
      { pose proof (sub_finite_not_nan num true m e Hnan) as Hs.
        destruct (Float.sub num (S754_finite true m e)); try discriminate;
          split; reflexivity. }
      destruct Hsub as [Hs1 Hs2].
      destruct (div_by_negative _ m e Hs1 Hs2) as [Hq1 Hq2].
      let hundred := eval vm_compute in (Float.of_Z 100) in
      change (Float.of_Z 100) with hundred.
      let five := eval vm_compute in (Float.of_Z 5) in
      change (Float.of_Z 5) with five.
      match goal with
      | |- Float.leb (Float.mul ?q (S754_finite false ?mm ?ee)) _ = true =>
          destruct (mul_positive_keeps_sign q true mm ee Hq1 Hq2)
            as [Hp1 Hp2]
      end.
      now apply negative_below_positive. }
  destruct Hdiff as (diff & -> & Hle). cbn [mbind result_bind].
  now rewrite Hle.
Qed.

Lemma key_add_table_rectangular (table_data : list (list pyval))
    (avg : float) :
  rectangular table_data ->
  average (collect_nums table_data) = Ok avg ->
  Key.add_table table_data =
  Ok (mkTable (length table_data)
        (match table_data with first :: _ => length first | [] => 0%nat end)
        (map (map (Key.make_item avg)) table_data)).
Proof.
  intros Hrect Havg. unfold Key.add_table.
  destruct table_data as [|first rest] eqn:Htd; [contradiction|].
  rewrite <- Htd in *.
  assert (Hfirst : getitem table_data 0 = Ok first) by (now subst).
  rewrite Hfirst. cbn [mbind result_bind]. rewrite Havg.
  cbn [mbind result_bind].
  rewrite (for_each_seq _ (map (Key.make_item avg)) table_data 0).
  - subst table_data. reflexivity.
  - intros i row Hi. cbn [Nat.add].
    assert (Hlen : length row = length first).
    { subst table_data. unfold rectangular in Hrect.
      rewrite List.Forall_forall in Hrect. apply Hrect.
      apply list_elem_of_In. eapply list_elem_of_lookup_2; eauto. }
    rewrite (for_each_ext _
               (fun j => val ← getitem row j; Ok (Key.make_item avg val))).
    + rewrite <- Hlen, row_loop_ok by lia. now rewrite firstn_all.
    + intros j. replace (getitem table_data i) with (Ok row)
        by (unfold getitem; now rewrite Hi).
      reflexivity.
Qed.

(** X22.  In [main_key.py] the deviation is divided by the mean itself, not by
    its magnitude.  So a table whose mean is negative, or zero, has every
    number in the first band: all its numeric cells get the same green,
    however far they are from the mean, and the other cells no colour. *)
Theorem key_mean_not_positive_is_all_green
    (table_data : list (list pyval)) (avg : float) :
  rectangular table_data ->
  average (collect_nums table_data) = Ok avg ->
  Float.leb avg Float.zero = true ->
  avg <> S754_infinity true ->
  Key.add_table table_data =
  Ok (mkTable (length table_data)
        (match table_data with first :: _ => length first | [] => 0%nat end)
        (map (map (fun val =>
                     mkItem (StrOf val)
                       match py_float val with
                       | Ok _ => Some (mkQColor 204 255 204)
                       | Raise _ => None
                       end)) table_data)).
Proof.
  intros Hrect Havg Hle Hinf.
  rewrite (key_add_table_rectangular table_data avg Hrect Havg).
  do 2 f_equal. apply map_ext_in. intros row Hrow.
  apply map_ext_in. intros val Hval. unfold Key.make_item. f_equal.
  destruct (py_float val) as [num|e] eqn:Hnum.
  - assert (Hnan : Float.is_nan num = false).
    { destruct num; try reflexivity.
      pose proof (numeric_cell_counts _ _ _ _ Hrow Hval Hnum) as Hin.
      rewrite (average_nan _ Hin) in Havg. injection Havg as <-.
      discriminate. }
    now rewrite (cell_color_mean_not_positive avg num val Hle Hinf Hnum Hnan).
  - unfold Key.cell_color. now rewrite Hnum.
Qed.

(** X23.  One NaN among the numbers of a table makes the mean a NaN, and then
    no deviation compares with any band: every numeric cell of the table
    falls through to the last colour, the strongest red. *)
Theorem key_nan_cell_reddens_the_table (table_data : list (list pyval)) :
  rectangular table_data ->
  In S754_nan (collect_nums table_data) ->
  Key.add_table table_data =
  Ok (mkTable (length table_data)
        (match table_data with first :: _ => length first | [] => 0%nat end)
        (map (map (fun val =>
                     mkItem (StrOf val)
                       match py_float val with
                       | Ok _ => Some (mkQColor 255 204 204)
                       | Raise _ => None
                       end)) table_data)).
Proof.
  intros Hrect Hnan.
  rewrite (key_add_table_rectangular table_data S754_nan Hrect
             (average_nan _ Hnan)).
  do 2 f_equal. apply map_ext_in. intros row _.
  apply map_ext_in. intros val _. unfold Key.make_item, Key.cell_color.
  f_equal. destruct (py_float val) as [num|e]; [|reflexivity].
  cbn [mbind result_bind]. unfold Key.percent_deviation, Py.div.
  cbn [Float.is_zero negb mbind result_bind].
  assert (Hq : SFdiv Float.prec Float.emax
                 (Float.abs (Float.sub num S754_nan)) S754_nan = S754_nan)
    by (now destruct (Float.abs (Float.sub num S754_nan))).
  rewrite Hq. reflexivity.
Qed.

End KeyProperties.

(** ** Closed instances of the further properties

    Each property that has a premise, at a concrete input, with the
    reference interpreter. *)

Lemma heat_param_raises_only_at_zero_threshold_witness :
  py_float (PInt 2) = Ok (Float.of_Z 2) /\
  relative_deviation (Float.of_Z 2) (Float.of_Z 2) = Ok Float.zero /\
  heat_param Float.zero (Float.of_Z 2) (PInt 2) = Raise ZeroDivisionError.
Proof.
  split; [reflexivity|]. split; [reflexivity|].
  apply (proj1 (heat_param_raises_only_at_zero_threshold
                  Float.zero (Float.of_Z 2) (PInt 2) (Float.of_Z 2)
                  Float.zero eq_refl eq_refl)).
  split; reflexivity.
Defined.

Lemma nan_is_coloured_full_strength_witness :
  py_float (PFloat S754_nan) = Ok S754_nan /\
  cell_background (Some (Float.of_ratio 1 10)) (Float.of_Z 2)
    (PFloat S754_nan) = Some (mkQColor 255 140 140).
Proof.
  split; [reflexivity|].
  exact (proj2 (nan_is_coloured_full_strength
                  (Float.of_ratio 1 10) (Float.of_Z 2) (PFloat S754_nan)
                  S754_nan eq_refl eq_refl eq_refl)).
Defined.

Lemma colors_saturate_witness :
  _green_color (Float.of_Z 7) = Ok (mkQColor 184 240 184) /\
  _red_color (Float.of_Z (-3)) = Ok (mkQColor 255 234 234).
Proof.
  split.
  - exact (proj1 (proj1 (colors_saturate (Float.of_Z 7)) eq_refl)).
  - exact (proj2 (proj2 (colors_saturate (Float.of_Z (-3))) eq_refl eq_refl)).
Defined.

Lemma add_table_bounds_witness :
  add_table 3 [[PInt 1; PInt 2]; [PInt 3]] None = Raise IndexError /\
  exists t,
    add_table 3 [[PInt 1]; [PInt 2; PInt 3]] None = Ok t /\
    rowCount t = 2%nat /\ columnCount t = 1%nat /\
    map (map item_text) (table_items t) = [[Lit "1"]; [Lit "2"]].
Proof.
  split.
  - apply (proj2 (proj2 (add_table_bounds 3 [[PInt 1; PInt 2]; [PInt 3]] None)
                    [PInt 1; PInt 2] [[PInt 3]] eq_refl)).
    apply Exists_cons_tl, Exists_cons_hd. cbn. lia.
  - destruct (proj1 (proj2 (add_table_bounds 3 [[PInt 1]; [PInt 2; PInt 3]]
                               None)
                       [PInt 1] [[PInt 2; PInt 3]] eq_refl))
      as (avg & _ & Htable).
    + repeat constructor.
    + eexists. split; [exact Htable|]. repeat split.
Defined.

Lemma load_config_heatmaps_are_rules_witness :
  let data :=
    PDict [("heatmaps",
            PList [PDict [("name", PStr " A "); ("max_deviation", PInt (-1))];
                   PDict [("max_deviation", PInt 3)];
                   PStr "B"])] in
  Cfg.heatmaps (fst (load_config (Cfg.Document data))) =
    Some [heatmap_entry "A" Float.zero] /\
  Forall is_heatmap_rule [heatmap_entry "A" Float.zero].
Proof.
  cbv zeta. split; [vm_compute; reflexivity|].
  refine (proj2 (load_config_heatmaps_are_rules
                   (Cfg.Document
                      (PDict
                         [("heatmaps",
                           PList [PDict [("name", PStr " A ");
                                         ("max_deviation", PInt (-1))];
                                  PDict [("max_deviation", PInt 3)];
                                  PStr "B"])]))
                   _ _)).
  vm_compute. reflexivity.
Defined.

Lemma heatmaps_override_legacy_keys_witness :
  let data :=
    PDict [("heatmaps", PList [PDict [("name", PStr "A")]]);
           ("heatmap_tables", PStr "T");
           ("max_deviation", PInt (-5))] in
  Cfg.heatmaps (fst (load_config (Cfg.Document data))) =
    Some [heatmap_entry "A" Cfg.default_max_deviation] /\
  Cfg.heatmap_tables (fst (load_config (Cfg.Document data))) = None /\
  Cfg.max_deviation (fst (load_config (Cfg.Document data))) =
    Cfg.default_max_deviation /\
  ~ In Cfg.WarnMaxDeviation (snd (load_config (Cfg.Document data))).
Proof.
  cbv zeta. split; [vm_compute; reflexivity|].
  refine (heatmaps_override_legacy_keys (Cfg.Document _) _ _).
  vm_compute. reflexivity.
Defined.

Lemma loaded_rules_select_tables_witness :
  let data :=
    PDict [("heatmaps",
            PList [PDict [("name", PStr "A"); ("max_deviation", PInt 1)];
                   PDict [("name", PStr "A"); ("max_deviation", PInt 2)]])] in
  exists tv,
    App_table_viewer (fst (load_config (Cfg.Document data))) = Ok tv /\
    max_dev_for tv "A" = Some (Float.of_Z 2) /\
    max_dev_for tv "B" = None.
Proof.
  cbv zeta.
  exists (TableViewer_init (Some 3%nat)
            (Some (<["A" := Float.of_Z 2]> (<["A" := Float.of_Z 1]> ∅)))
            (Some Cfg.default_max_deviation)).
  assert (Hhm : Cfg.heatmaps
                  (fst (load_config
                          (Cfg.Document
                             (PDict
                                [("heatmaps",
                                  PList [PDict [("name", PStr "A");
                                                ("max_deviation", PInt 1)];
                                         PDict [("name", PStr "A");
                                                ("max_deviation", PInt 2)]])]))))
                = Some [heatmap_entry "A" (Float.of_Z 1);
                        heatmap_entry "A" (Float.of_Z 2)])
    by (vm_compute; reflexivity).
  assert (Htv : App_table_viewer
                  (fst (load_config
                          (Cfg.Document
                             (PDict
                                [("heatmaps",
                                  PList [PDict [("name", PStr "A");
                                                ("max_deviation", PInt 1)];
                                         PDict [("name", PStr "A");
                                                ("max_deviation", PInt 2)]])]))))
                = Ok (TableViewer_init (Some 3%nat)
                        (Some (<["A" := Float.of_Z 2]>
                                 (<["A" := Float.of_Z 1]> ∅)))
                        (Some Cfg.default_max_deviation)))
    by (vm_compute; reflexivity).
  split; [exact Htv|]. split.
  - apply (proj2 (loaded_rules_select_tables _ _ _ "A" Hhm Htv)
             [heatmap_entry "A" (Float.of_Z 1)] (Float.of_Z 2) [] eq_refl).
    intros h [].
  - apply (proj1 (loaded_rules_select_tables _ _ _ "B" Hhm Htv)).
    intros h [<-|[<-|[]]]; discriminate.
Defined.

Lemma nameless_rules_colour_every_table_witness :
  App_rules (Some [[("max_deviation", PInt 1)]]) (Some ["T"])
    Cfg.default_max_deviation = Ok (Some ∅) /\
  max_dev_for
    (TableViewer_init None (Some ∅) (Some Cfg.default_max_deviation)) "U"
  = Some Cfg.default_max_deviation.
Proof.
  destruct (nameless_rules_colour_every_table
              [[("max_deviation", PInt 1)]] (Some ["T"])
              Cfg.default_max_deviation) as [Hrules Hall].
  - discriminate.
  - repeat constructor.
  - split; [exact Hrules|apply Hall].
Defined.

Lemma legacy_tables_share_one_threshold_witness :
  let cfg := Cfg.mk "COM3" 9600 [] 2 None (Some ["T"]) (Float.of_ratio 1 10) in
  exists tv,
    App_table_viewer cfg = Ok tv /\
    max_dev_for tv "T" = Some (Float.of_ratio 1 10).
Proof.
  cbv zeta.
  destruct (legacy_tables_share_one_threshold
              (Cfg.mk "COM3" 9600 [] 2 None (Some ["T"]) (Float.of_ratio 1 10))
              "T" eq_refl) as (tv & Htv & Hmd).
  exists tv. split; [exact Htv|]. rewrite Hmd. reflexivity.
Defined.

Lemma quick_buttons_fill_the_grid_in_order_witness :
  let buttons :=
    [button_entry "a" "1"; [("name", PStr "x")];
     button_entry "b" "2"; button_entry "c" "3"] in
  exists items,
    build_quick_buttons buttons = Ok items /\
    length items = 3%nat /\
    forall k item,
      items !! k = Some item ->
      grid_row item = (k / 2)%nat /\ grid_col item = (k mod 2)%nat.
Proof.
  cbv zeta. eexists. split; [reflexivity|].
  destruct (quick_buttons_fill_the_grid_in_order
              [button_entry "a" "1"; [("name", PStr "x")];
               button_entry "b" "2"; button_entry "c" "3"] _
              ltac:(discriminate) eq_refl) as [Hlen Hitems].
  split; [reflexivity|].
  intros k item Hk. destruct (Hitems k item Hk) as (Hr & Hc & _). now split.
Defined.

Lemma unusable_buttons_leave_the_panel_empty_witness :
  build_quick_buttons
    [[("name", PStr "x")]; [("name", PStr "y"); ("value", PInt 0)]] = Ok [].
Proof.
  apply unusable_buttons_leave_the_panel_empty; [discriminate|].
  repeat constructor.
Defined.

Lemma open_port_receives_the_history_witness :
  let app := mkConsole (mkLink true (Some (mkSerial true []))) EmptyString [] in
  let actions := [Typed " led on "; Clicked (PInt 7); Typed "  "] in
  is_live (worker app) = true /\
  wire (worker (fold_left act actions app)) =
    ["led on" +:+ newline; "7" +:+ newline] /\
  cmd_history (fold_left act actions app) = ["led on"; "7"].
Proof.
  cbv zeta. split; [reflexivity|]. split; [|vm_compute; reflexivity].
  destruct (open_port_receives_the_history
              (mkConsole (mkLink true (Some (mkSerial true []))) EmptyString [])
              [Typed " led on "; Clicked (PInt 7); Typed "  "] eq_refl)
    as [_ Hwire].
  - repeat constructor; discriminate.
  - rewrite Hwire. vm_compute. reflexivity.
Defined.

Lemma closed_port_receives_nothing_witness :
  let app := mkConsole (mkLink true (Some (mkSerial true ["x"]))) EmptyString [] in
  let actions := [Typed "led on"; Clicked (PStr " go ")] in
  wire (worker (fold_left act actions (act app Closed))) = ["x"] /\
  cmd_history (fold_left act actions (act app Closed)) = ["led on"; "go"].
Proof.
  cbv zeta.
  destruct (closed_port_receives_nothing
              (act (mkConsole (mkLink true (Some (mkSerial true ["x"])))
                      EmptyString []) Closed)
              [Typed "led on"; Clicked (PStr " go ")] eq_refl)
    as (_ & Hwire & Hhistory).
  split; [rewrite Hwire|rewrite Hhistory]; vm_compute; reflexivity.
Defined.

Lemma key_mean_not_positive_is_all_green_witness :
  let table_data := [[PInt (-1); PInt (-3); PStr "x"]] in
  average (collect_nums table_data) = Ok (Float.of_Z (-2)) /\
  Key.add_table table_data =
    Ok (mkTable 1 3
          [[mkItem (StrOf (PInt (-1))) (Some (mkQColor 204 255 204));
            mkItem (StrOf (PInt (-3))) (Some (mkQColor 204 255 204));
            mkItem (StrOf (PStr "x")) None]]).
Proof.
  cbv zeta. split; [vm_compute; reflexivity|].
  rewrite (key_mean_not_positive_is_all_green
             [[PInt (-1); PInt (-3); PStr "x"]] (Float.of_Z (-2))).
  - vm_compute. reflexivity.
  - repeat constructor.
  - vm_compute. reflexivity.
  - reflexivity.
  - discriminate.
Defined.

Lemma key_nan_cell_reddens_the_table_witness :
  Key.add_table [[PFloat S754_nan; PInt 1]; [PInt 1; PNone]] =
    Ok (mkTable 2 2
          [[mkItem (StrOf (PFloat S754_nan)) (Some (mkQColor 255 204 204));
            mkItem (StrOf (PInt 1)) (Some (mkQColor 255 204 204))];
           [mkItem (StrOf (PInt 1)) (Some (mkQColor 255 204 204));
            mkItem (StrOf PNone) None]]).
Proof.
  rewrite (key_nan_cell_reddens_the_table
             [[PFloat S754_nan; PInt 1]; [PInt 1; PNone]]).
  - vm_compute. reflexivity.
  - repeat constructor.
  - vm_compute. now left.
Defined.
